(** * Enterprise Workflow Choreographer: orchestration core

    A shallow embedding of the orchestration engine
    (src/models.py, src/agents/orchestrator.py,
    src/agents/incident_agent.py, src/workflows/choreographer.py,
    src/workflows/incident_workflow.py)
    together with the properties its specification states about it.

    Python objects that the code mutates in place (the incident, the
    workflow and its steps, the context's result mapping) live in an
    explicit store; [await]ed calls are sequential, so coroutines are
    modelled as ordinary store-passing computations that either return a
    value or raise an exception carrying its description [str(e)]. *)

From stdpp Require Import base strings list gmap.
From Stdlib Require Import ZArith Lia.

Local Open Scope string_scope.
Local Open Scope list_scope.

Set Warnings "-register-all".

(** ** Python values *)

(** The dynamically typed payloads of the code ([Dict[str, Any]], JSON
    responses).  A dict keeps insertion order, like Python's. *)
Inductive value : Type :=
| VNone
| VBool (b : bool)
| VInt (z : Z)
| VStr (s : string)
| VList (l : list value)
| VDict (d : list (string * value)).

Abbreviation pydict := (list (string * value)).

(** Python truthiness, as used by [if x:] and [x or y]. *)
Definition truthy (v : value) : bool :=
  match v with
  | VNone => false
  | VBool b => b
  | VInt z => negb (Z.eqb z 0)
  | VStr s => negb (String.eqb s "")
  | VList l => match l with [] => false | _ => true end
  | VDict d => match d with [] => false | _ => true end
  end.

(** A string is the UTF-8 encoding of a Python [str].  A character of
    the [str] is a code point: a leading byte followed by its
    continuation bytes, the bytes [10xxxxxx]. *)
Definition is_continuation (c : Ascii.ascii) : bool :=
  (128 <=? Ascii.nat_of_ascii c)%nat && (Ascii.nat_of_ascii c <? 192)%nat.

(** [s[:n]] on a [str]: its first [n] characters. *)
Fixpoint str_take (n : nat) (s : string) : string :=
  match s with
  | EmptyString => EmptyString
  | String c rest =>
      if is_continuation c then String c (str_take n rest)
      else
        match n with
        | O => EmptyString
        | S n' => String c (str_take n' rest)
        end
  end.

(** Whether a string goes on with the character begun before it. *)
Definition continues (s : string) : bool :=
  match s with
  | EmptyString => false
  | String c _ => is_continuation c
  end.

(** [list(s)] on a [str]: its characters, each a string of its own. *)
Fixpoint code_points (s : string) : list string :=
  match s with
  | EmptyString => []
  | String c rest =>
      match code_points rest with
      | w :: ws =>
          if continues rest then String c w :: ws
          else String c EmptyString :: w :: ws
      | [] => [String c EmptyString]
      end
  end.

(** [d.get(k)] and [d.get(k, dflt)] on a dict. *)
Fixpoint dict_get (d : pydict) (k : string) : option value :=
  match d with
  | [] => None
  | (k', v) :: d' => if String.eqb k' k then Some v else dict_get d' k
  end.

Definition dict_get_or (d : pydict) (k : string) (dflt : value) : value :=
  match dict_get d k with Some v => v | None => dflt end.

(** [d[k] = v]: overwrite in place, or append a new key. *)
Fixpoint dict_set (d : pydict) (k : string) (v : value) : pydict :=
  match d with
  | [] => [(k, v)]
  | (k', v') :: d' =>
      if String.eqb k' k then (k', v) :: d' else (k', v') :: dict_set d' k v
  end.

(** ** Data model (src/models.py) *)

Inductive IncidentSeverity := CRITICAL | HIGH | MEDIUM | LOW.

#[global] Instance IncidentSeverity_eq_dec : EqDecision IncidentSeverity.
Proof. solve_decision. Defined.

Definition severity_value (s : IncidentSeverity) : string :=
  match s with
  | CRITICAL => "critical" | HIGH => "high" | MEDIUM => "medium" | LOW => "low"
  end.

Inductive IncidentStatus :=
  DETECTED | TRIAGING | IN_PROGRESS | MITIGATED | RESOLVED | CLOSED.

Definition status_value (s : IncidentStatus) : string :=
  match s with
  | DETECTED => "detected" | TRIAGING => "triaging"
  | IN_PROGRESS => "in_progress" | MITIGATED => "mitigated"
  | RESOLVED => "resolved" | CLOSED => "closed"
  end.

Inductive IncidentCategory :=
  INFRASTRUCTURE | APPLICATION | DATABASE | NETWORK | SECURITY
| PERFORMANCE | INTEGRATION | UNKNOWN.

Definition category_value (c : IncidentCategory) : string :=
  match c with
  | INFRASTRUCTURE => "infrastructure" | APPLICATION => "application"
  | DATABASE => "database" | NETWORK => "network" | SECURITY => "security"
  | PERFORMANCE => "performance" | INTEGRATION => "integration"
  | UNKNOWN => "unknown"
  end.

(** Wall-clock readings ([datetime.utcnow()]) are ticks of the store's
    clock. *)
Definition datetime := nat.

(** Pydantic models do not validate on attribute assignment, so a field
    the code assigns from [dict.get] holds whatever the dict held: those
    fields are typed [value], with [VNone] for Python's [None]. *)
Module Incident.
Record t := mk {
  id : string;
  title : string;
  description : string;
  severity : IncidentSeverity;
  status : IncidentStatus;
  category : IncidentCategory;
  source_system : string;
  source_alert_id : option string;
  affected_services : list string;
  affected_components : list string;
  servicenow_ticket_id : value;
  github_issue_url : option string;
  slack_channel_id : value;
  confluence_page_id : value;
  assigned_team : option string;
  assigned_responders : list string;
  root_cause_hypothesis : value;
  resolution_steps : list string;
  detected_at : datetime;
  acknowledged_at : option datetime;
  mitigated_at : option datetime;
  resolved_at : option datetime;
  tags : list string;
  metadata : pydict
}.

Definition set_servicenow_ticket_id (v : value) (i : t) : t :=
  mk (id i) (title i) (description i) (severity i) (status i) (category i)
     (source_system i) (source_alert_id i) (affected_services i)
     (affected_components i) v (github_issue_url i) (slack_channel_id i)
     (confluence_page_id i) (assigned_team i) (assigned_responders i)
     (root_cause_hypothesis i) (resolution_steps i) (detected_at i)
     (acknowledged_at i) (mitigated_at i) (resolved_at i) (tags i)
     (metadata i).

Definition set_slack_channel_id (v : value) (i : t) : t :=
  mk (id i) (title i) (description i) (severity i) (status i) (category i)
     (source_system i) (source_alert_id i) (affected_services i)
     (affected_components i) (servicenow_ticket_id i) (github_issue_url i) v
     (confluence_page_id i) (assigned_team i) (assigned_responders i)
     (root_cause_hypothesis i) (resolution_steps i) (detected_at i)
     (acknowledged_at i) (mitigated_at i) (resolved_at i) (tags i)
     (metadata i).

Definition set_confluence_page_id (v : value) (i : t) : t :=
  mk (id i) (title i) (description i) (severity i) (status i) (category i)
     (source_system i) (source_alert_id i) (affected_services i)
     (affected_components i) (servicenow_ticket_id i) (github_issue_url i)
     (slack_channel_id i) v (assigned_team i) (assigned_responders i)
     (root_cause_hypothesis i) (resolution_steps i) (detected_at i)
     (acknowledged_at i) (mitigated_at i) (resolved_at i) (tags i)
     (metadata i).

Definition set_root_cause_hypothesis (v : value) (i : t) : t :=
  mk (id i) (title i) (description i) (severity i) (status i) (category i)
     (source_system i) (source_alert_id i) (affected_services i)
     (affected_components i) (servicenow_ticket_id i) (github_issue_url i)
     (slack_channel_id i) (confluence_page_id i) (assigned_team i)
     (assigned_responders i) v (resolution_steps i) (detected_at i)
     (acknowledged_at i) (mitigated_at i) (resolved_at i) (tags i)
     (metadata i).

Definition set_assigned_responders (v : list string) (i : t) : t :=
  mk (id i) (title i) (description i) (severity i) (status i) (category i)
     (source_system i) (source_alert_id i) (affected_services i)
     (affected_components i) (servicenow_ticket_id i) (github_issue_url i)
     (slack_channel_id i) (confluence_page_id i) (assigned_team i) v
     (root_cause_hypothesis i) (resolution_steps i) (detected_at i)
     (acknowledged_at i) (mitigated_at i) (resolved_at i) (tags i)
     (metadata i).

Definition set_status (v : IncidentStatus) (i : t) : t :=
  mk (id i) (title i) (description i) (severity i) v (category i)
     (source_system i) (source_alert_id i) (affected_services i)
     (affected_components i) (servicenow_ticket_id i) (github_issue_url i)
     (slack_channel_id i) (confluence_page_id i) (assigned_team i)
     (assigned_responders i) (root_cause_hypothesis i) (resolution_steps i)
     (detected_at i) (acknowledged_at i) (mitigated_at i) (resolved_at i)
     (tags i) (metadata i).

Definition set_acknowledged_at (v : option datetime) (i : t) : t :=
  mk (id i) (title i) (description i) (severity i) (status i) (category i)
     (source_system i) (source_alert_id i) (affected_services i)
     (affected_components i) (servicenow_ticket_id i) (github_issue_url i)
     (slack_channel_id i) (confluence_page_id i) (assigned_team i)
     (assigned_responders i) (root_cause_hypothesis i) (resolution_steps i)
     (detected_at i) v (mitigated_at i) (resolved_at i) (tags i)
     (metadata i).
End Incident.

Module WorkflowStep.
Record t := mk {
  id : string;
  name : string;
  action : string;
  target_tool : string;
  parameters : pydict;
  status : string;
  result : option pydict;
  error : option string;
  started_at : option datetime;
  completed_at : option datetime
}.

Definition set_status (v : string) (s : t) : t :=
  mk (id s) (name s) (action s) (target_tool s) (parameters s) v
     (result s) (error s) (started_at s) (completed_at s).
Definition set_result (v : option pydict) (s : t) : t :=
  mk (id s) (name s) (action s) (target_tool s) (parameters s) (status s)
     v (error s) (started_at s) (completed_at s).
Definition set_error (v : option string) (s : t) : t :=
  mk (id s) (name s) (action s) (target_tool s) (parameters s) (status s)
     (result s) v (started_at s) (completed_at s).
Definition set_started_at (v : option datetime) (s : t) : t :=
  mk (id s) (name s) (action s) (target_tool s) (parameters s) (status s)
     (result s) (error s) v (completed_at s).
Definition set_completed_at (v : option datetime) (s : t) : t :=
  mk (id s) (name s) (action s) (target_tool s) (parameters s) (status s)
     (result s) (error s) (started_at s) v.
End WorkflowStep.

Module Workflow.
Record t := mk {
  id : string;
  incident_id : string;
  name : string;
  description : string;
  steps : list WorkflowStep.t;
  current_step_index : nat;
  status : string;
  created_at : datetime;
  started_at : option datetime;
  completed_at : option datetime
}.

Definition set_steps (v : list WorkflowStep.t) (w : t) : t :=
  mk (id w) (incident_id w) (name w) (description w) v
     (current_step_index w) (status w) (created_at w) (started_at w)
     (completed_at w).
Definition set_current_step_index (v : nat) (w : t) : t :=
  mk (id w) (incident_id w) (name w) (description w) (steps w) v
     (status w) (created_at w) (started_at w) (completed_at w).
Definition set_status (v : string) (w : t) : t :=
  mk (id w) (incident_id w) (name w) (description w) (steps w)
     (current_step_index w) v (created_at w) (started_at w)
     (completed_at w).
Definition set_started_at (v : option datetime) (w : t) : t :=
  mk (id w) (incident_id w) (name w) (description w) (steps w)
     (current_step_index w) (status w) (created_at w) v (completed_at w).
Definition set_completed_at (v : option datetime) (w : t) : t :=
  mk (id w) (incident_id w) (name w) (description w) (steps w)
     (current_step_index w) (status w) (created_at w) (started_at w) v.
End Workflow.

Module TeamMember.
Record t := mk {
  id : string;
  name : string;
  email : string;
  slack_user_id : option string;
  github_username : option string;
  teams : list string;
  skills : list string;
  on_call : bool
}.

(** [member in selected] compares models field by field. *)
#[global] Instance eq_dec : EqDecision t.
Proof. solve_decision. Defined.
End TeamMember.

Module ActionResult.
Record t := mk {
  success : bool;
  action : string;
  tool : string;
  message : string;
  data : option pydict;
  error : option string;
  timestamp : datetime
}.
End ActionResult.

(** ** Responder selection (choreographer.py, _select_relevant_team_members) *)

Definition category_skills : list (string * list string) :=
  [ ("database", ["postgresql"; "mysql"; "mongodb"; "dba"; "sql"]);
    ("infrastructure", ["kubernetes"; "aws"; "docker"; "sre"; "devops"]);
    ("network", ["networking"; "dns"; "load-balancer"; "firewall"]);
    ("security", ["security"; "soc"; "incident-response"]);
    ("application", ["backend"; "frontend"; "java"; "python"; "nodejs"]);
    ("performance", ["performance"; "optimization"; "profiling"]) ].

(** [table.get(key, [])] *)
Fixpoint skills_get (table : list (string * list string)) (key : string)
  : list string :=
  match table with
  | [] => []
  | (k, v) :: rest => if String.eqb k key then v else skills_get rest key
  end.

(** [any(skill in m.skills for skill in relevant_skills)] *)
Definition has_relevant_skill (relevant_skills : list string)
    (m : TeamMember.t) : bool :=
  existsb (fun skill => bool_decide (skill ∈ TeamMember.skills m))
          relevant_skills.

(** One turn of
    [if member not in selected and len(selected) < 5: selected.append(member)]. *)
Definition select_append (selected : list TeamMember.t) (member : TeamMember.t)
  : list TeamMember.t :=
  if bool_decide (member ∉ selected) && (List.length selected <? 5)%nat
  then selected ++ [member]
  else selected.

Definition _select_relevant_team_members (incident : Incident.t)
    (all_members : list TeamMember.t) : list TeamMember.t :=
  let on_call := filter (fun m => TeamMember.on_call m = true) all_members in
  let relevant_skills :=
    skills_get category_skills (category_value (Incident.category incident)) in
  let skilled_members :=
    filter (fun m => has_relevant_skill relevant_skills m = true) all_members in
  let selected := take 2 on_call in
  let selected := foldl select_append selected skilled_members in
  let selected := foldl select_append selected all_members in
  selected.

(** A list with only the first occurrence of each member kept: what a
    loop that appends the members not yet appended makes of it. *)
Fixpoint first_occurrences (l : list TeamMember.t) : list TeamMember.t :=
  match l with
  | [] => []
  | m :: rest => m :: filter (fun x => x ≠ m) (first_occurrences rest)
  end.

(** ** Effects: a store-passing computation that may raise *)

(** The result of running a piece of Python: a value, or an exception
    identified by its description ([str(e)]).  Only [Exception]s are
    modelled; the interpreter-level [BaseException]s (interrupts, task
    cancellation) are outside the model. *)
Inductive outcome (A : Type) : Type :=
| Returned (a : A)
| Raised (e : string).
Arguments Returned {A} a.
Arguments Raised {A} e.

(** What happens to the store before an exception is raised stays
    done, as in Python. *)
Definition comp (S A : Type) : Type := S → outcome A * S.

#[global] Instance comp_ret {S} : MRet (comp S) :=
  fun A a s => (Returned a, s).
#[global] Instance comp_bind {S} : MBind (comp S) :=
  fun A B f c s =>
    match c s with
    | (Returned a, s') => f a s'
    | (Raised e, s') => (Raised e, s')
    end.

Definition raise {S A} (e : string) : comp S A := fun s => (Raised e, s).

(** [try: body  except Exception as e: handler(str(e))] *)
Definition try_except {S A} (body : comp S A) (handler : string → comp S A)
  : comp S A :=
  fun s =>
    match body s with
    | (Returned a, s') => (Returned a, s')
    | (Raised e, s') => handler e s'
    end.

Definition gets {S A} (f : S → A) : comp S A := fun s => (Returned (f s), s).
Definition modify {S} (f : S → S) : comp S unit := fun s => (Returned tt, f s).

(** [for x in xs: body(x)] *)
Fixpoint for_each {S A} (xs : list A) (body : A → comp S unit) : comp S unit :=
  match xs with
  | [] => mret tt
  | x :: rest => body x ;; for_each rest body
  end.

(** Building a list by [append] in a loop. *)
Fixpoint collect {S A B} (xs : list A) (body : A → comp S B)
  : comp S (list B) :=
  match xs with
  | [] => mret []
  | x :: rest => y ← body x; ys ← collect rest body; mret (y :: ys)
  end.

(** A computation on a part of the store, run on the whole store. *)
Definition zoom {S T A} (proj : S → T) (inj : T → S → S) (c : comp T A)
  : comp S A :=
  fun s => let '(o, t') := c (proj s) in (o, inj t' s).

(** ** The runtime: what handlers, stages and connectors can reach *)

(** One invocation of an external collaborator (ticketing, chat, code
    host, documentation, issue tracker, decision service). *)
Record Call := mkCall {
  call_target : string;
  call_incident : option Incident.t;
  call_members : list TeamMember.t;
  call_args : pydict
}.

Record Runtime := mkRuntime {
  rt_incident : Incident.t;
  rt_team_members : list TeamMember.t;
  rt_results : gmap string ActionResult.t;
  rt_calls : list Call;
  rt_clock : nat;
  rt_uuid : nat
}.

Definition set_rt_incident (v : Incident.t) (r : Runtime) : Runtime :=
  mkRuntime v (rt_team_members r) (rt_results r) (rt_calls r) (rt_clock r)
    (rt_uuid r).
Definition set_rt_team_members (v : list TeamMember.t) (r : Runtime)
  : Runtime :=
  mkRuntime (rt_incident r) v (rt_results r) (rt_calls r) (rt_clock r)
    (rt_uuid r).
Definition set_rt_results (v : gmap string ActionResult.t) (r : Runtime)
  : Runtime :=
  mkRuntime (rt_incident r) (rt_team_members r) v (rt_calls r) (rt_clock r)
    (rt_uuid r).
Definition set_rt_calls (v : list Call) (r : Runtime) : Runtime :=
  mkRuntime (rt_incident r) (rt_team_members r) (rt_results r) v (rt_clock r)
    (rt_uuid r).
Definition set_rt_clock (v : nat) (r : Runtime) : Runtime :=
  mkRuntime (rt_incident r) (rt_team_members r) (rt_results r) (rt_calls r) v
    (rt_uuid r).
Definition set_rt_uuid (v : nat) (r : Runtime) : Runtime :=
  mkRuntime (rt_incident r) (rt_team_members r) (rt_results r) (rt_calls r)
    (rt_clock r) v.

Abbreviation rt := (comp Runtime).

(** [datetime.utcnow()] *)
Definition utcnow : rt datetime :=
  fun r => (Returned (rt_clock r), set_rt_clock (S (rt_clock r)) r).

Definition get_incident : rt Incident.t := gets rt_incident.
Definition update_incident (f : Incident.t → Incident.t) : rt unit :=
  modify (fun r => set_rt_incident (f (rt_incident r)) r).

(** [v.get(k)] / [v.get(k, dflt)] on a dynamically typed value: only a
    dict has [get]. *)
Definition py_get {S} (v : value) (k : string) (dflt : value) : comp S value :=
  match v with
  | VDict d => mret (dict_get_or d k dflt)
  | _ => raise "AttributeError: object has no attribute 'get'"
  end.

(** [v[:n]] on a dynamically typed value: lists and strings can be
    sliced. *)
Definition py_take {S} (n : nat) (v : value) : comp S value :=
  match v with
  | VList l => mret (VList (take n l))
  | VStr s => mret (VStr (str_take n s))
  | _ => raise "TypeError: object is not subscriptable"
  end.

(** [for x in v]: what iterating a dynamically typed value yields. *)
Definition py_iter {S} (v : value) : comp S (list value) :=
  match v with
  | VList l => mret l
  | VDict d => mret (map (fun kv => VStr (fst kv)) d)
  | VStr s => mret (map VStr (code_points s))
  | _ => raise "TypeError: object is not iterable"
  end.

(** The environment of the program: the parts it calls but does not
    define. *)
Record Environment := mkEnvironment {
  (** the reply of a collaborator to a call, given the calls made before *)
  collaborator : Call → list Call → outcome value;
  (** [uuid.uuid4()], by draw number *)
  uuid4 : nat → string;
  (** [str(v)] inside f-strings *)
  py_str : value → string;
  (** pydantic's validation of a [bool] field *)
  pyd_bool : value → option bool;
  (** pydantic's validation of a [str] field *)
  pyd_str : value → option string;
  (** [json.loads]; [None] stands for [JSONDecodeError] *)
  json_loads : string → option value;
  (** [str.strip] *)
  py_strip : string → string;
  (** [str.upper] *)
  py_upper : string → string;
  (** config.features *)
  auto_ticketing : bool;
  slack_notifications : bool;
  confluence_docs : bool;
  github_analysis : bool;
  (** config.github.org *)
  github_org : string
}.

Section Runtime.
Context (env : Environment).

(** [await connector.method(...)]: the call is journaled, then the
    collaborator answers or raises. *)
Definition invoke (c : Call) : rt value :=
  fun r => (collaborator env c (rt_calls r),
            set_rt_calls (rt_calls r ++ [c]) r).

Definition fresh_uuid : rt string :=
  fun r => (Returned (uuid4 env (rt_uuid r)), set_rt_uuid (S (rt_uuid r)) r).

Definition validate_bool {S} (v : value) : comp S bool :=
  match pyd_bool env v with
  | Some b => mret b
  | None => raise "ValidationError: Input should be a valid boolean"
  end.

Definition validate_str {S} (v : value) : comp S string :=
  match pyd_str env v with
  | Some s => mret s
  | None => raise "ValidationError: Input should be a valid string"
  end.

Definition validate_opt_str {S} (v : value) : comp S (option string) :=
  match v with
  | VNone => mret None
  | _ => s ← validate_str v; mret (Some s)
  end.

Definition validate_dict {S} (v : value) : comp S pydict :=
  match v with
  | VDict d => mret d
  | _ => raise "ValidationError: Input should be a valid dictionary"
  end.

Definition validate_opt_dict {S} (v : value) : comp S (option pydict) :=
  match v with
  | VNone => mret None
  | _ => d ← validate_dict v; mret (Some d)
  end.

(** [ActionResult(success=..., ...)] with already typed arguments: the
    timestamp comes from the default factory. *)
Definition ActionResult_new (success : bool) (action tool message : string)
    (data : option pydict) (error : option string) : rt ActionResult.t :=
  now ← utcnow;
  mret (ActionResult.mk success action tool message data error now).

(** [WorkflowStep(name=..., action=..., target_tool=..., parameters=...)] *)
Definition WorkflowStep_new (name action target_tool : string)
    (parameters : pydict) : rt WorkflowStep.t :=
  id ← fresh_uuid;
  mret (WorkflowStep.mk id name action target_tool parameters "pending"
          None None None None).
End Runtime.

(** ** Workflow Builder (src/agents/orchestrator.py) *)

Section Orchestrator.
Context (env : Environment).

(** The text of the planning prompt is an f-string over the incident's
    title, severity, category and description and the tool list; its
    wording is a parameter. *)
Context (steps_prompt : string → string → string → string → string → string).

Definition DEFAULT_MODEL : string := "ibm/granite-13b-chat-v2".

(** [self._get_model().generate_text(prompt)] *)
Definition generate_text (model_id prompt : string) : rt value :=
  invoke env (mkCall "watsonx.generate_text" None []
                [("model_id", VStr model_id); ("prompt", VStr prompt)]).

(** [response.strip()] *)
Definition strip_response (response : value) : rt string :=
  match response with
  | VStr s => mret (py_strip env s)
  | _ => raise "AttributeError: object has no attribute 'strip'"
  end.

Definition loads (s : string) : rt value :=
  match json_loads env s with
  | Some v => mret v
  | None => raise "JSONDecodeError: Expecting value"
  end.

(** The body of the loop: one [WorkflowStep] from one descriptor. *)
Definition step_of_descriptor (step_data : value) : rt WorkflowStep.t :=
  name ← py_get step_data "name" (VStr "Unknown Step");
  action ← py_get step_data "action" (VStr "unknown");
  target_tool ← py_get step_data "target_tool" (VStr "unknown");
  parameters ← py_get step_data "parameters" (VDict []);
  id ← fresh_uuid env;
  name ← validate_str env name;
  action ← validate_str env action;
  target_tool ← validate_str env target_tool;
  parameters ← validate_dict parameters;
  mret (WorkflowStep.mk id name action target_tool parameters "pending"
          None None None None).

Definition _get_default_workflow_steps (incident : Incident.t)
  : rt (list WorkflowStep.t) :=
  s1 ← WorkflowStep_new env "Create ServiceNow Ticket" "create_ticket"
         "servicenow" [("incident_id", VStr (Incident.id incident))];
  s2 ← WorkflowStep_new env "Create Incident Channel" "create_channel"
         "slack" [("incident_id", VStr (Incident.id incident))];
  steps ←
    (if bool_decide (Incident.severity incident ∈ [CRITICAL; HIGH]) then
       s3 ← WorkflowStep_new env "Notify Response Team" "notify_team"
              "slack" [("urgency", VStr "high")];
       s4 ← WorkflowStep_new env "Analyze Recent Changes"
              "analyze_commits" "github" [("hours_back", VInt 24)];
       mret (([s1; s2] ++ [s3]) ++ [s4])
     else mret [s1; s2]);
  s5 ← WorkflowStep_new env "Create Post-Mortem Template"
         "create_postmortem" "confluence"
         [("incident_id", VStr (Incident.id incident))];
  mret (steps ++ [s5]).

Definition recommend_workflow_steps (incident : Incident.t)
    (available_tools : list string) : rt (list WorkflowStep.t) :=
  let tools_str := String.concat ", " available_tools in
  let prompt :=
    steps_prompt (Incident.title incident)
      (severity_value (Incident.severity incident))
      (category_value (Incident.category incident))
      (Incident.description incident) tools_str in
  try_except
    (response ← generate_text DEFAULT_MODEL prompt;
     text ← strip_response response;
     steps_data ← loads text;
     items ← py_iter steps_data;
     collect items step_of_descriptor)
    (fun e => _get_default_workflow_steps incident).

End Orchestrator.

(** The call [recommend_workflow_steps] makes to the Decision Provider. *)
Definition planning_call
    (steps_prompt : string → string → string → string → string → string)
    (incident : Incident.t) (available_tools : list string) : Call :=
  mkCall "watsonx.generate_text" None []
    [("model_id", VStr DEFAULT_MODEL);
     ("prompt",
      VStr (steps_prompt (Incident.title incident)
              (severity_value (Incident.severity incident))
              (category_value (Incident.category incident))
              (Incident.description incident)
              (String.concat ", " available_tools)))].

(** The part of a step that the fallback fixes by severity alone. *)
Definition step_shape (s : WorkflowStep.t) : string * string * string :=
  (WorkflowStep.name s, WorkflowStep.action s, WorkflowStep.target_tool s).

(** ** Step Dispatcher (src/workflows/choreographer.py) *)

(** A line feed, for the message templates. *)
Definition nl : string := String (Ascii.ascii_of_nat 10) EmptyString.

(** [a or b] *)
Definition py_or (a b : value) : value := if truthy a then a else b.

(** A handler receives the step and the context; through the context it
    reaches the incident, the roster and the earlier results, and through
    the connectors the outside world: the [Runtime]. *)
Definition Handler : Type := WorkflowStep.t → rt ActionResult.t.

Section Handlers.
Context (env : Environment).

Definition _handle_create_ticket : Handler := fun step =>
  incident ← get_incident;
  if negb (auto_ticketing env) then
    ActionResult_new true (WorkflowStep.action step) "servicenow"
      "Auto-ticketing disabled" (Some [("skipped", VBool true)]) None
  else
    result ← invoke env (mkCall "servicenow.create_incident" (Some incident)
                           [] []);
    ok ← py_get result "success" VNone;
    if truthy ok then
      number ← py_get result "number" VNone;
      update_incident (Incident.set_servicenow_ticket_id number);;
      number ← py_get result "number" VNone;
      data ← validate_opt_dict result;
      ActionResult_new true (WorkflowStep.action step) "servicenow"
        ("Created ticket " ++ py_str env number) data None
    else
      err ← py_get result "error" VNone;
      error ← validate_opt_str env err;
      ActionResult_new false (WorkflowStep.action step) "servicenow"
        "Failed to create ticket" None error.

Definition _handle_update_ticket : Handler := fun step =>
  incident ← get_incident;
  if negb (truthy (Incident.servicenow_ticket_id incident)) then
    ActionResult_new false (WorkflowStep.action step) "servicenow"
      "No ticket ID available" None (Some "servicenow_ticket_id not set")
  else
    let updates :=
      dict_get_or (WorkflowStep.parameters step) "updates" (VDict []) in
    note ← py_get updates "note"
             (VStr "Automated update from Workflow Choreographer");
    result ← invoke env (mkCall "servicenow.add_work_note" None []
                           [("sys_id", Incident.servicenow_ticket_id incident);
                            ("note", note)]);
    flag ← py_get result "success" (VBool false);
    ok ← py_get result "success" VNone;
    success ← validate_bool env flag;
    data ← validate_opt_dict result;
    ActionResult_new success (WorkflowStep.action step) "servicenow"
      (if truthy ok then "Ticket updated" else "Update failed") data None.

Definition _handle_create_channel : Handler := fun step =>
  incident ← get_incident;
  if negb (slack_notifications env) then
    ActionResult_new true (WorkflowStep.action step) "slack"
      "Slack notifications disabled" (Some [("skipped", VBool true)]) None
  else
    result ← invoke env (mkCall "slack.create_incident_channel"
                           (Some incident) [] []);
    ok ← py_get result "success" VNone;
    if truthy ok then
      channel_id ← py_get result "channel_id" VNone;
      update_incident (Incident.set_slack_channel_id channel_id);;
      channel_name ← py_get result "channel_name" VNone;
      data ← validate_opt_dict result;
      ActionResult_new true (WorkflowStep.action step) "slack"
        ("Created channel " ++ py_str env channel_name) data None
    else
      err ← py_get result "error" VNone;
      error ← validate_opt_str env err;
      ActionResult_new false (WorkflowStep.action step) "slack"
        "Failed to create channel" None error.

Definition _handle_notify_team : Handler := fun step =>
  incident ← get_incident;
  let channel :=
    py_or (Incident.slack_channel_id incident)
      (dict_get_or (WorkflowStep.parameters step) "channel" VNone) in
  if negb (truthy channel) then
    ActionResult_new false (WorkflowStep.action step) "slack"
      "No channel available for notification" None (Some "No channel_id")
  else
    let message :=
      dict_get_or (WorkflowStep.parameters step) "message"
        (VStr ("🚨 *"
               ++ py_upper env (severity_value (Incident.severity incident))
               ++ " Incident Detected*" ++ nl ++ nl
               ++ Incident.title incident ++ nl ++ nl
               ++ "Team members have been notified. Please acknowledge.")) in
    result ← invoke env (mkCall "slack.notify_team" (Some incident) []
                           [("channel", channel); ("message", message)]);
    flag ← py_get result "success" (VBool false);
    ok ← py_get result "success" VNone;
    success ← validate_bool env flag;
    data ← validate_opt_dict result;
    ActionResult_new success (WorkflowStep.action step) "slack"
      (if truthy ok then "Team notified" else "Notification failed") data None.

Definition _handle_assemble_team : Handler := fun step =>
  incident ← get_incident;
  team_members ← gets rt_team_members;
  match team_members with
  | [] =>
      ActionResult_new false (WorkflowStep.action step) "slack"
        "No team members available" None (Some "Empty team_members list")
  | _ =>
      if negb (truthy (Incident.slack_channel_id incident)) then
        ActionResult_new false (WorkflowStep.action step) "slack"
          "No incident channel available" None (Some "Create channel first")
      else
        let relevant_members :=
          _select_relevant_team_members incident team_members in
        result ← invoke env (mkCall "slack.assemble_response_team"
                               (Some incident) relevant_members
                               [("channel_id",
                                 Incident.slack_channel_id incident)]);
        ok ← py_get result "success" VNone;
        (if truthy ok then
           update_incident
             (Incident.set_assigned_responders
                (map TeamMember.id relevant_members))
         else mret tt);;
        flag ← py_get result "success" (VBool false);
        count ← py_get result "assembled_count" (VInt 0);
        success ← validate_bool env flag;
        data ← validate_opt_dict result;
        ActionResult_new success (WorkflowStep.action step) "slack"
          ("Assembled " ++ py_str env count ++ " team members") data None
  end.

Definition _handle_analyze_commits : Handler := fun step =>
  incident ← get_incident;
  if negb (github_analysis env) then
    ActionResult_new true (WorkflowStep.action step) "github"
      "GitHub analysis disabled" (Some [("skipped", VBool true)]) None
  else
    let repo :=
      py_or (dict_get_or (WorkflowStep.parameters step) "repo" VNone)
        (VStr (github_org env ++ "/main-app")) in
    let hours_back :=
      dict_get_or (WorkflowStep.parameters step) "hours_back" (VInt 24) in
    result ← invoke env (mkCall "github.analyze_recent_commits" None []
                           [("repo_name", repo); ("hours_back", hours_back);
                            ("affected_paths",
                             VList (map VStr
                                      (Incident.affected_services incident)))]);
    flag ← py_get result "success" (VBool false);
    total ← py_get result "total_commits" (VInt 0);
    success ← validate_bool env flag;
    data ← validate_opt_dict result;
    ActionResult_new success (WorkflowStep.action step) "github"
      ("Analyzed " ++ py_str env total ++ " commits") data None.

Definition _handle_gather_logs : Handler := fun step =>
  ActionResult_new true (WorkflowStep.action step) "logging"
    "Log gathering initiated"
    (Some [("sources", VList [VStr "application"; VStr "infrastructure"]);
           ("status", VStr "collecting")])
    None.

Definition _handle_create_postmortem : Handler := fun step =>
  incident ← get_incident;
  if negb (confluence_docs env) then
    ActionResult_new true (WorkflowStep.action step) "confluence"
      "Confluence docs disabled" (Some [("skipped", VBool true)]) None
  else
    result ← invoke env (mkCall "confluence.create_postmortem"
                           (Some incident) [] []);
    ok ← py_get result "success" VNone;
    if truthy ok then
      page_id ← py_get result "page_id" VNone;
      update_incident (Incident.set_confluence_page_id page_id);;
      title ← py_get result "title" VNone;
      data ← validate_opt_dict result;
      ActionResult_new true (WorkflowStep.action step) "confluence"
        ("Created post-mortem: " ++ py_str env title) data None
    else
      err ← py_get result "error" VNone;
      error ← validate_opt_str env err;
      ActionResult_new false (WorkflowStep.action step) "confluence"
        "Failed to create post-mortem" None error.

(** [r.data.get(k) if r and r.data else None] for an earlier result [r]
    read with [context.get("results", {}).get(action, {})]. *)
Definition upstream_field (results : gmap string ActionResult.t)
    (action k : string) : value :=
  match results !! action with
  | Some r =>
      match ActionResult.data r with
      | Some (kv :: d) => dict_get_or (kv :: d) k VNone
      | _ => VNone
      end
  | None => VNone
  end.

Definition _handle_generate_hypothesis : Handler := fun step =>
  incident ← get_incident;
  results ← gets rt_results;
  hypothesis ← invoke env (mkCall "ai.generate_root_cause_hypothesis"
                             (Some incident) []
                             [("logs",
                               upstream_field results "gather_logs" "logs");
                              ("recent_changes",
                               upstream_field results "analyze_commits"
                                 "commits")]);
  update_incident (Incident.set_root_cause_hypothesis hypothesis);;
  ActionResult_new true (WorkflowStep.action step) "ai"
    "Generated root cause hypothesis" (Some [("hypothesis", hypothesis)])
    None.

Definition _handle_search_knowledge : Handler := fun step =>
  incident ← get_incident;
  let query :=
    (category_value (Incident.category incident) ++ " "
     ++ String.concat " " (take 2 (Incident.affected_services incident)))%string
  in
  result ← invoke env (mkCall "confluence.search_knowledge_base" None []
                         [("query", VStr query)]);
  flag ← py_get result "success" (VBool false);
  total ← py_get result "total" (VInt 0);
  success ← validate_bool env flag;
  data ← validate_opt_dict result;
  ActionResult_new success (WorkflowStep.action step) "confluence"
    ("Found " ++ py_str env total ++ " relevant articles") data None.

Definition _handle_post_update : Handler := fun step =>
  incident ← get_incident;
  if negb (truthy (Incident.slack_channel_id incident)) then
    ActionResult_new false (WorkflowStep.action step) "slack"
      "No channel available" None (Some "No slack_channel_id")
  else
    let update_type :=
      dict_get_or (WorkflowStep.parameters step) "update_type"
        (VStr "status_change") in
    let details :=
      dict_get_or (WorkflowStep.parameters step) "details"
        (VStr "Workflow step completed") in
    result ← invoke env (mkCall "slack.post_incident_update" (Some incident)
                           []
                           [("channel_id", Incident.slack_channel_id incident);
                            ("update_type", update_type);
                            ("details", details)]);
    flag ← py_get result "success" (VBool false);
    ok ← py_get result "success" VNone;
    success ← validate_bool env flag;
    data ← validate_opt_dict result;
    ActionResult_new success (WorkflowStep.action step) "slack"
      (if truthy ok then "Update posted" else "Post failed") data None.

(** [self._action_handlers], as built by [__init__]. *)
Definition default_action_handlers : gmap string Handler :=
  list_to_map
    [ ("create_ticket", _handle_create_ticket);
      ("update_ticket", _handle_update_ticket);
      ("create_channel", _handle_create_channel);
      ("notify_team", _handle_notify_team);
      ("assemble_team", _handle_assemble_team);
      ("analyze_commits", _handle_analyze_commits);
      ("gather_logs", _handle_gather_logs);
      ("create_postmortem", _handle_create_postmortem);
      ("generate_hypothesis", _handle_generate_hypothesis);
      ("search_knowledge", _handle_search_knowledge);
      ("post_update", _handle_post_update) ].
End Handlers.

(** The dispatcher's own objects: the workflow with its steps, next to
    the runtime its handlers work on.  A step object is named by its
    position in [workflow.steps]. *)
Record Store := mkStore {
  st_workflow : Workflow.t;
  st_rt : Runtime
}.

Abbreviation exec := (comp Store).

Definition lift {A} (c : rt A) : exec A :=
  zoom st_rt (fun r s => mkStore (st_workflow s) r) c.

Definition update_workflow (f : Workflow.t → Workflow.t) : exec unit :=
  modify (fun s => mkStore (f (st_workflow s)) (st_rt s)).

(** An attribute assignment on the [i]-th step object. *)
Definition update_step (i : nat) (f : WorkflowStep.t → WorkflowStep.t)
  : exec unit :=
  update_workflow (fun w => Workflow.set_steps (alter f i (Workflow.steps w)) w).

(** [enumerate(xs)] *)
Fixpoint enumerate_from {A} (i : nat) (xs : list A) : list (nat * A) :=
  match xs with
  | [] => []
  | x :: rest => (i, x) :: enumerate_from (S i) rest
  end.
Definition enumerate {A} (xs : list A) : list (nat * A) := enumerate_from 0 xs.

(** [result.data or {}] *)
Definition data_or_empty (data : option pydict) : pydict :=
  match data with
  | Some (kv :: d) => kv :: d
  | _ => []
  end.

Definition _update_incident_from_result (step : WorkflowStep.t)
    (result : ActionResult.t) : rt unit :=
  if negb (ActionResult.success result) then mret tt
  else
    let data := data_or_empty (ActionResult.data result) in
    if String.eqb (WorkflowStep.action step) "create_ticket" then
      update_incident
        (Incident.set_servicenow_ticket_id (dict_get_or data "number" VNone))
    else if String.eqb (WorkflowStep.action step) "create_channel" then
      update_incident
        (Incident.set_slack_channel_id (dict_get_or data "channel_id" VNone))
    else if String.eqb (WorkflowStep.action step) "create_postmortem" then
      update_incident
        (Incident.set_confluence_page_id (dict_get_or data "page_id" VNone))
    else if String.eqb (WorkflowStep.action step) "generate_hypothesis" then
      update_incident
        (Incident.set_root_cause_hypothesis
           (dict_get_or data "hypothesis" VNone))
    else mret tt.

Definition _is_critical_step (step : WorkflowStep.t) : bool :=
  let critical_actions := ["create_ticket"] in
  bool_decide (WorkflowStep.action step ∈ critical_actions).

Section Dispatcher.
(** [self._action_handlers]: the dispatcher works with whatever mapping
    the object holds. *)
Context (_action_handlers : gmap string Handler).

Definition _execute_step (i : nat) (step : WorkflowStep.t)
  : exec ActionResult.t :=
  update_step i (WorkflowStep.set_status "running");;
  now ← lift utcnow;
  update_step i (WorkflowStep.set_started_at (Some now));;
  let step :=
    WorkflowStep.set_started_at (Some now)
      (WorkflowStep.set_status "running" step) in
  match _action_handlers !! WorkflowStep.action step with
  | None =>
      lift (ActionResult_new false (WorkflowStep.action step)
              (WorkflowStep.target_tool step)
              ("Unknown action: " ++ WorkflowStep.action step)
              None (Some "No handler registered for action"))
  | Some handler =>
      try_except
        (lift (handler step))
        (fun e =>
           lift (ActionResult_new false (WorkflowStep.action step)
                   (WorkflowStep.target_tool step)
                   ("Action failed: " ++ e) None (Some e)))
  end.

(** The body of the loop over [enumerate(workflow.steps)]. *)
Definition _execute_workflow_step (i : nat) (step : WorkflowStep.t)
  : exec unit :=
  update_workflow (Workflow.set_current_step_index i);;
  try_except
    (result ← _execute_step i step;
     update_step i
       (WorkflowStep.set_status
          (if ActionResult.success result then "completed" else "failed"));;
     update_step i (WorkflowStep.set_result (ActionResult.data result));;
     now ← lift utcnow;
     update_step i (WorkflowStep.set_completed_at (Some now));;
     lift (modify (fun r =>
             set_rt_results
               (<[WorkflowStep.action step := result]> (rt_results r)) r));;
     lift (_update_incident_from_result step result);;
     (if negb (ActionResult.success result) && _is_critical_step step
      then mret tt
      else mret tt))
    (fun e =>
       update_step i (WorkflowStep.set_status "failed");;
       update_step i (WorkflowStep.set_error (Some e));;
       now ← lift utcnow;
       update_step i (WorkflowStep.set_completed_at (Some now))).

(** [_execute_workflow(workflow, incident, team_members)]: the workflow
    and the incident are the ones in the store. *)
Definition _execute_workflow (team_members : option (list TeamMember.t))
  : exec unit :=
  update_workflow (Workflow.set_status "running");;
  now ← lift utcnow;
  update_workflow (Workflow.set_started_at (Some now));;
  lift (modify (fun r =>
          set_rt_results ∅
            (set_rt_team_members (default [] team_members) r)));;
  steps ← gets (fun s => Workflow.steps (st_workflow s));
  for_each (enumerate steps)
    (fun '(i, step) => _execute_workflow_step i step);;
  update_workflow (Workflow.set_status "completed");;
  now ← lift utcnow;
  update_workflow (Workflow.set_completed_at (Some now)).
End Dispatcher.

(** ** Vocabulary for the properties *)

(** One reading of the clock. *)
Definition tick (r : Runtime) : Runtime := set_rt_clock (S (rt_clock r)) r.

(** A step as [_execute_step] leaves it at dispatch. *)
Definition running (now : datetime) (s : WorkflowStep.t) : WorkflowStep.t :=
  WorkflowStep.set_started_at (Some now) (WorkflowStep.set_status "running" s).

(** A step as the loop leaves it once its result is in. *)
Definition finished (res : ActionResult.t) (t1 t2 : datetime)
    (s : WorkflowStep.t) : WorkflowStep.t :=
  WorkflowStep.set_completed_at (Some t2)
    (WorkflowStep.set_result (ActionResult.data res)
       (WorkflowStep.set_status
          (if ActionResult.success res then "completed" else "failed")
          (running t1 s))).

(** The result [_execute_step] builds itself, when no handler ran to
    completion. *)
Definition failure_result (step : WorkflowStep.t) (message error : string)
    (now : datetime) : ActionResult.t :=
  ActionResult.mk false (WorkflowStep.action step)
    (WorkflowStep.target_tool step) message None (Some error) now.

(** [s'] is what the loop made of the step [s0]: some dispatch of [s0]
    returned [res], and [s'] is [s0] finished with it. *)
Definition dispatched (handlers : gmap string Handler)
    (s0 s' : WorkflowStep.t) (res : ActionResult.t) : Prop :=
  ∃ i st st1,
    _execute_step handlers i s0 st = (Returned res, st1)
    ∧ s' = finished res (rt_clock (st_rt st)) (rt_clock (st_rt st1)) s0.

(** The call the ticket handler makes to the ticketing collaborator. *)
Definition ticket_call (incident : Incident.t) : Call :=
  mkCall "servicenow.create_incident" (Some incident) [] [].

(** A collaborator call that did not succeed: it raised, or its reply
    has no truthy [success] entry (a reply that is no dict at all makes
    the handler raise when it reads it). *)
Definition call_failed (o : outcome value) : Prop :=
  match o with
  | Raised _ => True
  | Returned (VDict d) => truthy (dict_get_or d "success" VNone) = false
  | Returned _ => True
  end.

(** An incident with the four whitelisted fields blanked: two incidents
    with the same image differ at most in those fields. *)
Definition blank_whitelisted (i : Incident.t) : Incident.t :=
  Incident.set_servicenow_ticket_id VNone
    (Incident.set_slack_channel_id VNone
       (Incident.set_confluence_page_id VNone
          (Incident.set_root_cause_hypothesis VNone i))).

(** ** Fixed Playbook (src/workflows/incident_workflow.py) *)

(** A stage builds its result record in a local dict that it mutates as
    it goes; what was written before a fault is still there when the
    [except] clause runs.  The record therefore sits in the state of the
    stage, next to the runtime. *)
Abbreviation stage := (comp (pydict * Runtime)).

Definition in_rt {A} (c : rt A) : stage A :=
  zoom snd (fun r s => (fst s, r)) c.

(** [result[k] = v] *)
Definition result_set (k : string) (v : value) : stage unit :=
  modify (fun s => (dict_set (fst s) k v, snd s)).

(** [result.get(k, dflt)] *)
Definition result_get (k : string) (dflt : value) : stage value :=
  gets (fun s => dict_get_or (fst s) k dflt).

(** [result["diagnostics"][k] = v] *)
Definition diag_set (k : string) (v : value) : stage unit :=
  d ← result_get "diagnostics" (VDict []);
  match d with
  | VDict dd => result_set "diagnostics" (VDict (dict_set dd k v))
  | _ => raise "TypeError: object does not support item assignment"
  end.

(** Run a computation that owns a local record and hand the record
    back. *)
Definition with_local {L S A} (init : L) (c : comp (L * S) A)
  : comp S (L * A) :=
  fun s =>
    match c (init, s) with
    | (Returned a, (l, s')) => (Returned (l, a), s')
    | (Raised e, (_, s')) => (Raised e, s')
    end.

(** [s or dflt] on strings. *)
Definition str_or (s dflt : string) : string :=
  if String.eqb s "" then dflt else s.

Definition INCIDENT_CHANNEL : string := "#incident-response".

Definition _get_priority (severity : IncidentSeverity) : string :=
  match severity with
  | CRITICAL => "P1" | HIGH => "P2" | MEDIUM => "P3" | LOW => "P4"
  end.

Definition assignee_skills : list (string * list string) :=
  [ ("database", ["dba"; "postgresql"; "mysql"; "sql"]);
    ("infrastructure", ["sre"; "devops"; "kubernetes"]);
    ("security", ["security"; "soc"]);
    ("network", ["networking"; "dns"]);
    ("application", ["backend"; "developer"]) ].

Definition _select_assignee (incident : Incident.t)
    (team_members : list TeamMember.t) : option TeamMember.t :=
  let on_call := filter (fun m => TeamMember.on_call m = true) team_members in
  match on_call with
  | m :: _ => Some m
  | [] =>
      let relevant_skills :=
        skills_get assignee_skills
          (category_value (Incident.category incident)) in
      match filter (fun m => has_relevant_skill relevant_skills m = true)
              team_members with
      | m :: _ => Some m
      | [] => head team_members
      end
  end.

Definition _select_response_team (incident : Incident.t)
    (all_members : list TeamMember.t) : list TeamMember.t :=
  let on_call := filter (fun m => TeamMember.on_call m = true) all_members in
  let selected := [] ++ take 2 on_call in
  foldl select_append selected all_members.

Definition category_recs : list (string * string) :=
  [ ("database", "Check database connection pools and recent schema changes");
    ("infrastructure", "Verify container/pod health and resource limits");
    ("network", "Check DNS resolution and load balancer health");
    ("security", "Review authentication logs and access patterns");
    ("application", "Check application logs for exceptions and errors") ].

Fixpoint recs_get (table : list (string * string)) (key : string)
  : option string :=
  match table with
  | [] => None
  | (k, v) :: rest => if String.eqb k key then Some v else recs_get rest key
  end.

Section Playbook.
Context (env : Environment).
(** [datetime.isoformat] *)
Context (isoformat : datetime → string).

(** The frame every stage function shares: the record is opened with the
    stage name, status pending and the start stamp; the body runs under
    [try]; a fault marks the record failed with the fault's description;
    the completion stamp is written either way and the record is
    returned. *)
Definition run_stage (name : string) (extra : pydict) (body : stage unit)
  : rt pydict :=
  now ← utcnow;
  '(result, _) ←
    with_local
      ([("step", VStr name); ("status", VStr "pending");
        ("started_at", VStr (isoformat now))] ++ extra)
      (try_except body
         (fun e =>
            result_set "status" (VStr "failed");;
            result_set "error" (VStr e));;
       now ← in_rt utcnow;
       result_set "completed_at" (VStr (isoformat now)));
  mret result.

Definition _step1_body : stage unit :=
  incident ← in_rt get_incident;
  snow_result ← in_rt (invoke env (ticket_call incident));
  ok ← py_get snow_result "success" VNone;
  if truthy ok then
    number ← py_get snow_result "number" VNone;
    in_rt (update_incident (Incident.set_servicenow_ticket_id number));;
    result_set "status" (VStr "completed");;
    number ← py_get snow_result "number" VNone;
    result_set "ticket_number" number;;
    link ← py_get snow_result "link" VNone;
    result_set "ticket_link" link;;
    result_set "classification"
      (VDict [("severity",
               VStr (severity_value (Incident.severity incident)));
              ("category",
               VStr (category_value (Incident.category incident)));
              ("priority",
               VStr (_get_priority (Incident.severity incident)))])
  else
    result_set "status" (VStr "failed");;
    err ← py_get snow_result "error" VNone;
    result_set "error" err.

Definition _step1_create_servicenow_ticket : rt pydict :=
  run_stage "Create ServiceNow Ticket" [] _step1_body.

Definition severity_emoji (severity : IncidentSeverity) : string :=
  match severity with
  | CRITICAL => "🔴" | HIGH => "🟠" | MEDIUM => "🟡" | LOW => "🟢"
  end.

(** The adjacent f-strings are joined before the conditional applies, so
    without a channel id the whole message is empty. *)
Definition alert_message (incident : Incident.t) : string :=
  if truthy (Incident.slack_channel_id incident) then
    (severity_emoji (Incident.severity incident) ++ " *"
     ++ py_upper env (severity_value (Incident.severity incident))
     ++ " INCIDENT DETECTED*" ++ nl ++ nl
     ++ "*Title:* " ++ Incident.title incident ++ nl
     ++ "*Category:* " ++ category_value (Incident.category incident) ++ nl
     ++ "*Affected Services:* "
     ++ str_or (String.concat ", " (Incident.affected_services incident))
          "TBD" ++ nl ++ nl
     ++ "*Description:*" ++ nl
     ++ str_take 500 (Incident.description incident) ++ nl ++ nl
     ++ "📋 ServiceNow: "
     ++ py_str env (py_or (Incident.servicenow_ticket_id incident)
                      (VStr "Creating...")) ++ nl
     ++ "💬 Incident Channel: <#"
     ++ py_str env (Incident.slack_channel_id incident) ++ ">")%string
  else "".

Definition _step2_body : stage unit :=
  incident ← in_rt get_incident;
  channel_result ← in_rt (invoke env (mkCall "slack.create_incident_channel"
                                        (Some incident) [] []));
  ok ← py_get channel_result "success" VNone;
  (if truthy ok then
     channel_id ← py_get channel_result "channel_id" VNone;
     in_rt (update_incident (Incident.set_slack_channel_id channel_id));;
     channel_name ← py_get channel_result "channel_name" VNone;
     result_set "incident_channel" channel_name;;
     link ← py_get channel_result "link" VNone;
     result_set "channel_link" link
   else mret tt);;
  incident ← in_rt get_incident;
  notify_result ← in_rt (invoke env (mkCall "slack.notify_team"
                                       (Some incident) []
                                       [("channel", VStr INCIDENT_CHANNEL);
                                        ("message",
                                         VStr (alert_message incident))]));
  ok ← py_get notify_result "success" VNone;
  if truthy ok then
    result_set "status" (VStr "completed");;
    result_set "alert_sent" (VBool true);;
    result_set "alert_channel" (VStr INCIDENT_CHANNEL)
  else
    result_set "status" (VStr "partial");;
    err ← py_get notify_result "error" VNone;
    result_set "error" err.

Definition _step2_send_slack_alert : rt pydict :=
  run_stage "Send Slack Alert" [] _step2_body.

(** One of the three loops over the repositories: a reply with a truthy
    [success] contributes an entry, any other reply contributes none. *)
Definition gather (repos : list string) (call : string → Call)
    (entry : string → value → stage value) : stage (list value) :=
  found ← collect repos (fun repo =>
             reply ← in_rt (invoke env (call repo));
             ok ← py_get reply "success" VNone;
             if truthy ok then e ← entry repo reply; mret (Some e)
             else mret None);
  mret (omap (fun x => x) found).

Definition _step3_body (repositories : option (list string)) : stage unit :=
  incident ← in_rt get_incident;
  let repos :=
    match repositories with
    | Some (repo :: rest) => repo :: rest
    | _ => [(github_org env ++ "/main-app")%string]
    end in
  commits_data ←
    gather repos
      (fun repo =>
         mkCall "github.analyze_recent_commits" None []
           [("repo_name", VStr repo);
            ("hours_back",
             VInt (if bool_decide (Incident.severity incident
                                     ∈ [CRITICAL; HIGH])
                   then 48 else 72));
            ("affected_paths",
             VList (map VStr (Incident.affected_services incident)))])
      (fun repo commits_result =>
         total ← py_get commits_result "total_commits" (VInt 0);
         high ← py_get commits_result "high_relevance_count" (VInt 0);
         commits ← py_get commits_result "commits" (VList []);
         commits ← py_take 10 commits;
         mret (VDict [("repository", VStr repo); ("total_commits", total);
                      ("high_relevance", high); ("commits", commits)]));
  diag_set "recent_commits" (VList commits_data);;
  deployment_data ←
    gather repos
      (fun repo =>
         mkCall "github.get_recent_deployments" None []
           [("repo_name", VStr repo); ("environment", VStr "production")])
      (fun repo deploy_result =>
         deployments ← py_get deploy_result "deployments" (VList []);
         deployments ← py_take 5 deployments;
         mret (VDict [("repository", VStr repo);
                      ("deployments", deployments)]));
  diag_set "recent_deployments" (VList deployment_data);;
  workflow_data ←
    gather repos
      (fun repo =>
         mkCall "github.get_workflow_runs" None []
           [("repo_name", VStr repo); ("status", VStr "failure")])
      (fun repo workflow_result =>
         runs ← py_get workflow_result "runs" (VList []);
         runs ← py_take 5 runs;
         mret (VDict [("repository", VStr repo); ("failed_runs", runs)]));
  diag_set "failed_workflows" (VList workflow_data);;
  diag_set "error_logs"
    (VDict [("status", VStr "collected");
            ("sources", VList [VStr "application"; VStr "infrastructure"]);
            ("note",
             VStr "Integrate with your log aggregation system (ELK, Splunk, etc.)")]);;
  diag_set "metrics"
    (VDict [("status", VStr "collected");
            ("sources", VList [VStr "prometheus"; VStr "datadog"]);
            ("note", VStr "Integrate with your metrics system")]);;
  result_set "status" (VStr "completed").

Definition _step3_gather_diagnostics (repositories : option (list string))
  : rt pydict :=
  run_stage "Gather Diagnostic Information" [("diagnostics", VDict [])]
    (_step3_body repositories).

(** One of the two scans of [_generate_recommendations]. *)
Definition recommend_for {S} (entries : value) (field : string)
    (text : value → string) : comp S (list string) :=
  items ← py_iter entries;
  found ← collect items (fun repo_data =>
             present ← py_get repo_data field VNone;
             if truthy present then
               repository ← py_get repo_data "repository" VNone;
               mret (Some (text repository))
             else mret None);
  mret (omap (fun x => x) found).

Definition _generate_recommendations {S} (incident : Incident.t)
    (diagnostics : pydict) : comp S (list string) :=
  deployments ←
    py_get (dict_get_or diagnostics "diagnostics" (VDict []))
      "recent_deployments" (VList []);
  recs1 ←
    recommend_for deployments "deployments"
      (fun repository =>
         ("Recent deployment detected in " ++ py_str env repository
          ++ " - consider rollback if needed")%string);
  failed_workflows ←
    py_get (dict_get_or diagnostics "diagnostics" (VDict []))
      "failed_workflows" (VList []);
  recs2 ←
    recommend_for failed_workflows "failed_runs"
      (fun repository =>
         ("Failed CI/CD runs in " ++ py_str env repository
          ++ " - investigate build failures")%string);
  let recs3 :=
    match recs_get category_recs
            (category_value (Incident.category incident)) with
    | Some text => [text]
    | None => []
    end in
  mret ((recs1 ++ recs2) ++ recs3).

Definition _step4_body (diagnostics : pydict) : stage unit :=
  repos_data ←
    py_get (dict_get_or diagnostics "diagnostics" (VDict []))
      "recent_commits" (VList []);
  items ← py_iter repos_data;
  chunks ← collect items (fun repo_data =>
              commits ← py_get repo_data "commits" (VList []);
              py_iter commits);
  let recent_commits := concat chunks in
  metrics ←
    py_get (dict_get_or diagnostics "diagnostics" (VDict [])) "metrics" VNone;
  incident ← in_rt get_incident;
  hypothesis ← in_rt (invoke env (mkCall "ai.generate_root_cause_hypothesis"
                                    (Some incident) []
                                    [("logs", VNone);
                                     ("recent_changes",
                                      VList (take 10 recent_commits));
                                     ("metrics", metrics)]));
  in_rt (update_incident (Incident.set_root_cause_hypothesis hypothesis));;
  incident ← in_rt get_incident;
  recommendations ← _generate_recommendations incident diagnostics;
  result_set "status" (VStr "completed");;
  result_set "hypothesis" hypothesis;;
  result_set "recommendations" (VList (map VStr recommendations));;
  result_set "confidence" (VStr "medium");;
  result_set "analyzed_commits" (VInt (Z.of_nat (List.length recent_commits)));;
  if truthy (Incident.slack_channel_id incident) then
    excerpt ← py_take 500 hypothesis;
    in_rt (invoke env (mkCall "slack.post_incident_update" (Some incident) []
                         [("channel_id", Incident.slack_channel_id incident);
                          ("update_type", VStr "analysis_complete");
                          ("details",
                           VStr ("*Root Cause Analysis Complete*" ++ nl ++ nl
                                 ++ py_str env excerpt ++ "..."))]));;
    mret tt
  else mret tt.

Definition _step4_analyze_root_cause (diagnostics : pydict) : rt pydict :=
  run_stage "Analyze Root Cause" [] (_step4_body diagnostics).

Definition _step5_body : stage unit :=
  incident ← in_rt get_incident;
  confluence_result ← in_rt (invoke env (mkCall "confluence.create_postmortem"
                                           (Some incident) [] []));
  ok ← py_get confluence_result "success" VNone;
  if truthy ok then
    page_id ← py_get confluence_result "page_id" VNone;
    in_rt (update_incident (Incident.set_confluence_page_id page_id));;
    result_set "status" (VStr "completed");;
    page_id ← py_get confluence_result "page_id" VNone;
    result_set "page_id" page_id;;
    page_url ← py_get confluence_result "page_url" VNone;
    result_set "page_url" page_url;;
    title ← py_get confluence_result "title" VNone;
    result_set "page_title" title;;
    incident ← in_rt get_incident;
    if truthy (Incident.slack_channel_id incident) then
      page_url ← py_get confluence_result "page_url" VNone;
      in_rt (invoke env (mkCall "slack.post_incident_update" (Some incident)
                           []
                           [("channel_id",
                             Incident.slack_channel_id incident);
                            ("update_type", VStr "status_change");
                            ("details",
                             VStr ("📄 Incident page created: "
                                   ++ py_str env page_url))]));;
      mret tt
    else mret tt
  else
    result_set "status" (VStr "failed");;
    err ← py_get confluence_result "error" VNone;
    result_set "error" err.

Definition _step5_create_confluence_page : rt pydict :=
  run_stage "Create Confluence Incident Page" [] _step5_body.

Definition _step6_body (team_members : option (list TeamMember.t))
  : stage unit :=
  incident ← in_rt get_incident;
  jira_result ← in_rt (invoke env (mkCall "jira.create_incident_issue"
                                     (Some incident) [] []));
  ok ← py_get jira_result "success" VNone;
  (if truthy ok then
     issue_key ← py_get jira_result "issue_key" VNone;
     result_set "jira_issue" issue_key;;
     issue_url ← py_get jira_result "issue_url" VNone;
     result_set "jira_url" issue_url;;
     match team_members with
     | Some (m :: ms) =>
         match _select_assignee incident (m :: ms) with
         | Some relevant_member =>
             if negb (String.eqb (TeamMember.email relevant_member) "") then
               issue_key ← py_get jira_result "issue_key" VNone;
               in_rt (invoke env (mkCall "jira.assign_issue" None []
                                    [("issue_key", issue_key);
                                     ("assignee",
                                      VStr (TeamMember.email
                                              relevant_member))]));;
               result_set "assigned_to"
                 (VStr (TeamMember.name relevant_member));;
               in_rt (update_incident (fun i =>
                        Incident.set_assigned_responders
                          (Incident.assigned_responders i
                           ++ [TeamMember.id relevant_member]) i))
             else mret tt
         | None => mret tt
         end
     | _ => mret tt
     end
   else mret tt);;
  incident ← in_rt get_incident;
  match team_members with
  | Some (m :: ms) =>
      if truthy (Incident.slack_channel_id incident) then
        team_result ← in_rt (invoke env
                               (mkCall "slack.assemble_response_team"
                                  (Some incident)
                                  (_select_response_team incident (m :: ms))
                                  [("channel_id",
                                    Incident.slack_channel_id incident)]));
        count ← py_get team_result "assembled_count" (VInt 0);
        result_set "team_assembled" count
      else mret tt
  | _ => mret tt
  end;;
  jira_url ← result_get "jira_url" (VStr "N/A");
  assigned_to ← result_get "assigned_to" (VStr "Unassigned");
  let notification :=
    ("👥 *Incident Assigned*" ++ nl ++ nl
     ++ "*Jira:* " ++ py_str env jira_url ++ nl
     ++ "*ServiceNow:* "
     ++ py_str env (py_or (Incident.servicenow_ticket_id incident)
                      (VStr "N/A")) ++ nl
     ++ "*Confluence:* "
     ++ py_str env (py_or (Incident.confluence_page_id incident)
                      (VStr "N/A")) ++ nl
     ++ "*Assigned To:* " ++ py_str env assigned_to)%string in
  (if truthy (Incident.slack_channel_id incident) then
     in_rt (invoke env (mkCall "slack.post_incident_update" (Some incident) []
                          [("channel_id", Incident.slack_channel_id incident);
                           ("update_type", VStr "team_assigned");
                           ("details", VStr notification)]));;
     mret tt
   else mret tt);;
  result_set "status" (VStr "completed").

Definition _step6_assign_and_notify
    (team_members : option (list TeamMember.t)) : rt pydict :=
  run_stage "Assign and Notify" [] (_step6_body team_members).

Definition monitoring_message (incident : Incident.t) : string :=
  ("📊 *Monitoring Active*" ++ nl ++ nl
   ++ "• Incident status: *" ++ status_value (Incident.status incident)
   ++ "*" ++ nl
   ++ "• Response team assembled" ++ nl
   ++ "• All systems linked and tracking" ++ nl ++ nl
   ++ "_Updates will be automatically posted to this channel._")%string.

Definition _step7_body : stage unit :=
  in_rt (update_incident (Incident.set_status IN_PROGRESS));;
  now ← in_rt utcnow;
  in_rt (update_incident (Incident.set_acknowledged_at (Some now)));;
  incident ← in_rt get_incident;
  (if truthy (Incident.servicenow_ticket_id incident) then
     in_rt (invoke env (mkCall "servicenow.add_work_note" None []
                          [("sys_id", Incident.servicenow_ticket_id incident);
                           ("note",
                            VStr "Incident workflow completed. Team assigned. Monitoring active.")]));;
     mret tt
   else mret tt);;
  (if truthy (Incident.slack_channel_id incident) then
     in_rt (invoke env (mkCall "slack.notify_team" (Some incident) []
                          [("channel", Incident.slack_channel_id incident);
                           ("message",
                            VStr (monitoring_message incident))]));;
     mret tt
   else mret tt);;
  result_set "status" (VStr "completed");;
  result_set "monitoring_active" (VBool true);;
  result_set "incident_status" (VStr (status_value (Incident.status incident)));;
  result_set "tracking_enabled"
    (VDict [("servicenow",
             VBool (truthy (Incident.servicenow_ticket_id incident)));
            ("slack", VBool (truthy (Incident.slack_channel_id incident)));
            ("confluence",
             VBool (truthy (Incident.confluence_page_id incident)));
            ("jira", VBool true)]).

Definition _step7_monitor_and_update : rt pydict :=
  run_stage "Monitor and Update" [] _step7_body.
(** [workflow_result["steps"][k] = v] *)
Definition steps_set (k : string) (v : pydict) : stage unit :=
  d ← result_get "steps" (VDict []);
  match d with
  | VDict dd => result_set "steps" (VDict (dict_set dd k (VDict v)))
  | _ => raise "TypeError: object does not support item assignment"
  end.

(** [workflow_result["errors"].append(e)] *)
Definition errors_append (e : string) : stage unit :=
  l ← result_get "errors" (VList []);
  match l with
  | VList ll => result_set "errors" (VList (ll ++ [VStr e]))
  | _ => raise "AttributeError: object has no attribute 'append'"
  end.

(** The body of [execute_workflow], with the seven stage methods it
    calls on [self] as parameters.  The entry it files in
    [self.active_incidents] is an alias of the record it returns and is
    not modelled. *)
Definition execute_workflow_with (step1 step2 step3 : rt pydict)
    (step4 : pydict → rt pydict) (step5 step6 step7 : rt pydict)
  : rt pydict :=
  incident ← get_incident;
  now ← utcnow;
  '(workflow_result, _) ←
    with_local
      [("incident_id", VStr (Incident.id incident));
       ("workflow_name", VStr "Incident Response Workflow");
       ("started_at", VStr (isoformat now));
       ("steps", VDict []);
       ("success", VBool true);
       ("errors", VList [])]
      (try_except
         (step1_result ← in_rt step1;
          steps_set "1_create_servicenow_ticket" step1_result;;
          step2_result ← in_rt step2;
          steps_set "2_send_slack_alert" step2_result;;
          step3_result ← in_rt step3;
          steps_set "3_gather_diagnostics" step3_result;;
          step4_result ← in_rt (step4 step3_result);
          steps_set "4_analyze_root_cause" step4_result;;
          step5_result ← in_rt step5;
          steps_set "5_create_confluence_page" step5_result;;
          step6_result ← in_rt step6;
          steps_set "6_assign_and_notify" step6_result;;
          step7_result ← in_rt step7;
          steps_set "7_monitor_and_update" step7_result;;
          now ← in_rt utcnow;
          result_set "completed_at" (VStr (isoformat now)))
         (fun e =>
            result_set "success" (VBool false);;
            errors_append e));
  mret workflow_result.

Definition execute_workflow (repositories : option (list string))
    (team_members : option (list TeamMember.t)) : rt pydict :=
  execute_workflow_with
    _step1_create_servicenow_ticket
    _step2_send_slack_alert
    (_step3_gather_diagnostics repositories)
    _step4_analyze_root_cause
    _step5_create_confluence_page
    (_step6_assign_and_notify team_members)
    _step7_monitor_and_update.
End Playbook.

(** The keys under which the stage records are filed, in order. *)
Definition stage_keys : list string :=
  ["1_create_servicenow_ticket"; "2_send_slack_alert";
   "3_gather_diagnostics"; "4_analyze_root_cause";
   "5_create_confluence_page"; "6_assign_and_notify";
   "7_monitor_and_update"].

(** The record a stage opens before its [try]. *)
Definition stage_record (isoformat : datetime → string) (name : string)
    (extra : pydict) (now : datetime) : pydict :=
  [("step", VStr name); ("status", VStr "pending");
   ("started_at", VStr (isoformat now))] ++ extra.

(** ** Sample data for the worked instances *)

Definition alice : TeamMember.t :=
  TeamMember.mk "1" "Alice" "alice@test.com" None None [] ["python"] true.
Definition bob : TeamMember.t :=
  TeamMember.mk "2" "Bob" "bob@test.com" None None [] ["postgresql"; "dba"]
    false.

Definition sample_incident : Incident.t :=
  Incident.mk "inc-1" "Test" "Test incident" HIGH DETECTED DATABASE "" None
    [] [] VNone None VNone VNone None [] VNone [] 0 None None None [] [].

Definition sample_env : Environment :=
  mkEnvironment
    (fun _ _ => Raised "service unavailable")
    (fun n => String.concat "" (replicate n "x"))
    (fun _ => "")
    (fun v => match v with VBool b => Some b | _ => None end)
    (fun v => match v with VStr s => Some s | _ => None end)
    (fun _ => None)
    (fun s => s)
    (fun s => s)
    true true true true "acme".

Definition sample_prompt (title severity category description tools : string)
  : string :=
  String.concat " | " [title; severity; category; description; tools].

Definition sample_runtime : Runtime :=
  mkRuntime sample_incident [] ∅ [] 0 0.

(** The same incident under another identifier. *)
Definition other_incident : Incident.t :=
  Incident.mk "inc-2" "Test" "Test incident" HIGH DETECTED DATABASE "" None
    [] [] VNone None VNone VNone None [] VNone [] 0 None None None [] [].

Definition ticket_step : WorkflowStep.t :=
  WorkflowStep.mk "step-1" "Create ServiceNow Ticket" "create_ticket"
    "servicenow" [("incident_id", VStr "inc-1")] "pending" None None None
    None.

Definition sample_workflow (steps : list WorkflowStep.t) : Workflow.t :=
  Workflow.mk "wf-1" "inc-1" "Incident Response: Test"
    "Automated response workflow for high incident" steps 0 "pending" 0
    None None.

Definition sample_store : Store :=
  mkStore (sample_workflow [ticket_step]) sample_runtime.

Definition sample_step : WorkflowStep.t :=
  WorkflowStep.mk "step-1" "Reboot" "reboot_server" "ops" [] "pending"
    None None None None.

Definition ticket_result : ActionResult.t :=
  ActionResult.mk true "create_ticket" "servicenow" "Created"
    (Some [("number", VStr "INC0012345")]) None 0.

Definition no_ticketing_env : Environment :=
  mkEnvironment
    (fun _ _ => Returned (VDict [("success", VBool true)]))
    (fun n => String.concat "" (replicate n "x"))
    (fun _ => "")
    (fun v => match v with VBool b => Some b | _ => None end)
    (fun v => match v with VStr s => Some s | _ => None end)
    (fun _ => None)
    (fun s => s)
    (fun s => s)
    false true true true "acme".

(** An incident that already carries a ticket id. *)
Definition ticketed_incident : Incident.t :=
  Incident.set_servicenow_ticket_id (VStr "INC0012345") sample_incident.

Definition ticketed_store : Store :=
  mkStore (sample_workflow [ticket_step])
    (mkRuntime ticketed_incident [] ∅ [] 0 0).

(** Both collaborators answer, and both report a failure. *)
Definition failing_env : Environment :=
  mkEnvironment
    (fun c _ =>
       if String.eqb (call_target c) "servicenow.create_incident"
       then Returned (VDict [("success", VBool false);
                             ("error", VStr "ticketing down")])
       else Returned (VDict [("success", VBool false);
                             ("error", VStr "chat down")]))
    (fun n => String.concat "" (replicate n "x"))
    (fun _ => "")
    (fun v => match v with VBool b => Some b | _ => None end)
    (fun v => match v with VStr s => Some s | _ => None end)
    (fun _ => None)
    (fun s => s)
    (fun s => s)
    true true true true "acme".

Definition notify_step : WorkflowStep.t :=
  WorkflowStep.mk "step-2" "Notify Response Team" "notify_team" "slack"
    [("channel", VStr "#ops")] "pending" None None None None.

Definition two_step_store : Store :=
  mkStore (sample_workflow [ticket_step; notify_step]) sample_runtime.

Definition sample_isoformat (t : datetime) : string :=
  String.concat "" (replicate t "t").


(** The planner is down; every other collaborator succeeds. *)
Definition succeeding_env : Environment :=
  mkEnvironment
    (fun c _ =>
       if String.eqb (call_target c) "watsonx.generate_text"
       then Raised "planner unavailable"
       else Returned (VDict [("success", VBool true);
                             ("number", VStr "INC0012345");
                             ("channel_id", VStr "C042");
                             ("channel_name", VStr "inc-test");
                             ("page_id", VStr "P7");
                             ("title", VStr "Post-mortem: Test");
                             ("total_commits", VInt 3)]))
    (fun n => String.concat "" (replicate n "x"))
    (fun _ => "")
    (fun v => match v with VBool b => Some b | _ => None end)
    (fun v => match v with VStr s => Some s | _ => None end)
    (fun _ => None)
    (fun s => s)
    (fun s => s)
    true true true true "acme".

(** Plan with the builder, then run the plan. *)
Definition plan_and_run (env : Environment) (incident : Incident.t)
  : outcome unit * Store :=
  let r0 := mkRuntime incident [] ∅ [] 0 0 in
  match recommend_workflow_steps env sample_prompt incident ["slack"; "ai"] r0
  with
  | (Returned steps, r1) =>
      _execute_workflow (default_action_handlers env) None
        (mkStore (sample_workflow steps) r1)
  | (Raised e, r1) => (Raised e, mkStore (sample_workflow []) r1)
  end.

(** ** Further functions of the choreographer *)

Definition _get_available_tools (env : Environment) : list string :=
  let tools := [] in
  let tools := if auto_ticketing env then tools ++ ["servicenow"] else tools in
  let tools := if slack_notifications env then tools ++ ["slack"] else tools in
  let tools := if github_analysis env then tools ++ ["github"] else tools in
  let tools := if confluence_docs env then tools ++ ["confluence"] else tools in
  tools ++ ["ai"].

(** [Workflow(incident_id=..., name=..., description=..., steps=...)] *)
Definition Workflow_new (env : Environment) (incident_id name description : string)
    (steps : list WorkflowStep.t) : rt Workflow.t :=
  id ← fresh_uuid env;
  now ← utcnow;
  mret (Workflow.mk id incident_id name description steps 0 "pending" now
          None None).

(** The choreographer object: its registry of workflows next to the
    runtime.  A registry entry is a reference to the workflow object, so
    it always shows the object's current state. *)
Record Choreographer := mkChoreographer {
  active_workflows : gmap string Workflow.t;
  ch_rt : Runtime
}.

Section Orchestrate.
Context (env : Environment).
Context (steps_prompt : string → string → string → string → string → string).
Context (_action_handlers : gmap string Handler).

Definition orchestrate_incident_response
    (team_members : option (list TeamMember.t))
  : comp Choreographer Workflow.t :=
  fun ch =>
    let incident := rt_incident (ch_rt ch) in
    let available_tools := _get_available_tools env in
    match recommend_workflow_steps env steps_prompt incident available_tools
            (ch_rt ch) with
    | (Raised e, r1) => (Raised e, mkChoreographer (active_workflows ch) r1)
    | (Returned recommended_steps, r1) =>
        match Workflow_new env (Incident.id incident)
                ("Incident Response: "
                 ++ str_take 50 (Incident.title incident))
                ("Automated response workflow for "
                 ++ severity_value (Incident.severity incident)
                 ++ " incident")
                recommended_steps r1 with
        | (Raised e, r2) => (Raised e, mkChoreographer (active_workflows ch) r2)
        | (Returned workflow, r2) =>
            match _execute_workflow _action_handlers team_members
                    (mkStore workflow r2) with
            | (Returned _, st') =>
                (Returned (st_workflow st'),
                 mkChoreographer
                   (<[Workflow.id workflow := st_workflow st']>
                      (active_workflows ch))
                   (st_rt st'))
            | (Raised e, st') =>
                (Raised e,
                 mkChoreographer
                   (<[Workflow.id workflow := st_workflow st']>
                      (active_workflows ch))
                   (st_rt st'))
            end
        end
    end.

Definition get_workflow_status (workflow_id : string) (ch : Choreographer)
  : option Workflow.t :=
  active_workflows ch !! workflow_id.
End Orchestrate.

(** ** Further methods of the AI orchestrator *)


Section OrchestratorTexts.
Context (env : Environment).
(** The wording of the prompts and [json.dumps] are parameters. *)
Context (hypothesis_prompt : Incident.t → string → string → string → string).
Context (summary_prompt : Incident.t → string → string).
Context (team_prompt : Incident.t → string → string).
Context (json_dumps : value → string).



Definition summarize_incident_for_communication (incident : Incident.t)
    (audience : string) : rt string :=
  let prompt := summary_prompt incident audience in
  try_except
    (response ← generate_text env DEFAULT_MODEL prompt;
     strip_response env response)
    (fun e => mret (Incident.description incident)).

Definition recommend_team_assignment (incident : Incident.t)
    (available_teams : value) : rt value :=
  let teams_info := json_dumps available_teams in
  let prompt := team_prompt incident teams_info in
  try_except
    (response ← generate_text env DEFAULT_MODEL prompt;
     text ← strip_response env response;
     loads env text)
    (fun e =>
       mret (VDict [("primary_team", VStr "on-call");
                    ("reasoning", VStr "Default assignment due to AI error");
                    ("required_skills", VList [])])).
End OrchestratorTexts.



(** ** Sample data for the further properties *)

Definition no_slack_env : Environment :=
  mkEnvironment
    (fun _ _ => Returned (VDict [("success", VBool true)]))
    (fun n => String.concat "" (replicate n "x"))
    (fun _ => "")
    (fun v => match v with VBool b => Some b | _ => None end)
    (fun v => match v with VStr s => Some s | _ => None end)
    (fun _ => None)
    (fun s => s)
    (fun s => s)
    true false true true "acme".

(** What a handler may do to the runtime: append at most [n] calls to
    the journal and rewrite, in the incident, the ticket id, channel id,
    page id, hypothesis and responder list; nothing else. *)
Definition footprint (n : nat) (r r' : Runtime) : Prop :=
  rt_results r' = rt_results r
  ∧ rt_team_members r' = rt_team_members r
  ∧ rt_uuid r' = rt_uuid r
  ∧ Incident.set_assigned_responders [] (blank_whitelisted (rt_incident r'))
    = Incident.set_assigned_responders [] (blank_whitelisted (rt_incident r))
  ∧ ∃ cs, rt_calls r' = rt_calls r ++ cs ∧ (List.length cs ≤ n)%nat.

Definition bounded {A} (n : nat) (c : rt A) : Prop :=
  ∀ r o r', c r = (o, r') → footprint n r r'.

(** The store as [_execute_workflow] has it when the loop starts, and as
    it leaves it once the loop is over. *)
Definition start_store (team_members : option (list TeamMember.t))
    (st : Store) : Store :=
  mkStore
    (Workflow.set_started_at (Some (rt_clock (st_rt st)))
       (Workflow.set_status "running" (st_workflow st)))
    (set_rt_results ∅
       (set_rt_team_members (default [] team_members) (tick (st_rt st)))).

Definition finish_store (st : Store) : Store :=
  mkStore
    (Workflow.set_completed_at (Some (rt_clock (st_rt st)))
       (Workflow.set_status "completed" (st_workflow st)))
    (tick (st_rt st)).

(** The descriptor part of a step: what the builder fixed. *)
Definition step_descriptor (s : WorkflowStep.t)
  : string * string * string * string * pydict :=
  (WorkflowStep.id s, WorkflowStep.name s, WorkflowStep.action s,
   WorkflowStep.target_tool s, WorkflowStep.parameters s).

(** The identity part of a workflow. *)
Definition workflow_identity (w : Workflow.t)
  : string * string * string * string * datetime :=
  (Workflow.id w, Workflow.incident_id w, Workflow.name w,
   Workflow.description w, Workflow.created_at w).

Definition channel_step : WorkflowStep.t :=
  WorkflowStep.mk "step-0" "Create Incident Channel" "create_channel" "slack"
    [("incident_id", VStr "inc-1")] "pending" None None None None.

(** What pydantic and the defaults of [recommend_workflow_steps] make of
    one step descriptor: name, action, target tool and parameters, or
    nothing when the descriptor is no dict or a field does not
    validate. *)
Definition descriptor_fields (env : Environment) (item : value)
  : option (string * string * string * pydict) :=
  match item with
  | VDict d =>
      match pyd_str env (dict_get_or d "name" (VStr "Unknown Step")),
            pyd_str env (dict_get_or d "action" (VStr "unknown")),
            pyd_str env (dict_get_or d "target_tool" (VStr "unknown")),
            dict_get_or d "parameters" (VDict []) with
      | Some name, Some action, Some target_tool, VDict parameters =>
          Some (name, action, target_tool, parameters)
      | _, _, _, _ => None
      end
  | _ => None
  end.

(** Pending steps for a list of descriptor fields, with the identifiers
    drawn from the [u]-th draw on. *)
Fixpoint steps_of_fields (env : Environment) (u : nat)
    (fields : list (string * string * string * pydict))
  : list WorkflowStep.t :=
  match fields with
  | [] => []
  | (name, action, target_tool, parameters) :: rest =>
      WorkflowStep.mk (uuid4 env u) name action target_tool parameters
        "pending" None None None None
      :: steps_of_fields env (S u) rest
  end.

(** A Decision Provider that answers with a plan of one empty
    descriptor. *)
Definition planner_env : Environment :=
  mkEnvironment
    (fun _ _ => Returned (VStr "[{}]"))
    (fun n => String.concat "" (replicate n "x"))
    (fun _ => "")
    (fun v => match v with VBool b => Some b | _ => None end)
    (fun v => match v with VStr s => Some s | _ => None end)
    (fun s => if String.eqb s "[{}]" then Some (VList [VDict []]) else None)
    (fun s => s)
    (fun s => s)
    true true true true "acme".

(** A call to the Decision Provider for a completion of [prompt]. *)
Definition generation_call (model_id prompt : string) : Call :=
  mkCall "watsonx.generate_text" None []
    [("model_id", VStr model_id); ("prompt", VStr prompt)].



(** The default of [recommend_team_assignment]. *)
Definition default_assignment : value :=
  VDict [("primary_team", VStr "on-call");
         ("reasoning", VStr "Default assignment due to AI error");
         ("required_skills", VList [])].

(** An incident with its status and acknowledgement time blanked: two
    incidents with the same image differ at most in those two marks. *)
Definition blank_marks (i : Incident.t) : Incident.t :=
  Incident.set_status DETECTED (Incident.set_acknowledged_at None i).

(** ** Incident Agent (src/agents/incident_agent.py): the rule-based parts *)

(** [kw in text] on strings: [kw] occurs in [text] at some position. *)
Fixpoint contains (kw text : string) : bool :=
  String.prefix kw text
  || match text with
     | EmptyString => false
     | String _ rest => contains kw rest
     end.

(** The two keyword tables, in the order the dict literals list them,
    which is the order [items()] yields them in. *)
Definition SEVERITY_KEYWORDS : list (IncidentSeverity * list string) :=
  [ (CRITICAL, ["critical"; "fatal"; "emergency"; "outage"; "down";
                "production down"; "data loss"; "security breach"]);
    (HIGH, ["high"; "severe"; "major"; "degraded"; "failing";
            "error rate spike"; "latency"; "timeout"]);
    (MEDIUM, ["medium"; "warning"; "elevated"; "increased";
              "performance"; "slow"]);
    (LOW, ["low"; "minor"; "info"; "informational"; "notice"]) ].

Definition CATEGORY_KEYWORDS : list (IncidentCategory * list string) :=
  [ (DATABASE, ["database"; "db"; "sql"; "postgres"; "mysql"; "mongodb";
                "connection pool"; "query"; "deadlock"; "replication"]);
    (INFRASTRUCTURE, ["server"; "vm"; "container"; "kubernetes"; "k8s";
                      "pod"; "node"; "cluster"; "disk"; "memory"; "cpu"]);
    (NETWORK, ["network"; "dns"; "load balancer"; "firewall"; "timeout";
               "connection refused"; "unreachable"; "latency"]);
    (SECURITY, ["security"; "unauthorized"; "breach"; "attack";
                "vulnerability"; "authentication"; "permission";
                "access denied"]);
    (APPLICATION, ["application"; "api"; "service"; "endpoint"; "error";
                   "exception"; "crash"; "null pointer"]);
    (PERFORMANCE, ["performance"; "slow"; "latency"; "response time";
                   "throughput"; "bottleneck"; "queue"]) ].

(** [any(kw in text for kw in keywords)] *)
Definition any_keyword (keywords : list string) (text : string) : bool :=
  existsb (fun kw => contains kw text) keywords.

(** [sum(1 for kw in keywords if kw in text)] *)
Definition count_matches (keywords : list string) (text : string) : nat :=
  List.length (filter (fun kw => contains kw text = true) keywords).

(** The severity loop: the first table entry with a keyword in the text
    wins ([break]); without one the default stays. *)
Fixpoint severity_loop (table : list (IncidentSeverity * list string))
    (text : string) (severity : IncidentSeverity) : IncidentSeverity :=
  match table with
  | [] => severity
  | (sev, keywords) :: rest =>
      if any_keyword keywords text then sev
      else severity_loop rest text severity
  end.

(** One turn of the category loop on [(max_matches, category)]. *)
Definition category_turn (text : string) (acc : nat * IncidentCategory)
    (entry : IncidentCategory * list string) : nat * IncidentCategory :=
  let '(max_matches, category) := acc in
  let '(cat, keywords) := entry in
  let matches := count_matches keywords text in
  if (max_matches <? matches)%nat then (matches, cat)
  else (max_matches, category).

Section IncidentAgent.
(** [str.lower] *)
Context (py_lower : string → string).

Definition quick_classify (title description : string)
  : IncidentSeverity * IncidentCategory :=
  let text := py_lower (title ++ " " ++ description)%string in
  let severity := severity_loop SEVERITY_KEYWORDS text MEDIUM in
  let '(max_matches, category) :=
    foldl (category_turn text) (0%nat, UNKNOWN) CATEGORY_KEYWORDS in
  (severity, category).
End IncidentAgent.

(** The separator of field paths, [.]. *)
Definition dot : Ascii.ascii := Ascii.ascii_of_nat 46.

(** [path.split(".")] *)
Fixpoint split_dot (path : string) : list string :=
  match path with
  | EmptyString => [""]
  | String c rest =>
      if Ascii.eqb c dot then "" :: split_dot rest
      else
        match split_dot rest with
        | w :: ws => String c w :: ws
        | [] => [String c ""]
        end
  end.

(** The inner loop of [_extract_field]: follow the keys into nested
    dicts; a key that is missing, or a value that is no dict, gives
    [None]. *)
Fixpoint follow_path (v : value) (keys : list string) : value :=
  match keys with
  | [] => v
  | key :: rest =>
      match v with
      | VDict d =>
          match dict_get d key with
          | Some v' => follow_path v' rest
          | None => VNone
          end
      | _ => VNone
      end
  end.

Fixpoint _extract_field (data : value) (field_paths : list string)
  : option string :=
  match field_paths with
  | [] => None
  | path :: rest =>
      match follow_path data (split_dot path) with
      | VStr s =>
          if truthy (VStr s) then Some s else _extract_field data rest
      | _ => _extract_field data rest
      end
  end.

(** [field_mappings.get(source, field_mappings["default"])]: the title
    paths and the description paths of a source. *)
Definition field_mapping (source : string) : list string * list string :=
  if String.eqb source "datadog" then
    (["title"; "name"; "alert_title"], ["message"; "body"; "description"])
  else if String.eqb source "pagerduty" then
    (["incident.title"; "title"; "summary"],
     ["incident.description"; "description"; "details"])
  else if String.eqb source "prometheus" then
    (["labels.alertname"; "alertname"],
     ["annotations.description"; "annotations.summary"])
  else
    (["title"; "name"; "subject"; "summary"],
     ["description"; "message"; "body"; "details"]).

Definition _extract_alert_info (alert_data : value) (source : string)
  : string * string :=
  let mapping := field_mapping source in
  let title := default "Unknown Alert" (_extract_field alert_data (fst mapping)) in
  let description := default "" (_extract_field alert_data (snd mapping)) in
  (title, description).

(** How severe a severity is: smaller is more severe. *)
Definition severity_rank (s : IncidentSeverity) : nat :=
  match s with CRITICAL => 0 | HIGH => 1 | MEDIUM => 2 | LOW => 3 end.

(** [str.lower] on ASCII text, for the worked instances. *)
Definition ascii_lower (c : Ascii.ascii) : Ascii.ascii :=
  let n := Ascii.nat_of_ascii c in
  if (65 <=? n)%nat && (n <=? 90)%nat then Ascii.ascii_of_nat (n + 32)
  else c.

Fixpoint sample_lower (s : string) : string :=
  match s with
  | EmptyString => EmptyString
  | String c rest => String (ascii_lower c) (sample_lower rest)
  end.

(** A Prometheus alert: the name sits under [labels]. *)
Definition prometheus_alert : value :=
  VDict [("labels", VDict [("alertname", VStr "HighErrorRate")]);
         ("annotations", VDict [("summary", VStr "5xx above 5%")])].

(** A runtime whose incident has a channel and whose context has a
    roster. *)
Definition staffed_runtime : Runtime :=
  mkRuntime (Incident.set_slack_channel_id (VStr "C042") sample_incident)
    [alice; bob] ∅ [] 0 0.

(** The result the stock log handler files, and a context that holds
    it. *)
Definition gathered_logs : ActionResult.t :=
  ActionResult.mk true "gather_logs" "logging" "Log gathering initiated"
    (Some [("sources", VList [VStr "application"; VStr "infrastructure"]);
           ("status", VStr "collecting")])
    None 0.

Definition logged_runtime : Runtime :=
  mkRuntime sample_incident [] {["gather_logs" := gathered_logs]} [] 1 0.

Definition logs_step : WorkflowStep.t :=
  WorkflowStep.mk "step-3" "Gather Logs" "gather_logs" "logging" [] "pending"
    None None None None.

(** The repositories the diagnostics stage scans. *)
Definition scanned_repositories (env : Environment)
    (repositories : option (list string)) : list string :=
  match repositories with
  | Some (repo :: rest) => repo :: rest
  | _ => [(github_org env ++ "/main-app")%string]
  end.

(** ** The driver of the playbook, by what it should do *)


(** *** The selection loops in closed form *)

Section Selection.
Implicit Types (sel l : list TeamMember.t) (m : TeamMember.t).

Lemma select_append_in sel m :
  m ∈ sel → select_append sel m = sel.
Proof.
  intros Hin. unfold select_append.
  rewrite bool_decide_eq_false_2; [done | by intros Hn].
Qed.

Lemma select_append_full sel m :
  (5 ≤ List.length sel)%nat → select_append sel m = sel.
Proof.
  intros Hlen. unfold select_append.
  destruct (Nat.ltb_spec (List.length sel) 5); [lia |].
  by rewrite andb_false_r.
Qed.

Lemma select_append_new sel m :
  m ∉ sel → (List.length sel < 5)%nat → select_append sel m = sel ++ [m].
Proof.
  intros Hin Hlen. unfold select_append.
  rewrite bool_decide_eq_true_2 by done.
  by destruct (Nat.ltb_spec (List.length sel) 5); [| lia].
Qed.

Lemma filter_notin_snoc sel m l :
  m ∉ l →
  filter (fun x => x ∉ sel ++ [m]) l = filter (fun x => x ∉ sel) l.
Proof.
  induction l as [| x l IH]; intros Hm; [done |].
  apply not_elem_of_cons in Hm as [Hne Hm].
  destruct (decide (x ∈ sel)) as [Hx | Hx].
  - rewrite !filter_cons_False; [by apply IH | by intros Hn |].
    intros Hn. apply Hn, elem_of_app. by left.
  - rewrite !filter_cons_True; [by rewrite IH | done |].
    rewrite elem_of_app, list_elem_of_singleton. intros [? | ?]; congruence.
Qed.

(** A capped, duplicate-skipping append loop over a duplicate-free list
    is a filter followed by a cut at five. *)
Lemma foldl_select_append sel l :
  NoDup l → (List.length sel ≤ 5)%nat →
  foldl select_append sel l = take 5 (sel ++ filter (fun x => x ∉ sel) l).
Proof.
  revert sel. induction l as [| m l IH]; intros sel Hnd Hlen; simpl.
  - rewrite filter_nil, app_nil_r. by rewrite take_ge.
  - apply NoDup_cons in Hnd as [Hm Hnd].
    destruct (decide (m ∈ sel)) as [Hin | Hin].
    + rewrite select_append_in by done. rewrite IH by done.
      by rewrite filter_cons_False by (by intros Hn).
    + rewrite filter_cons_True by done.
      destruct (decide (List.length sel < 5)%nat) as [Hlt | Hge].
      * rewrite select_append_new by done.
        rewrite IH; [| done | rewrite length_app; simpl; lia].
        rewrite filter_notin_snoc by done.
        by rewrite <- app_assoc.
      * rewrite select_append_full by lia. rewrite IH by done.
        rewrite !take_app_le by lia. done.
Qed.
End Selection.

(** *** Properties of the responder selection *)

Section SelectionProperties.
Implicit Types (sel l : list TeamMember.t) (m : TeamMember.t).

Lemma select_append_NoDup sel m : NoDup sel → NoDup (select_append sel m).
Proof.
  intros Hnd. unfold select_append.
  destruct (bool_decide_reflect (m ∉ sel)) as [Hm |]; simpl; [| done].
  destruct (List.length sel <? 5)%nat; [| done].
  apply NoDup_app. split_and!; [done | | apply NoDup_singleton].
  intros x Hx ->%list_elem_of_singleton. done.
Qed.

Lemma foldl_select_append_NoDup l sel :
  NoDup sel → NoDup (foldl select_append sel l).
Proof.
  revert sel. induction l as [| m l IH]; intros sel Hnd; simpl; [done |].
  by apply IH, select_append_NoDup.
Qed.

Lemma select_closed_form incident all_members :
  NoDup all_members →
  let on_call := filter (fun m => TeamMember.on_call m = true) all_members in
  let skilled :=
    filter (fun m => has_relevant_skill
              (skills_get category_skills
                 (category_value (Incident.category incident))) m = true)
           all_members in
  _select_relevant_team_members incident all_members =
    take 5 (take 2 on_call
            ++ filter (fun m => m ∉ take 2 on_call) skilled
            ++ filter (fun m => (m ∉ take 2 on_call) ∧ (m ∉ skilled))
                      all_members).
Proof.
  intros Hnd on_call skilled. unfold _select_relevant_team_members.
  fold on_call. fold skilled.
  assert (Hoc : (List.length (take 2 on_call) ≤ 5)%nat).
  { rewrite length_take. lia. }
  rewrite (foldl_select_append _ skilled);
    [| by apply NoDup_filter | done].
  set (A := filter (fun m => m ∉ take 2 on_call) skilled).
  rewrite foldl_select_append; [| done | rewrite length_take; lia].
  destruct (decide ((5 ≤ List.length (take 2 on_call ++ A))%nat)) as [Hge | Hlt].
  - rewrite (take_app_le (take 5 _)).
    2:{ rewrite length_take. lia. }
    rewrite take_take, Nat.min_id.
    rewrite (app_assoc (take 2 on_call)).
    by rewrite (take_app_le (take 2 on_call ++ A)).
  - rewrite (take_ge (take 2 on_call ++ A)) by lia.
    rewrite <- app_assoc. do 3 f_equal.
    apply list_filter_iff. intros x.
    rewrite elem_of_app. unfold A. rewrite list_elem_of_filter.
    destruct (decide (x ∈ take 2 on_call)); tauto.
Qed.
End SelectionProperties.

Section SelectionAnyRoster.
Implicit Types (sel l : list TeamMember.t) (m x : TeamMember.t).

Lemma filter_all (P : TeamMember.t → Prop) `{!∀ x, Decision (P x)} l :
  (∀ x, x ∈ l → P x) → filter P l = l.
Proof.
  induction l as [| m l IH]; intros Hall; [done |].
  rewrite filter_cons_True by (apply Hall, list_elem_of_here).
  f_equal. apply IH. intros x Hx. by apply Hall, list_elem_of_further.
Qed.

Lemma filter_comm (P Q : TeamMember.t → Prop)
    `{!∀ x, Decision (P x)} `{!∀ x, Decision (Q x)} l :
  filter P (filter Q l) = filter Q (filter P l).
Proof.
  induction l as [| m l IH]; [done |].
  destruct (decide (P m)) as [HP | HP], (decide (Q m)) as [HQ | HQ].
  - rewrite (filter_cons_True Q), (filter_cons_True P) by done.
    rewrite (filter_cons_True P), (filter_cons_True Q) by done.
    by rewrite IH.
  - rewrite (filter_cons_False Q), (filter_cons_True P) by done.
    rewrite (filter_cons_False Q) by done. by rewrite IH.
  - rewrite (filter_cons_True Q), (filter_cons_False P) by done.
    rewrite (filter_cons_False P) by done. by rewrite IH.
  - rewrite (filter_cons_False Q), (filter_cons_False P) by done.
    by rewrite IH.
Qed.

Lemma first_occurrences_elem_of l x : x ∈ first_occurrences l ↔ x ∈ l.
Proof.
  induction l as [| m l IH]; simpl; [done |].
  rewrite !elem_of_cons, list_elem_of_filter, IH.
  destruct (decide (x = m)) as [-> | Hne]; split.
  - intros _. by left.
  - intros _. by left.
  - intros [? | [_ ?]]; [done | by right].
  - intros [? | ?]; [done | by right].
Qed.

Lemma first_occurrences_NoDup l : NoDup (first_occurrences l).
Proof.
  induction l as [| m l IH]; simpl; [constructor |].
  apply NoDup_cons. split; [| by apply NoDup_filter].
  by intros [Hne _]%list_elem_of_filter.
Qed.

(** Nothing is dropped from a list without repeated members. *)
Lemma first_occurrences_id l : NoDup l → first_occurrences l = l.
Proof.
  induction l as [| m l IH]; intros Hnd; simpl; [done |].
  apply NoDup_cons in Hnd as [Hm Hnd]. rewrite IH by done. f_equal.
  apply filter_all. intros x Hx ->. done.
Qed.

Lemma filter_first_occurrences (P : TeamMember.t → Prop)
    `{!∀ x, Decision (P x)} l :
  filter P (first_occurrences l) = first_occurrences (filter P l).
Proof.
  induction l as [| m l IH]; [done |]. simpl first_occurrences.
  destruct (decide (P m)) as [HP | HP].
  - rewrite !filter_cons_True by done. simpl. f_equal.
    by rewrite filter_comm, IH.
  - rewrite !filter_cons_False by done.
    rewrite filter_comm, IH. apply filter_all.
    intros x Hx ->. apply (proj1 (first_occurrences_elem_of _ _)) in Hx.
    by apply list_elem_of_filter in Hx as [? _].
Qed.

(** A capped, duplicate-skipping append loop, on any list: the members
    not yet selected are appended at their first occurrence, up to
    five. *)
Lemma foldl_select_append_any sel l :
  (List.length sel ≤ 5)%nat →
  foldl select_append sel l
  = take 5 (sel ++ first_occurrences (filter (fun x => x ∉ sel) l)).
Proof.
  revert sel. induction l as [| m l IH]; intros sel Hlen; simpl foldl.
  - rewrite filter_nil. simpl. rewrite app_nil_r. by rewrite take_ge.
  - destruct (decide (m ∈ sel)) as [Hin | Hin].
    + rewrite select_append_in by done. rewrite IH by done.
      by rewrite filter_cons_False by (by intros Hn).
    + rewrite filter_cons_True by done. simpl first_occurrences.
      destruct (decide (List.length sel < 5)%nat) as [Hlt | Hge].
      * rewrite select_append_new by done.
        rewrite IH by (rewrite length_app; simpl; lia).
        rewrite <- app_assoc. simpl. do 3 f_equal.
        rewrite filter_first_occurrences. f_equal.
        rewrite list_filter_filter. apply list_filter_iff.
        intros x. rewrite elem_of_app, list_elem_of_singleton. split.
        -- intros Hx. split; [intros ->; apply Hx; by right |].
           intros ?. apply Hx. by left.
        -- intros [Hne Hx] [? | ?]; done.
      * rewrite select_append_full by lia. rewrite IH by done.
        rewrite !take_app_le by lia. done.
Qed.

(** The selection on any roster, repeated members or not. *)
Lemma select_any_roster incident all_members :
  _select_relevant_team_members incident all_members
  = take 5
      (take 2 (filter (fun m => TeamMember.on_call m = true) all_members)
       ++ first_occurrences
            (filter (fun m => m ∉ take 2 (filter
                                 (fun m => TeamMember.on_call m = true)
                                 all_members))
               (filter (fun m => has_relevant_skill
                          (skills_get category_skills
                             (category_value (Incident.category incident)))
                          m = true) all_members
                ++ all_members))).
Proof.
  unfold _select_relevant_team_members.
  rewrite <- foldl_app. apply foldl_select_append_any.
  rewrite length_take. lia.
Qed.

(** Whatever the roster, the candidates the loops append fit into the
    roster next to the on-call pair. *)
Lemma selection_fits_roster incident all_members :
  take 2 (filter (fun m => TeamMember.on_call m = true) all_members)
  ++ first_occurrences
       (filter (fun m => m ∉ take 2 (filter
                            (fun m => TeamMember.on_call m = true)
                            all_members))
          (filter (fun m => has_relevant_skill
                     (skills_get category_skills
                        (category_value (Incident.category incident)))
                     m = true) all_members
           ++ all_members))
  ⊆+ all_members.
Proof.
  set (pair := take 2 (filter (fun m => TeamMember.on_call m = true)
                         all_members)).
  assert (Hpair : pair ⊆+ all_members).
  { apply sublist_submseteq. etrans; [apply sublist_take |].
    apply sublist_filter. }
  destruct (submseteq_Permutation _ _ Hpair) as (k & Hk).
  rewrite Hk at 3. apply submseteq_app; [done |].
  apply NoDup_submseteq; [apply first_occurrences_NoDup |].
  intros x Hx. apply (proj1 (first_occurrences_elem_of _ _)) in Hx.
  apply list_elem_of_filter in Hx as [Hnot Hx].
  assert (Hall : x ∈ all_members).
  { apply elem_of_app in Hx as [Hx | Hx]; [| done].
    by apply list_elem_of_filter in Hx as [_ Hx]. }
  rewrite Hk in Hall. by apply elem_of_app in Hall as [? | ?].
Qed.
End SelectionAnyRoster.

(** C6 (as amended): on every roster the selection is the first five of
    the first two on-call entries followed by the skilled members and
    then all members, in roster order, each appended at its first
    occurrence unless the on-call pair holds it already.  It has at most
    min(5, roster size) members, all of the roster, starts with the
    on-call pair, and is without duplicates exactly when the two entries
    of the on-call pair differ; on a roster without repeated members it
    is the on-call pair, then the skilled members not yet taken, then the
    members not yet taken, cut at five. *)
Theorem select_relevant_team_members_spec incident all_members :
  let on_call := filter (fun m => TeamMember.on_call m = true) all_members in
  let skilled :=
    filter (fun m => has_relevant_skill
              (skills_get category_skills
                 (category_value (Incident.category incident))) m = true)
           all_members in
  let selected := _select_relevant_team_members incident all_members in
  selected =
    take 5 (take 2 on_call
            ++ first_occurrences
                 (filter (fun m => m ∉ take 2 on_call)
                    (skilled ++ all_members)))
  ∧ (NoDup selected ↔ NoDup (take 2 on_call))
  ∧ (List.length selected ≤ Nat.min 5 (List.length all_members))%nat
  ∧ take 2 on_call `prefix_of` selected
  ∧ selected ⊆ all_members
  ∧ (NoDup all_members →
     selected =
       take 5 (take 2 on_call
               ++ filter (fun m => m ∉ take 2 on_call) skilled
               ++ filter (fun m => (m ∉ take 2 on_call) ∧ (m ∉ skilled))
                    all_members)).
Proof.
  intros on_call skilled selected.
  assert (Hcf := select_any_roster incident all_members).
  assert (Hfit := selection_fits_roster incident all_members).
  fold on_call skilled selected in Hcf. fold on_call skilled in Hfit.
  assert (Hpre : take 2 on_call `prefix_of` selected).
  { rewrite Hcf, take_app.
    rewrite (take_ge (take 2 on_call)) by (rewrite length_take; lia).
    by apply prefix_app_r. }
  split_and!; [done | | | done | |].
  - split.
    + intros Hnd. destruct Hpre as [k Hk]. rewrite Hk in Hnd.
      by apply NoDup_app in Hnd as [? _].
    + intros Hnd. unfold selected, _select_relevant_team_members.
      by do 2 apply foldl_select_append_NoDup.
  - rewrite Hcf, length_take.
    apply submseteq_length in Hfit. lia.
  - rewrite Hcf. etrans; [apply subseteq_take |].
    intros x Hx. eapply elem_of_submseteq; [exact Hx | exact Hfit].
  - intros Hnd. exact (select_closed_form incident all_members Hnd).
Qed.

(** A roster that repeats a member who is not on call. *)
Lemma select_relevant_team_members_spec_witness :
  _select_relevant_team_members sample_incident [bob; bob; alice]
  = [alice; bob]
  ∧ NoDup (_select_relevant_team_members sample_incident [bob; bob; alice]).
Proof.
  destruct (select_relevant_team_members_spec sample_incident
              [bob; bob; alice]) as (Hcf & Hnd & _).
  split.
  - rewrite Hcf. vm_compute. reflexivity.
  - apply Hnd. apply (bool_decide_unpack _). vm_compute. exact I.
Defined.

(** C6 (as stated) fails on a roster that lists the same on-call member
    twice: both copies are taken by the on-call slice. *)
Lemma select_relevant_team_members_duplicates :
  _select_relevant_team_members sample_incident [alice; alice]
    = [alice; alice]
  ∧ ¬ NoDup (_select_relevant_team_members sample_incident [alice; alice]).
Proof.
  assert (Heq : _select_relevant_team_members sample_incident [alice; alice]
                = [alice; alice]) by (vm_compute; reflexivity).
  split; [exact Heq |]. rewrite Heq. intros Hnd.
  apply NoDup_cons in Hnd as [Hnotin _]. apply Hnotin. apply list_elem_of_here.
Qed.

(** ** Properties of the Workflow Builder *)

Section OrchestratorProperties.
Context (env : Environment).
Context (steps_prompt : string → string → string → string → string → string).

(** The fallback never raises, touches neither the incident nor any
    collaborator, and its actions depend on severity only. *)
Lemma default_steps_returns incident r :
  ∃ steps r',
    _get_default_workflow_steps env incident r = (Returned steps, r')
    ∧ rt_calls r' = rt_calls r
    ∧ rt_incident r' = rt_incident r
    ∧ map WorkflowStep.action steps =
        match Incident.severity incident with
        | CRITICAL | HIGH =>
            ["create_ticket"; "create_channel"; "notify_team";
             "analyze_commits"; "create_postmortem"]
        | MEDIUM | LOW =>
            ["create_ticket"; "create_channel"; "create_postmortem"]
        end.
Proof.
  unfold _get_default_workflow_steps.
  destruct (Incident.severity incident); eexists _, _; (split; [reflexivity |]);
    done.
Qed.

Lemma default_steps_shape i1 i2 r1 r2 :
  Incident.severity i1 = Incident.severity i2 →
  ∃ steps1 steps2 r1' r2',
    _get_default_workflow_steps env i1 r1 = (Returned steps1, r1')
    ∧ _get_default_workflow_steps env i2 r2 = (Returned steps2, r2')
    ∧ map step_shape steps1 = map step_shape steps2
    ∧ (Incident.id i1 = Incident.id i2 →
       map WorkflowStep.parameters steps1
       = map WorkflowStep.parameters steps2).
Proof.
  intros Hsev. unfold _get_default_workflow_steps. rewrite <- Hsev.
  destruct (Incident.severity i1); eexists _, _, _, _;
    (split; [reflexivity |]); (split; [reflexivity |]);
    (split; [reflexivity |]); intros ->; reflexivity.
Qed.

(** When the provider raises or answers with text that does not parse,
    the builder runs the fallback on the runtime left by the call. *)
Lemma recommend_falls_back incident available_tools r :
  let c := planning_call steps_prompt incident available_tools in
  (∃ e, collaborator env c (rt_calls r) = Raised e)
  ∨ (∃ s, collaborator env c (rt_calls r) = Returned (VStr s)
          ∧ json_loads env (py_strip env s) = None) →
  recommend_workflow_steps env steps_prompt incident available_tools r
  = _get_default_workflow_steps env incident
      (set_rt_calls (rt_calls r ++ [c]) r).
Proof.
  intros c Hfail.
  unfold recommend_workflow_steps, try_except, generate_text, invoke.
  subst c. unfold planning_call in Hfail. unfold mbind, comp_bind. cbv beta.
  destruct Hfail as [[e He] | (s & Hs & Hparse)].
  - rewrite He. reflexivity.
  - rewrite Hs. unfold strip_response, loads, mret, comp_ret.
    rewrite Hparse. reflexivity.
Qed.
End OrchestratorProperties.

(** C3 (as amended): when the Decision Provider raises or returns text
    that does not parse, [recommend_workflow_steps] returns normally with
    the fallback plan; its actions are fixed by severity; and two
    fallback plans for the same severity agree on every step's name,
    action and target tool, and on the parameters too when the incident
    identifier is the same. *)
Theorem recommend_workflow_steps_fallback
    (env : Environment)
    (steps_prompt : string → string → string → string → string → string)
    (incident : Incident.t) (available_tools : list string) (r : Runtime) :
  let c := planning_call steps_prompt incident available_tools in
  (∃ e, collaborator env c (rt_calls r) = Raised e)
  ∨ (∃ s, collaborator env c (rt_calls r) = Returned (VStr s)
          ∧ json_loads env (py_strip env s) = None) →
  ∃ steps r',
    recommend_workflow_steps env steps_prompt incident available_tools r
      = (Returned steps, r')
    ∧ map WorkflowStep.action steps =
        match Incident.severity incident with
        | CRITICAL | HIGH =>
            ["create_ticket"; "create_channel"; "notify_team";
             "analyze_commits"; "create_postmortem"]
        | MEDIUM | LOW =>
            ["create_ticket"; "create_channel"; "create_postmortem"]
        end
    ∧ ∀ incident2 r2,
        Incident.severity incident2 = Incident.severity incident →
        ∃ steps2 r2',
          _get_default_workflow_steps env incident2 r2 = (Returned steps2, r2')
          ∧ map step_shape steps2 = map step_shape steps
          ∧ (Incident.id incident2 = Incident.id incident →
             map WorkflowStep.parameters steps2
             = map WorkflowStep.parameters steps).
Proof.
  intros c Hfail.
  rewrite (recommend_falls_back env steps_prompt incident available_tools r
             Hfail).
  fold c. set (r1 := set_rt_calls (rt_calls r ++ [c]) r).
  destruct (default_steps_returns env incident r1)
    as (steps & r' & Hrun & _ & _ & Hact).
  exists steps, r'. split_and!; [done | done |].
  intros incident2 r2 Hsev.
  destruct (default_steps_shape env incident2 incident r2 r1 Hsev)
    as (steps2 & steps1 & r2' & r1' & Hrun2 & Hrun1 & Hshape & Hpar).
  rewrite Hrun in Hrun1. injection Hrun1 as <- <-.
  by exists steps2, r2'.
Qed.

Lemma recommend_workflow_steps_fallback_witness :
  ∃ steps r',
    recommend_workflow_steps sample_env sample_prompt sample_incident
      ["slack"; "ai"] sample_runtime = (Returned steps, r')
    ∧ map WorkflowStep.action steps =
        ["create_ticket"; "create_channel"; "notify_team";
         "analyze_commits"; "create_postmortem"].
Proof.
  destruct (recommend_workflow_steps_fallback sample_env sample_prompt
              sample_incident ["slack"; "ai"] sample_runtime
              (or_introl (ex_intro _ "service unavailable" eq_refl)))
    as (steps & r' & Hrun & Hact & _).
  exists steps, r'. split; [exact Hrun | exact Hact].
Defined.

(** C3 (as stated) fails: the fallback plan is not a function of severity
    alone, since its parameters carry the incident identifier. *)
Lemma default_workflow_steps_depend_on_incident_id :
  Incident.severity sample_incident = Incident.severity other_incident
  ∧ fst (_get_default_workflow_steps sample_env sample_incident
           sample_runtime)
    ≠ fst (_get_default_workflow_steps sample_env other_incident
             sample_runtime).
Proof.
  split; [reflexivity |]. vm_compute. intros Heq. discriminate Heq.
Qed.

(** ** Properties of the Step Dispatcher *)

Ltac unfold_comp :=
  unfold ActionResult_new, update_step, update_workflow, update_incident,
    get_incident, lift, zoom, gets, modify, utcnow, try_except, raise,
    mbind, comp_bind, mret, comp_ret in *.

Section DispatcherProperties.
Context (handlers : gmap string Handler).

(** What [_execute_step] computes, case by case. *)
Lemma execute_step_eq i step st :
  _execute_step handlers i step st =
    match handlers !! WorkflowStep.action step with
    | None =>
        (Returned
           (failure_result step
              ("Unknown action: " ++ WorkflowStep.action step)
              "No handler registered for action" (S (rt_clock (st_rt st)))),
         mkStore
           (Workflow.set_steps
              (alter (running (rt_clock (st_rt st))) i
                 (Workflow.steps (st_workflow st)))
              (st_workflow st))
           (tick (tick (st_rt st))))
    | Some handler =>
        match handler (running (rt_clock (st_rt st)) step) (tick (st_rt st))
        with
        | (Returned res, r') =>
            (Returned res,
             mkStore
               (Workflow.set_steps
                  (alter (running (rt_clock (st_rt st))) i
                     (Workflow.steps (st_workflow st)))
                  (st_workflow st))
               r')
        | (Raised e, r') =>
            (Returned
               (failure_result step ("Action failed: " ++ e) e (rt_clock r')),
             mkStore
               (Workflow.set_steps
                  (alter (running (rt_clock (st_rt st))) i
                     (Workflow.steps (st_workflow st)))
                  (st_workflow st))
               (tick r'))
        end
    end.
Proof.
  unfold _execute_step. unfold_comp. cbn.
  rewrite list_alter_alter_eq.
  destruct (handlers !! WorkflowStep.action step) as [handler |]; cbn.
  - unfold running, tick.
    destruct (handler _ _) as [[res | e] r']; reflexivity.
  - reflexivity.
Qed.

Lemma execute_step_returns i step st :
  ∃ res st', _execute_step handlers i step st = (Returned res, st')
             ∧ st_workflow st' =
                 Workflow.set_steps
                   (alter (running (rt_clock (st_rt st))) i
                      (Workflow.steps (st_workflow st)))
                   (st_workflow st).
Proof.
  rewrite execute_step_eq.
  destruct (handlers !! WorkflowStep.action step) as [handler |];
    [destruct (handler _ _) as [[res | e] r'] |]; eauto.
Qed.
End DispatcherProperties.

(** C1: whatever the handler mapping and the step, [_execute_step]
    returns normally; and when the handler it dispatches to raises, what
    it returns is a failed [ActionResult] whose error is the description
    of the fault. *)
Theorem execute_step_contains_handler_faults
    (handlers : gmap string Handler) (i : nat) (step : WorkflowStep.t)
    (st : Store) :
  (∃ res st', _execute_step handlers i step st = (Returned res, st'))
  ∧ ∀ handler e r',
      handlers !! WorkflowStep.action step = Some handler →
      handler (running (rt_clock (st_rt st)) step) (tick (st_rt st))
        = (Raised e, r') →
      ∃ res st',
        _execute_step handlers i step st = (Returned res, st')
        ∧ ActionResult.success res = false
        ∧ ActionResult.error res = Some e
        ∧ st_rt st' = tick r'.
Proof.
  split.
  - destruct (execute_step_returns handlers i step st) as (res & st' & H & _).
    eauto.
  - intros handler e r' Hlook Hrun.
    pose proof (execute_step_eq handlers i step st) as Heq.
    destruct (handlers !! WorkflowStep.action step) as [h |]; [| done].
    injection Hlook as ->. rewrite Hrun in Heq.
    eexists _, _. split; [exact Heq |]. done.
Qed.

Lemma execute_step_contains_handler_faults_witness :
  ∃ res st',
    _execute_step (default_action_handlers sample_env) 0 ticket_step
      sample_store = (Returned res, st')
    ∧ ActionResult.success res = false
    ∧ ActionResult.error res = Some "service unavailable".
Proof.
  destruct (proj2 (execute_step_contains_handler_faults
                     (default_action_handlers sample_env) 0 ticket_step
                     sample_store)
              (_handle_create_ticket sample_env) "service unavailable" _
              eq_refl eq_refl)
    as (res & st' & Hrun & Hfail & Herr & _).
  exists res, st'. split_and!; [exact Hrun | exact Hfail | exact Herr].
Defined.

(** C4: for an action identifier with no entry in the handler mapping,
    [_execute_step] returns at once a failed [ActionResult] with a
    non-empty error text; the runtime it leaves is the one it found with
    the clock read twice, so the incident, the context and the journal of
    collaborator calls are untouched whatever the handlers are. *)
Theorem execute_step_unknown_action
    (handlers : gmap string Handler) (i : nat) (step : WorkflowStep.t)
    (st : Store) :
  handlers !! WorkflowStep.action step = None →
  ∃ res st',
    _execute_step handlers i step st = (Returned res, st')
    ∧ ActionResult.success res = false
    ∧ ActionResult.error res = Some "No handler registered for action"
    ∧ st_rt st' = tick (tick (st_rt st))
    ∧ rt_calls (st_rt st') = rt_calls (st_rt st)
    ∧ rt_incident (st_rt st') = rt_incident (st_rt st)
    ∧ rt_results (st_rt st') = rt_results (st_rt st)
    ∧ rt_team_members (st_rt st') = rt_team_members (st_rt st).
Proof.
  intros Hlook.
  pose proof (execute_step_eq handlers i step st) as Heq.
  destruct (handlers !! WorkflowStep.action step) as [h |]; [done |].
  eexists _, _. split; [exact Heq |]. done.
Qed.

(** The incident update returns normally and reaches the incident only. *)
Lemma update_incident_from_result_returns step res r :
  ∃ inc', _update_incident_from_result step res r
          = (Returned tt, set_rt_incident inc' r).
Proof.
  unfold _update_incident_from_result. unfold_comp.
  destruct r as [inc tm rs cs ck uu]. cbn.
  repeat (case_match; [by eexists |]). by exists inc.
Qed.

Section LoopProperties.
Context (handlers : gmap string Handler).

(** One turn of the loop: the step is dispatched, its result is filed
    under its action, the incident update runs, and the step object ends
    as [finished]. *)
Lemma execute_workflow_step_eq i step st :
  ∃ res st1 r2,
    _execute_step handlers i step
      (mkStore (Workflow.set_current_step_index i (st_workflow st)) (st_rt st))
    = (Returned res, st1)
    ∧ _update_incident_from_result step res
        (set_rt_results
           (<[WorkflowStep.action step := res]> (rt_results (st_rt st1)))
           (tick (st_rt st1)))
      = (Returned tt, r2)
    ∧ _execute_workflow_step handlers i step st
      = (Returned tt,
         mkStore
           (Workflow.set_steps
              (alter (finished res (rt_clock (st_rt st))
                               (rt_clock (st_rt st1)))
                     i (Workflow.steps (st_workflow st)))
              (Workflow.set_current_step_index i (st_workflow st)))
           r2).
Proof.
  destruct (execute_step_returns handlers i step
              (mkStore (Workflow.set_current_step_index i (st_workflow st))
                       (st_rt st)))
    as (res & st1 & Hstep & Hw1).
  destruct (update_incident_from_result_returns step res
              (set_rt_results
                 (<[WorkflowStep.action step := res]> (rt_results (st_rt st1)))
                 (tick (st_rt st1)))) as (inc' & Hupd).
  exists res, st1, (set_rt_incident inc'
    (set_rt_results
       (<[WorkflowStep.action step := res]> (rt_results (st_rt st1)))
       (tick (st_rt st1)))).
  split; [exact Hstep |]. split; [exact Hupd |].
  unfold _execute_workflow_step.
  unfold mbind at 1, comp_bind at 1, update_workflow at 1, modify at 1.
  unfold try_except. unfold mbind at 1, comp_bind at 1. rewrite Hstep.
  destruct st1 as [w1 r1]. cbn in Hw1. subst w1.
  unfold_comp. cbn. unfold tick in Hupd. cbn in Hupd. rewrite Hupd.
  destruct (negb (ActionResult.success res) && _is_critical_step step);
    cbn; rewrite !list_alter_alter_eq; reflexivity.
Qed.
End LoopProperties.

Section WorkflowProperties.
Context (handlers : gmap string Handler).

Lemma for_each_steps l :
  ∀ done st,
    Workflow.steps (st_workflow st) = done ++ l →
    ∃ st' l',
      for_each (enumerate_from (List.length done) l)
        (fun '(i, step) => _execute_workflow_step handlers i step) st
      = (Returned tt, st')
      ∧ Workflow.steps (st_workflow st') = done ++ l'
      ∧ Forall2 (fun s0 s' => ∃ res, dispatched handlers s0 s' res) l l'.
Proof.
  induction l as [| s l IH]; intros done st Hsteps; simpl.
  - exists st, []. by split_and!.
  - destruct (execute_workflow_step_eq handlers (List.length done) s st)
      as (res & st1 & r2 & Hstep & _ & Hbody).
    unfold mbind, comp_bind. rewrite Hbody.
    match goal with |- context [for_each _ _ ?st2] => set (s2 := st2) end.
    destruct (IH (done ++ [finished res (rt_clock (st_rt st))
                             (rt_clock (st_rt st1)) s]) s2)
      as (st' & l' & Hrun & Hsteps' & Hall).
    { unfold s2. cbn. rewrite Hsteps.
      rewrite <- (Nat.add_0_r (List.length done)), alter_app_r. cbn.
      by rewrite <- app_assoc. }
    rewrite length_app, Nat.add_1_r in Hrun.
    exists st', (finished res (rt_clock (st_rt st)) (rt_clock (st_rt st1)) s
                 :: l').
    split_and!; [done | by rewrite Hsteps', <- app_assoc |].
    constructor; [| done]. exists res. by eexists _, _, _.
Qed.

(** The whole run: it returns, the workflow is completed, and every step
    is the finished form of the step that was planned. *)
Lemma execute_workflow_spec team_members st :
  ∃ st' steps',
    _execute_workflow handlers team_members st = (Returned tt, st')
    ∧ Workflow.status (st_workflow st') = "completed"
    ∧ Workflow.steps (st_workflow st') = steps'
    ∧ Forall2 (fun s0 s' => ∃ res, dispatched handlers s0 s' res)
        (Workflow.steps (st_workflow st)) steps'.
Proof.
  unfold _execute_workflow.
  unfold mbind at 1 2 3 4 5, comp_bind at 1 2 3 4 5.
  unfold update_workflow at 1 2, lift at 1 2, zoom at 1 2, utcnow at 1,
    modify at 1 2 3, gets at 1. cbn.
  match goal with |- context [(_ ≫= _) ?st2 = _] => set (s2 := st2) end.
  destruct (for_each_steps (Workflow.steps (st_workflow st)) [] s2 eq_refl)
    as (st' & l' & Hrun & Hsteps' & Hall).
  cbn in Hrun. unfold mbind at 1, comp_bind at 1. rewrite Hrun.
  eexists _, l'. split; [reflexivity |]. cbn. by split_and!.
Qed.
End WorkflowProperties.

(** C2: whatever the steps and whatever the handlers do, the run returns
    with the workflow completed and every step completed or failed, hence
    within {completed, failed, skipped} and neither pending nor running. *)
Theorem execute_workflow_all_steps_terminal
    (handlers : gmap string Handler)
    (team_members : option (list TeamMember.t)) (st : Store) :
  ∃ st',
    _execute_workflow handlers team_members st = (Returned tt, st')
    ∧ Workflow.status (st_workflow st') = "completed"
    ∧ List.length (Workflow.steps (st_workflow st'))
      = List.length (Workflow.steps (st_workflow st))
    ∧ Forall (fun s =>
                WorkflowStep.status s ∈ ["completed"; "failed"; "skipped"]
                ∧ WorkflowStep.status s ≠ "pending"
                ∧ WorkflowStep.status s ≠ "running")
        (Workflow.steps (st_workflow st')).
Proof.
  destruct (execute_workflow_spec handlers team_members st)
    as (st' & steps' & Hrun & Hstatus & Hsteps & Hall).
  exists st'. split_and!; [done | done | |].
  - rewrite Hsteps. symmetry. by eapply Forall2_length.
  - rewrite Hsteps. clear Hsteps Hrun Hstatus.
    induction Hall as [| s0 s' l l' (res & i & st0 & st1 & _ & ->) _ IH];
      constructor; [| done].
    unfold finished. cbn.
    destruct (ActionResult.success res); (split; [set_solver | done]).
Qed.

Lemma execute_step_unknown_action_witness :
  ∃ res st',
    _execute_step (default_action_handlers sample_env) 0 sample_step
      (mkStore (sample_workflow [sample_step]) sample_runtime)
    = (Returned res, st')
    ∧ ActionResult.success res = false
    ∧ rt_calls (st_rt st') = [].
Proof.
  destruct (execute_step_unknown_action (default_action_handlers sample_env)
              0 sample_step
              (mkStore (sample_workflow [sample_step]) sample_runtime)
              eq_refl)
    as (res & st' & Hrun & Hfail & _ & _ & Hcalls & _).
  exists res, st'. split_and!; [exact Hrun | exact Hfail | exact Hcalls].
Defined.

(** ** The incident update and the ticket step *)

Ltac unfold_handler :=
  unfold invoke, py_get, validate_opt_str, validate_str, validate_opt_dict,
    validate_dict, validate_bool in *;
  unfold_comp.

Lemma default_handlers_create_ticket env :
  default_action_handlers env !! "create_ticket"
  = Some (_handle_create_ticket env).
Proof. reflexivity. Qed.

(** A failing ticketing call: the handler fails or raises, and leaves
    the incident as it found it. *)
Lemma handle_create_ticket_failure env step r :
  auto_ticketing env = true →
  call_failed (collaborator env (ticket_call (rt_incident r)) (rt_calls r)) →
  ∃ o r',
    _handle_create_ticket env step r = (o, r')
    ∧ rt_incident r' = rt_incident r
    ∧ match o with
      | Returned res => ActionResult.success res = false
      | Raised _ => True
      end.
Proof.
  intros Hflag Hfail. unfold _handle_create_ticket, ticket_call in *.
  unfold_handler. rewrite Hflag. cbn.
  destruct (collaborator env _ (rt_calls r)) as [[| | | | | d] | e]; cbn in *;
    try by eexists _, _.
  rewrite Hfail. cbn.
  destruct (dict_get_or d "error" VNone); cbn;
    try destruct (pyd_str env _); cbn; by eexists _, _.
Qed.

(** With auto-ticketing off the handler answers on its own. *)
Lemma handle_create_ticket_disabled env step r :
  auto_ticketing env = false →
  _handle_create_ticket env step r
  = (Returned (ActionResult.mk true (WorkflowStep.action step) "servicenow"
                 "Auto-ticketing disabled" (Some [("skipped", VBool true)])
                 None (rt_clock r)),
     tick r).
Proof.
  intros Hflag. unfold _handle_create_ticket. unfold_handler.
  by rewrite Hflag.
Qed.

Lemma execute_step_with_handler handlers handler i step st :
  handlers !! WorkflowStep.action step = Some handler →
  _execute_step handlers i step st =
    match handler (running (rt_clock (st_rt st)) step) (tick (st_rt st)) with
    | (Returned res, r') =>
        (Returned res,
         mkStore
           (Workflow.set_steps
              (alter (running (rt_clock (st_rt st))) i
                 (Workflow.steps (st_workflow st)))
              (st_workflow st))
           r')
    | (Raised e, r') =>
        (Returned
           (failure_result step ("Action failed: " ++ e) e (rt_clock r')),
         mkStore
           (Workflow.set_steps
              (alter (running (rt_clock (st_rt st))) i
                 (Workflow.steps (st_workflow st)))
              (st_workflow st))
           (tick r'))
    end.
Proof.
  intros Hlook. pose proof (execute_step_eq handlers i step st) as Heq.
  destruct (handlers !! WorkflowStep.action step) as [h |]; [| done].
  by injection Hlook as ->.
Qed.

Lemma update_incident_from_failed_result step res r :
  ActionResult.success res = false →
  _update_incident_from_result step res r = (Returned tt, r).
Proof. intros Hfail. unfold _update_incident_from_result. by rewrite Hfail. Qed.

Lemma ticket_step_handler env step :
  WorkflowStep.action step = "create_ticket" →
  default_action_handlers env !! WorkflowStep.action step
  = Some (_handle_create_ticket env).
Proof. intros ->. apply default_handlers_create_ticket. Qed.

(** C8: a failed [ActionResult] makes [_update_incident_from_result]
    return without touching anything; and a loop turn on a ticket step
    whose ticketing call fails leaves the whole incident as it was, so an
    unset ticket id stays unset, and marks the step failed. *)
Theorem failed_result_leaves_incident_unchanged :
  (∀ step res r,
     ActionResult.success res = false →
     _update_incident_from_result step res r = (Returned tt, r))
  ∧ (∀ env i step st,
       WorkflowStep.action step = "create_ticket" →
       auto_ticketing env = true →
       call_failed (collaborator env (ticket_call (rt_incident (st_rt st)))
                      (rt_calls (st_rt st))) →
       ∃ st',
         _execute_workflow_step (default_action_handlers env) i step st
         = (Returned tt, st')
         ∧ rt_incident (st_rt st') = rt_incident (st_rt st)
         ∧ (Incident.servicenow_ticket_id (rt_incident (st_rt st)) = VNone →
            Incident.servicenow_ticket_id (rt_incident (st_rt st')) = VNone)
         ∧ ∀ s0,
             Workflow.steps (st_workflow st) !! i = Some s0 →
             ∃ s', Workflow.steps (st_workflow st') !! i = Some s'
                   ∧ WorkflowStep.status s' = "failed").
Proof.
  split; [apply update_incident_from_failed_result |].
  intros env i step st Hact Hflag Hcall.
  destruct (execute_workflow_step_eq (default_action_handlers env) i step st)
    as (res & st1 & r2 & Hstep & Hupd & Hbody).
  rewrite (execute_step_with_handler _ _ _ _ _ (ticket_step_handler env step Hact))
    in Hstep.
  cbn [st_rt st_workflow] in Hstep.
  destruct (handle_create_ticket_failure env
              (running (rt_clock (st_rt st)) step) (tick (st_rt st)) Hflag Hcall)
    as (o & r' & Hh & Hinc & Ho).
  rewrite Hh in Hstep.
  assert (Hres : ActionResult.success res = false
                 ∧ rt_incident (st_rt st1) = rt_incident (st_rt st)).
  { destruct o as [res' | e]; injection Hstep as <- <-; cbn; by rewrite ?Hinc. }
  destruct Hres as [Hfail Hinc1].
  rewrite (update_incident_from_failed_result _ _ _ Hfail) in Hupd.
  injection Hupd as <-.
  eexists. split; [exact Hbody |]. cbn [st_rt st_workflow].
  assert (Hsame : rt_incident
                    (set_rt_results
                       (<[WorkflowStep.action step:=res]>
                          (rt_results (st_rt st1)))
                       (tick (st_rt st1)))
                  = rt_incident (st_rt st)) by (cbn; exact Hinc1).
  split_and!; [exact Hsame | by rewrite Hsame |].
  intros s0 Hs0. cbn. rewrite list_lookup_alter_eq, Hs0. cbn.
  eexists. split; [reflexivity |]. cbn. by rewrite Hfail.
Qed.

Lemma failed_result_leaves_incident_unchanged_witness :
  ∃ st',
    _execute_workflow_step (default_action_handlers sample_env) 0 ticket_step
      sample_store = (Returned tt, st')
    ∧ Incident.servicenow_ticket_id (rt_incident (st_rt st')) = VNone.
Proof.
  destruct (proj2 failed_result_leaves_incident_unchanged sample_env 0
              ticket_step sample_store eq_refl eq_refl I)
    as (st' & Hrun & _ & Hid & _).
  exists st'. split; [exact Hrun | exact (Hid eq_refl)].
Defined.

(** C9: for a successful result the update rewrites the incident and
    nothing else in the runtime; the new incident is the old one with the
    ticket id, the channel id, the page id or the hypothesis replaced by
    the entry of the result data, according to the action, and the old
    one itself for any other action: outside the four whitelisted fields
    it never differs. *)
Theorem update_incident_from_result_whitelist step res r :
  ActionResult.success res = true →
  ∃ inc',
    _update_incident_from_result step res r
    = (Returned tt, set_rt_incident inc' r)
    ∧ (WorkflowStep.action step = "create_ticket" →
       inc' = Incident.set_servicenow_ticket_id
                (dict_get_or (data_or_empty (ActionResult.data res))
                   "number" VNone)
                (rt_incident r))
    ∧ (WorkflowStep.action step = "create_channel" →
       inc' = Incident.set_slack_channel_id
                (dict_get_or (data_or_empty (ActionResult.data res))
                   "channel_id" VNone)
                (rt_incident r))
    ∧ (WorkflowStep.action step = "create_postmortem" →
       inc' = Incident.set_confluence_page_id
                (dict_get_or (data_or_empty (ActionResult.data res))
                   "page_id" VNone)
                (rt_incident r))
    ∧ (WorkflowStep.action step = "generate_hypothesis" →
       inc' = Incident.set_root_cause_hypothesis
                (dict_get_or (data_or_empty (ActionResult.data res))
                   "hypothesis" VNone)
                (rt_incident r))
    ∧ (WorkflowStep.action step
         ∉ ["create_ticket"; "create_channel"; "create_postmortem";
            "generate_hypothesis"] →
       inc' = rt_incident r)
    ∧ blank_whitelisted inc' = blank_whitelisted (rt_incident r).
Proof.
  intros Hok. unfold _update_incident_from_result. rewrite Hok. cbn.
  unfold_comp.
  destruct (String.eqb_spec (WorkflowStep.action step) "create_ticket")
    as [-> | Hn1].
  { eexists. split; [reflexivity |].
    split_and!; try done. intros Hn. set_solver. }
  destruct (String.eqb_spec (WorkflowStep.action step) "create_channel")
    as [-> | Hn2].
  { eexists. split; [reflexivity |].
    split_and!; try done. intros Hn. set_solver. }
  destruct (String.eqb_spec (WorkflowStep.action step) "create_postmortem")
    as [-> | Hn3].
  { eexists. split; [reflexivity |].
    split_and!; try done. intros Hn. set_solver. }
  destruct (String.eqb_spec (WorkflowStep.action step) "generate_hypothesis")
    as [-> | Hn4].
  { eexists. split; [reflexivity |].
    split_and!; try done. intros Hn. set_solver. }
  exists (rt_incident r). split; [by destruct r |].
  split_and!; done.
Qed.

Lemma update_incident_from_result_whitelist_witness :
  ∃ inc',
    _update_incident_from_result ticket_step ticket_result sample_runtime
    = (Returned tt, set_rt_incident inc' sample_runtime)
    ∧ Incident.servicenow_ticket_id inc' = VStr "INC0012345".
Proof.
  destruct (update_incident_from_result_whitelist ticket_step ticket_result
              sample_runtime eq_refl)
    as (inc' & Hrun & Hticket & _).
  exists inc'. split; [exact Hrun |].
  rewrite (Hticket eq_refl). reflexivity.
Defined.

(** C10: with auto-ticketing off, a loop turn on a ticket step makes no
    collaborator call, files a successful result whose data is
    [{"skipped": True}], ends the step as completed (not skipped), and
    the incident update then stores [data.get("number")], that is None,
    as the ticket id, whatever it was before. *)
Theorem create_ticket_disabled_clears_ticket_id env i step st :
  auto_ticketing env = false →
  WorkflowStep.action step = "create_ticket" →
  ∃ st' res,
    _execute_workflow_step (default_action_handlers env) i step st
    = (Returned tt, st')
    ∧ rt_calls (st_rt st') = rt_calls (st_rt st)
    ∧ rt_results (st_rt st') !! "create_ticket" = Some res
    ∧ ActionResult.success res = true
    ∧ ActionResult.data res = Some [("skipped", VBool true)]
    ∧ rt_incident (st_rt st')
      = Incident.set_servicenow_ticket_id VNone (rt_incident (st_rt st))
    ∧ ∀ s0,
        Workflow.steps (st_workflow st) !! i = Some s0 →
        ∃ s', Workflow.steps (st_workflow st') !! i = Some s'
              ∧ WorkflowStep.status s' = "completed"
              ∧ WorkflowStep.status s' ≠ "skipped"
              ∧ WorkflowStep.result s' = Some [("skipped", VBool true)].
Proof.
  intros Hflag Hact.
  destruct (execute_workflow_step_eq (default_action_handlers env) i step st)
    as (res & st1 & r2 & Hstep & Hupd & Hbody).
  rewrite (execute_step_with_handler _ _ _ _ _ (ticket_step_handler env step Hact))
    in Hstep.
  rewrite (handle_create_ticket_disabled env _ _ Hflag) in Hstep.
  injection Hstep as <- <-.
  unfold _update_incident_from_result in Hupd. cbn in Hupd.
  rewrite Hact in Hupd. cbn in Hupd. unfold_comp. cbn in Hupd.
  injection Hupd as <-.
  eexists _, _. split; [exact Hbody |]. cbn. rewrite Hact.
  split_and!; [done | apply lookup_insert_eq | done | done | done |].
  intros s0 Hs0. rewrite list_lookup_alter_eq, Hs0. cbn.
  eexists. split; [reflexivity |]. done.
Qed.

Lemma create_ticket_disabled_clears_ticket_id_witness :
  ∃ st',
    _execute_workflow_step (default_action_handlers no_ticketing_env) 0
      ticket_step ticketed_store = (Returned tt, st')
    ∧ Incident.servicenow_ticket_id (rt_incident (st_rt ticketed_store))
      = VStr "INC0012345"
    ∧ Incident.servicenow_ticket_id (rt_incident (st_rt st')) = VNone
    ∧ rt_calls (st_rt st') = [].
Proof.
  destruct (create_ticket_disabled_clears_ticket_id no_ticketing_env 0
              ticket_step ticketed_store eq_refl eq_refl)
    as (st' & res & Hrun & Hcalls & _ & _ & _ & Hinc & _).
  exists st'. split_and!; [exact Hrun | reflexivity | | exact Hcalls].
  rewrite Hinc. reflexivity.
Defined.

(** ** Step status and payload after a run *)

Ltac solve_handler_data :=
  intros Hrun Hok; unfold_handler; cbn in Hrun;
  repeat (case_match; simplify_eq; cbn in *; try done; eauto);
  simplify_eq; cbn in *; eauto.

(** Every stock handler attaches a data payload to a successful result. *)
Lemma default_handlers_success_has_data env a h step r res r' :
  default_action_handlers env !! a = Some h →
  h step r = (Returned res, r') →
  ActionResult.success res = true →
  is_Some (ActionResult.data res).
Proof.
  intros Hlook. apply elem_of_list_to_map_2 in Hlook.
  repeat (apply elem_of_cons in Hlook as [Hlook | Hlook];
          [injection Hlook as -> -> |]).
  - unfold _handle_create_ticket. solve_handler_data.
  - unfold _handle_update_ticket. solve_handler_data.
  - unfold _handle_create_channel. solve_handler_data.
  - unfold _handle_notify_team. solve_handler_data.
  - unfold _handle_assemble_team. solve_handler_data.
  - unfold _handle_analyze_commits. solve_handler_data.
  - unfold _handle_gather_logs. solve_handler_data.
  - unfold _handle_create_postmortem. solve_handler_data.
  - unfold _handle_generate_hypothesis. solve_handler_data.
  - unfold _handle_search_knowledge. solve_handler_data.
  - unfold _handle_post_update. solve_handler_data.
  - by apply elem_of_nil in Hlook.
Qed.

Lemma execute_step_default_success_data env i step st res st1 :
  _execute_step (default_action_handlers env) i step st = (Returned res, st1) →
  ActionResult.success res = true →
  is_Some (ActionResult.data res).
Proof.
  rewrite execute_step_eq.
  destruct (default_action_handlers env !! WorkflowStep.action step)
    as [h |] eqn:Hlook; [| by intros [= <- <-]].
  destruct (h _ _) as [[res' | e] r'] eqn:Hrun; intros [= <- <-]; [| done].
  by eapply default_handlers_success_has_data.
Qed.

(** C5 (as amended): after a run with the stock handlers every step is
    completed when the [ActionResult] of its dispatch had [success] set
    and failed otherwise; its result payload is the data payload of that
    [ActionResult], which is present on every completed step; error text
    that was absent before the run is present only on a failed step; and
    a loop turn whose handler returns a failed [ActionResult], the ticket
    handler's included, leaves the step failed. *)
Theorem execute_workflow_step_payloads env team_members st :
  (∃ st',
     _execute_workflow (default_action_handlers env) team_members st
     = (Returned tt, st')
     ∧ Forall2
         (fun s0 s' =>
            ∃ res,
              dispatched (default_action_handlers env) s0 s' res
              ∧ WorkflowStep.status s'
                = (if ActionResult.success res then "completed" else "failed")
              ∧ WorkflowStep.result s' = ActionResult.data res
              ∧ (WorkflowStep.status s' = "completed" →
                 is_Some (WorkflowStep.result s'))
              ∧ (WorkflowStep.error s0 = None →
                 is_Some (WorkflowStep.error s') →
                 WorkflowStep.status s' = "failed"))
         (Workflow.steps (st_workflow st))
         (Workflow.steps (st_workflow st')))
  ∧ (∀ i step st0 res r',
       WorkflowStep.action step = "create_ticket" →
       _handle_create_ticket env (running (rt_clock (st_rt st0)) step)
         (tick (st_rt st0)) = (Returned res, r') →
       ActionResult.success res = false →
       ∃ st',
         _execute_workflow_step (default_action_handlers env) i step st0
         = (Returned tt, st')
         ∧ ∀ s0,
             Workflow.steps (st_workflow st0) !! i = Some s0 →
             ∃ s', Workflow.steps (st_workflow st') !! i = Some s'
                   ∧ WorkflowStep.status s' = "failed").
Proof.
  split.
  - destruct (execute_workflow_spec (default_action_handlers env)
                team_members st)
      as (st' & steps' & Hrun & _ & Hsteps & Hall).
    exists st'. split; [exact Hrun |]. rewrite Hsteps.
    eapply Forall2_impl; [exact Hall |].
    intros s0 s' (res & Hd). exists res. split; [exact Hd |].
    destruct Hd as (i & st0 & st1 & Hstep & ->). cbn.
    split_and!; [done | done | |].
    + destruct (ActionResult.success res) eqn:Hok; [| done].
      intros _. by eapply execute_step_default_success_data.
    + intros -> [e He]. done.
  - intros i step st0 res r' Hact Hh Hfail.
    destruct (execute_workflow_step_eq (default_action_handlers env) i step
                st0) as (res1 & st1 & r2 & Hstep & _ & Hbody).
    rewrite (execute_step_with_handler _ _ _ _ _
               (ticket_step_handler env step Hact)) in Hstep.
    cbn [st_rt st_workflow] in Hstep. rewrite Hh in Hstep.
    injection Hstep as <- <-.
    eexists. split; [exact Hbody |].
    intros s0 Hs0. cbn. rewrite list_lookup_alter_eq, Hs0. cbn.
    eexists. split; [reflexivity |]. cbn. by rewrite Hfail.
Qed.

Lemma execute_workflow_step_payloads_witness :
  ∃ st' s0 r1 res,
    _execute_workflow_step (default_action_handlers failing_env) 0
      ticket_step two_step_store = (Returned tt, st')
    ∧ _handle_create_ticket failing_env (running 0 ticket_step)
        (tick sample_runtime) = (Returned res, r1)
    ∧ Workflow.steps (st_workflow st') !! 0%nat = Some s0
    ∧ WorkflowStep.status s0 = "failed".
Proof.
  destruct (proj2 (execute_workflow_step_payloads failing_env None
                     two_step_store)
              0%nat ticket_step two_step_store _ _ eq_refl eq_refl eq_refl)
    as (st' & Hrun & Hstep).
  destruct (Hstep ticket_step eq_refl) as (s' & Hs' & Hstatus).
  eexists st', s', _, _.
  split_and!; [exact Hrun | reflexivity | exact Hs' | exact Hstatus].
Defined.

(** C5 (as stated) fails: the ticket step ends failed without any error
    text although its handler returned a failed [ActionResult] carrying
    one, and the notification step ends failed with a result payload. *)
Lemma failed_steps_without_error_with_payload :
  ∃ st' s0 s1,
    _execute_workflow (default_action_handlers failing_env) None
      two_step_store = (Returned tt, st')
    ∧ Workflow.steps (st_workflow st') = [s0; s1]
    ∧ WorkflowStep.status s0 = "failed"
    ∧ WorkflowStep.error s0 = None
    ∧ WorkflowStep.status s1 = "failed"
    ∧ WorkflowStep.result s1
      = Some [("success", VBool false); ("error", VStr "chat down")]
    ∧ (∃ res,
         rt_results (st_rt st') !! "create_ticket" = Some res
         ∧ ActionResult.success res = false
         ∧ ActionResult.error res = Some "ticketing down").
Proof.
  eexists _, _, _. split; [vm_compute; reflexivity |].
  split; [reflexivity |].
  split_and!; try reflexivity.
  eexists. split; [vm_compute; reflexivity |]. split; reflexivity.
Qed.

(** ** Properties of the Fixed Playbook *)



Ltac unfold_stage :=
  unfold with_local, steps_set, errors_append, diag_set, result_set,
    result_get, in_rt in *;
  unfold_comp.

Section PlaybookProperties.
Context (isoformat : datetime → string).

(** What a stage function computes from the outcome of its body. *)
Lemma run_stage_eq name extra body r :
  run_stage isoformat name extra body r =
    match body (stage_record isoformat name extra (rt_clock r), tick r) with
    | (Returned _, (l, r1)) =>
        (Returned (dict_set l "completed_at"
                     (VStr (isoformat (rt_clock r1)))),
         tick r1)
    | (Raised e, (l, r1)) =>
        (Returned (dict_set
                     (dict_set (dict_set l "status" (VStr "failed"))
                        "error" (VStr e))
                     "completed_at" (VStr (isoformat (rt_clock r1)))),
         tick r1)
    end.
Proof.
  unfold run_stage, stage_record, tick. unfold_stage. cbn.
  destruct (body _) as [[[] | e] [l r1]]; reflexivity.
Qed.

Lemma run_stage_returns name extra body r :
  ∃ record r', run_stage isoformat name extra body r = (Returned record, r').
Proof.
  rewrite run_stage_eq. destruct (body _) as [[[] | e] [l r1]]; eauto.
Qed.


End PlaybookProperties.




(** Every collaborator is down: each stage that calls one is recorded as
    failed, all seven are filed, and the overall flag stays set. *)
Example playbook_with_collaborators_down :
  ∃ wr r' steps rec3 rec7,
    execute_workflow sample_env sample_isoformat None None sample_runtime
    = (Returned wr, r')
    ∧ dict_get wr "success" = Some (VBool true)
    ∧ dict_get wr "errors" = Some (VList [])
    ∧ dict_get wr "steps" = Some (VDict steps)
    ∧ map fst steps = stage_keys
    ∧ dict_get steps "3_gather_diagnostics" = Some (VDict rec3)
    ∧ dict_get rec3 "status" = Some (VStr "failed")
    ∧ dict_get rec3 "error" = Some (VStr "service unavailable")
    ∧ dict_get steps "7_monitor_and_update" = Some (VDict rec7)
    ∧ dict_get rec7 "status" = Some (VStr "completed").
Proof. eexists _, _, _, _, _. vm_compute. by split_and!. Qed.

(** ** Worked instances *)

(** tests/test_choreographer.py: the on-call member comes first. *)
Example select_on_call_priority :
  head (_select_relevant_team_members sample_incident [alice; bob])
  = Some alice.
Proof. vm_compute. reflexivity. Qed.

(** tests/test_choreographer.py: the member with database skills is
    selected. *)
Example select_skill_matching :
  bob ∈ _select_relevant_team_members sample_incident
          [TeamMember.mk "1" "Alice" "alice@test.com" None None []
             ["frontend"; "react"] false; bob].
Proof. vm_compute. apply list_elem_of_here. Qed.

(** tests/test_choreographer.py: only ticket creation is critical. *)
Example is_critical_step_ticket_only :
  _is_critical_step ticket_step = true ∧ _is_critical_step notify_step = false.
Proof. split; vm_compute; reflexivity. Qed.

(** Planner down, collaborators up, high severity: the fallback plan of
    five steps runs, every step completes, and the incident carries the
    ticket, channel and page identifiers. *)
Example fallback_plan_all_succeed :
  ∃ st',
    plan_and_run succeeding_env sample_incident = (Returned tt, st')
    ∧ Workflow.status (st_workflow st') = "completed"
    ∧ map WorkflowStep.status (Workflow.steps (st_workflow st'))
      = ["completed"; "completed"; "completed"; "completed"; "completed"]
    ∧ Incident.servicenow_ticket_id (rt_incident (st_rt st'))
      = VStr "INC0012345"
    ∧ Incident.slack_channel_id (rt_incident (st_rt st')) = VStr "C042"
    ∧ Incident.confluence_page_id (rt_incident (st_rt st')) = VStr "P7".
Proof.
  eexists. split; [vm_compute; reflexivity |]. split_and!; reflexivity.
Qed.

(** * Further properties of the code *)

(** ** Tools, guards and feature flags of the choreographer *)

Ltac tool_listed :=
  split; intros Htool;
  [ first [reflexivity | by repeat apply elem_of_cons in Htool as [? | Htool];
                            [.. | apply elem_of_nil in Htool]]
  | first [discriminate Htool | by repeat constructor] ].

(** X1: the tool list names exactly the enabled integrations, in the
    fixed order ticketing, chat, code host, documentation, and always
    ends with the AI service. *)
Theorem get_available_tools_spec env :
  last (_get_available_tools env) = Some "ai"
  ∧ NoDup (_get_available_tools env)
  ∧ _get_available_tools env
      `sublist_of` ["servicenow"; "slack"; "github"; "confluence"; "ai"]
  ∧ ("servicenow" ∈ _get_available_tools env ↔ auto_ticketing env = true)
  ∧ ("slack" ∈ _get_available_tools env ↔ slack_notifications env = true)
  ∧ ("github" ∈ _get_available_tools env ↔ github_analysis env = true)
  ∧ ("confluence" ∈ _get_available_tools env ↔ confluence_docs env = true).
Proof.
  unfold _get_available_tools.
  destruct (auto_ticketing env), (slack_notifications env),
    (github_analysis env), (confluence_docs env); cbn;
    (split_and!;
     [ reflexivity
     | apply (bool_decide_unpack _); vm_compute; exact I
     | eauto 10 using sublist_nil, sublist_skip, sublist_cons
     | tool_listed | tool_listed | tool_listed | tool_listed ]).
Qed.

(** X2: the handlers that need a ticket, a channel or a roster check for
    it first; when it is missing they return a failed result naming the
    missing piece and only read the clock: no collaborator is called and
    the incident and the context stay as they were. *)
Theorem handler_guards_fail_fast env step r :
  (truthy (Incident.servicenow_ticket_id (rt_incident r)) = false →
   ∃ res, _handle_update_ticket env step r = (Returned res, tick r)
          ∧ ActionResult.success res = false
          ∧ ActionResult.error res = Some "servicenow_ticket_id not set")
  ∧ (truthy (Incident.slack_channel_id (rt_incident r)) = false →
     truthy (dict_get_or (WorkflowStep.parameters step) "channel" VNone)
       = false →
     ∃ res, _handle_notify_team env step r = (Returned res, tick r)
            ∧ ActionResult.success res = false
            ∧ ActionResult.error res = Some "No channel_id")
  ∧ (rt_team_members r = [] →
     ∃ res, _handle_assemble_team env step r = (Returned res, tick r)
            ∧ ActionResult.success res = false
            ∧ ActionResult.error res = Some "Empty team_members list")
  ∧ (rt_team_members r ≠ [] →
     truthy (Incident.slack_channel_id (rt_incident r)) = false →
     ∃ res, _handle_assemble_team env step r = (Returned res, tick r)
            ∧ ActionResult.success res = false
            ∧ ActionResult.error res = Some "Create channel first")
  ∧ (truthy (Incident.slack_channel_id (rt_incident r)) = false →
     ∃ res, _handle_post_update env step r = (Returned res, tick r)
            ∧ ActionResult.success res = false
            ∧ ActionResult.error res = Some "No slack_channel_id").
Proof.
  split_and!.
  - intros H. unfold _handle_update_ticket. unfold_handler. rewrite H. cbn.
    by eexists.
  - intros H1 H2. unfold _handle_notify_team, py_or. unfold_handler.
    rewrite H1, H2. cbn. by eexists.
  - intros H. unfold _handle_assemble_team. unfold_handler. rewrite H. cbn.
    by eexists.
  - intros Hne H. unfold _handle_assemble_team. unfold_handler.
    destruct (rt_team_members r); [done |]. rewrite H. cbn. by eexists.
  - intros H. unfold _handle_post_update. unfold_handler. rewrite H. cbn.
    by eexists.
Qed.

Lemma handler_guards_fail_fast_witness :
  ∃ res,
    _handle_update_ticket sample_env ticket_step sample_runtime
    = (Returned res, tick sample_runtime)
    ∧ ActionResult.error res = Some "servicenow_ticket_id not set".
Proof.
  destruct (proj1 (handler_guards_fail_fast sample_env ticket_step
                     sample_runtime) eq_refl)
    as (res & Hrun & _ & Herr).
  exists res. split; [exact Hrun | exact Herr].
Defined.

(** X3: with its feature flag off, the channel, commit-analysis and
    post-mortem handlers answer on their own: a successful result whose
    data is [{"skipped": True}], no collaborator call, incident
    untouched. *)
Theorem disabled_handlers_skip env step r :
  (slack_notifications env = false →
   _handle_create_channel env step r
   = (Returned (ActionResult.mk true (WorkflowStep.action step) "slack"
                  "Slack notifications disabled"
                  (Some [("skipped", VBool true)]) None (rt_clock r)),
      tick r))
  ∧ (github_analysis env = false →
     _handle_analyze_commits env step r
     = (Returned (ActionResult.mk true (WorkflowStep.action step) "github"
                    "GitHub analysis disabled"
                    (Some [("skipped", VBool true)]) None (rt_clock r)),
        tick r))
  ∧ (confluence_docs env = false →
     _handle_create_postmortem env step r
     = (Returned (ActionResult.mk true (WorkflowStep.action step) "confluence"
                    "Confluence docs disabled"
                    (Some [("skipped", VBool true)]) None (rt_clock r)),
        tick r)).
Proof.
  split_and!; intros Hflag;
    unfold _handle_create_channel, _handle_analyze_commits,
      _handle_create_postmortem; unfold_handler; by rewrite Hflag.
Qed.

Lemma disabled_handlers_skip_witness :
  ∃ res,
    _handle_create_channel no_slack_env notify_step sample_runtime
    = (Returned res, tick sample_runtime)
    ∧ ActionResult.data res = Some [("skipped", VBool true)].
Proof.
  eexists. split.
  - exact (proj1 (disabled_handlers_skip no_slack_env notify_step
                    sample_runtime) eq_refl).
  - reflexivity.
Defined.

(** ** What a stock handler can touch *)

Section Footprint.
Context (env : Environment).

Lemma footprint_refl n r : footprint n r r.
Proof.
  unfold footprint. split_and!; try done.
  exists []. rewrite app_nil_r. split; [done | simpl; lia].
Qed.

Lemma footprint_trans n m r1 r2 r3 :
  footprint n r1 r2 → footprint m r2 r3 → footprint (n + m) r1 r3.
Proof.
  intros (H1 & H2 & H3 & H4 & cs & H5 & H6) (G1 & G2 & G3 & G4 & ds & G5 & G6).
  unfold footprint. split_and!; try congruence.
  exists (cs ++ ds). rewrite G5, H5, app_assoc, length_app.
  split; [done | lia].
Qed.

Lemma bounded_ret {A} n (a : A) : bounded n (mret a).
Proof. intros r o r' [= <- <-]. apply footprint_refl. Qed.

Lemma bounded_raise {A} n e : bounded n (raise (A:=A) e).
Proof. intros r o r' [= <- <-]. apply footprint_refl. Qed.

Lemma bounded_gets {A} n (f : Runtime → A) : bounded n (gets f).
Proof. intros r o r' [= <- <-]. apply footprint_refl. Qed.

Lemma bounded_get_incident n : bounded n get_incident.
Proof. apply bounded_gets. Qed.

Lemma bounded_utcnow n : bounded n utcnow.
Proof.
  intros r o r' [= <- <-]. unfold footprint. split_and!; try done.
  exists []. rewrite app_nil_r. split; [done | simpl; lia].
Qed.

Lemma bounded_bind0 {A B} n (c : rt A) (f : A → rt B) :
  bounded 0 c → (∀ a, bounded n (f a)) → bounded n (c ≫= f).
Proof.
  intros Hc Hf r o r' Hrun. unfold mbind, comp_bind in Hrun.
  destruct (c r) as [[a | e] r1] eqn:Hcr.
  - apply (footprint_trans 0 n _ r1); [by eapply Hc | by eapply Hf].
  - injection Hrun as <- <-.
    apply (footprint_trans 0 n _ r1); [by eapply Hc | apply footprint_refl].
Qed.

Lemma bounded_bind1 {A B} (c : rt A) (f : A → rt B) :
  bounded 1 c → (∀ a, bounded 0 (f a)) → bounded 1 (c ≫= f).
Proof.
  intros Hc Hf r o r' Hrun. unfold mbind, comp_bind in Hrun.
  destruct (c r) as [[a | e] r1] eqn:Hcr.
  - apply (footprint_trans 1 0 _ r1); [by eapply Hc | by eapply Hf].
  - injection Hrun as <- <-. by eapply Hc.
Qed.

Lemma bounded_invoke c : bounded 1 (invoke env c).
Proof.
  intros r o r' [= <- <-]. unfold footprint. split_and!; try done.
  by exists [c].
Qed.

Lemma bounded_ActionResult_new n success action tool message data error :
  bounded n (ActionResult_new success action tool message data error).
Proof.
  unfold ActionResult_new. apply bounded_bind0; [apply bounded_utcnow |].
  intros now. apply bounded_ret.
Qed.

Lemma bounded_py_get n v k dflt : bounded n (py_get v k dflt).
Proof. destruct v; first [apply bounded_ret | apply bounded_raise]. Qed.

Lemma bounded_validate_bool n v : bounded n (validate_bool env v).
Proof.
  unfold validate_bool.
  destruct (pyd_bool env v); first [apply bounded_ret | apply bounded_raise].
Qed.

Lemma bounded_validate_opt_str n v : bounded n (validate_opt_str env v).
Proof.
  unfold validate_opt_str, validate_str.
  destruct v; try apply bounded_ret;
    (apply bounded_bind0; [| intros; apply bounded_ret]);
    destruct (pyd_str env _); first [apply bounded_ret | apply bounded_raise].
Qed.

Lemma bounded_validate_opt_dict n v : bounded n (validate_opt_dict v).
Proof.
  unfold validate_opt_dict, validate_dict.
  destruct v; try apply bounded_ret;
    (apply bounded_bind0; [| intros; apply bounded_ret]);
    first [apply bounded_ret | apply bounded_raise].
Qed.

Lemma bounded_update_incident n (f : Incident.t → Incident.t) :
  (∀ i, Incident.set_assigned_responders [] (blank_whitelisted (f i))
        = Incident.set_assigned_responders [] (blank_whitelisted i)) →
  bounded n (update_incident f).
Proof.
  intros Hf r o r' [= <- <-]. unfold footprint. cbn.
  split_and!; try done.
  exists []. rewrite app_nil_r. split; [done | simpl; lia].
Qed.
End Footprint.

Create HintDb bounded.

#[local] Hint Resolve bounded_ret bounded_raise bounded_gets
  bounded_get_incident bounded_utcnow bounded_ActionResult_new bounded_py_get
  bounded_validate_bool bounded_validate_opt_str bounded_validate_opt_dict
  : bounded.

Ltac bound :=
  lazymatch goal with
  | |- bounded _ (mbind _ (invoke _ _)) =>
      apply bounded_bind1; [apply bounded_invoke | intros ?; bound]
  | |- bounded _ (mbind _ _) =>
      apply bounded_bind0; [bound | intros ?; bound]
  | |- bounded _ (if ?b then _ else _) => destruct b; bound
  | |- bounded _ (match ?x with _ => _ end) => destruct x; bound
  | |- bounded _ (update_incident _) =>
      apply bounded_update_incident; intros ?; reflexivity
  | |- _ => solve [eauto with bounded]
  end.

Lemma default_handlers_bounded env a h step :
  default_action_handlers env !! a = Some h →
  bounded 1 (h step).
Proof.
  intros Hlook. apply elem_of_list_to_map_2 in Hlook.
  repeat (apply elem_of_cons in Hlook as [Hlook | Hlook];
          [injection Hlook as -> -> |]).
  - unfold _handle_create_ticket. bound.
  - unfold _handle_update_ticket. cbv zeta. bound.
  - unfold _handle_create_channel. bound.
  - unfold _handle_notify_team. cbv zeta. bound.
  - unfold _handle_assemble_team. cbv zeta. bound.
  - unfold _handle_analyze_commits. cbv zeta. bound.
  - unfold _handle_gather_logs. bound.
  - unfold _handle_create_postmortem. bound.
  - unfold _handle_generate_hypothesis. bound.
  - unfold _handle_search_knowledge. cbv zeta. bound.
  - unfold _handle_post_update. cbv zeta. bound.
  - by apply elem_of_nil in Hlook.
Qed.

(** X4: whatever the collaborators answer, and whether it returns or
    raises, a stock handler calls at most one collaborator, leaves the
    context's results and roster alone, and changes the incident at most
    in the ticket id, channel id, page id, hypothesis and responder
    list. *)
Theorem stock_handler_footprint env a h step :
  default_action_handlers env !! a = Some h →
  bounded 1 (h step).
Proof. apply default_handlers_bounded. Qed.

Lemma stock_handler_footprint_witness :
  footprint 1 sample_runtime
    (snd (_handle_create_ticket sample_env ticket_step sample_runtime)).
Proof.
  apply (stock_handler_footprint sample_env "create_ticket"
           (_handle_create_ticket sample_env) ticket_step eq_refl
           sample_runtime
           (fst (_handle_create_ticket sample_env ticket_step sample_runtime))).
  reflexivity.
Defined.

(** ** Invariants of a run *)

Section RunInvariants.
Context (handlers : gmap string Handler).

Lemma execute_workflow_eq team_members st :
  _execute_workflow handlers team_members st =
    match for_each (enumerate (Workflow.steps (st_workflow st)))
            (fun '(i, step) => _execute_workflow_step handlers i step)
            (start_store team_members st) with
    | (Returned _, st1) => (Returned tt, finish_store st1)
    | (Raised e, st1) => (Raised e, st1)
    end.
Proof.
  unfold _execute_workflow, start_store, finish_store, tick.
  unfold mbind at 1 2 3 4 5, comp_bind at 1 2 3 4 5.
  unfold update_workflow at 1 2, lift at 1 2, zoom at 1 2, utcnow at 1,
    modify at 1 2 3, gets at 1. cbn.
  unfold mbind at 1, comp_bind at 1.
  destruct (for_each _ _ _) as [[[] | e] st1]; reflexivity.
Qed.

(** A property of the store that every turn of the loop carries one step
    further holds at the end of the loop. *)
Lemma for_each_steps_invariant
    (I : list WorkflowStep.t → Store → Prop) l0 :
  (∀ done step rest st st',
     l0 = done ++ step :: rest →
     I done st →
     _execute_workflow_step handlers (List.length done) step st
     = (Returned tt, st') →
     I (done ++ [step]) st') →
  ∀ st st',
    I [] st →
    for_each (enumerate l0)
      (fun '(i, step) => _execute_workflow_step handlers i step) st
    = (Returned tt, st') →
    I l0 st'.
Proof.
  intros Hturn.
  assert (Hgen : ∀ l done st st',
            l0 = done ++ l → I done st →
            for_each (enumerate_from (List.length done) l)
              (fun '(i, step) => _execute_workflow_step handlers i step) st
            = (Returned tt, st') →
            I (done ++ l) st').
  { induction l as [| s l IH]; intros done st st' Hl0 HI Hrun; simpl in Hrun.
    - injection Hrun as <-. by rewrite app_nil_r.
    - unfold mbind, comp_bind in Hrun.
      destruct (execute_workflow_step_eq handlers (List.length done) s st)
        as (res & st1 & r2 & _ & _ & Hbody).
      rewrite Hbody in Hrun.
      replace (done ++ s :: l) with ((done ++ [s]) ++ l)
        by (by rewrite <- app_assoc).
      eapply IH; [by rewrite <- app_assoc | by eapply Hturn |].
      by rewrite length_app, Nat.add_1_r. }
  intros st st' HI Hrun. by apply (Hgen l0 [] st st').
Qed.

Lemma execute_workflow_invariant
    (I : list WorkflowStep.t → Store → Prop) team_members st st' :
  (∀ done step rest s1 s2,
     Workflow.steps (st_workflow st) = done ++ step :: rest →
     I done s1 →
     _execute_workflow_step handlers (List.length done) step s1
     = (Returned tt, s2) →
     I (done ++ [step]) s2) →
  I [] (start_store team_members st) →
  _execute_workflow handlers team_members st = (Returned tt, st') →
  ∃ st1, I (Workflow.steps (st_workflow st)) st1 ∧ st' = finish_store st1.
Proof.
  intros Hturn Hstart Hrun. rewrite execute_workflow_eq in Hrun.
  destruct (for_each _ _ _) as [[[] | e] st1] eqn:Hloop; [| done].
  injection Hrun as <-. exists st1. split; [| done].
  by eapply for_each_steps_invariant.
Qed.

(** What a turn does to the workflow object. *)
Lemma execute_workflow_step_workflow i step st st' :
  _execute_workflow_step handlers i step st = (Returned tt, st') →
  workflow_identity (st_workflow st') = workflow_identity (st_workflow st)
  ∧ Workflow.current_step_index (st_workflow st') = i
  ∧ Workflow.status (st_workflow st') = Workflow.status (st_workflow st).
Proof.
  intros Hrun.
  destruct (execute_workflow_step_eq handlers i step st)
    as (res & st1 & r2 & _ & _ & Hbody).
  rewrite Hbody in Hrun. injection Hrun as <-. done.
Qed.
End RunInvariants.

(** X6: a run never rewrites what the builder fixed: every step keeps its
    id, name, action, target tool and parameters and its place in the
    sequence, the workflow keeps its id, incident reference, name,
    description and creation time, and the step index ends on the last
    step. *)
Theorem execute_workflow_preserves_plan
    (handlers : gmap string Handler)
    (team_members : option (list TeamMember.t)) (st : Store) :
  ∃ st',
    _execute_workflow handlers team_members st = (Returned tt, st')
    ∧ map step_descriptor (Workflow.steps (st_workflow st'))
      = map step_descriptor (Workflow.steps (st_workflow st))
    ∧ workflow_identity (st_workflow st') = workflow_identity (st_workflow st)
    ∧ Workflow.current_step_index (st_workflow st')
      = match Workflow.steps (st_workflow st) with
        | [] => Workflow.current_step_index (st_workflow st)
        | _ :: rest => List.length rest
        end.
Proof.
  destruct (execute_workflow_spec handlers team_members st)
    as (st' & steps' & Hrun & _ & Hsteps & Hall).
  exists st'. split; [exact Hrun |]. split.
  { rewrite Hsteps. clear Hsteps Hrun. symmetry.
    induction Hall as [| s0 s' l l' (res & i & st0 & st1 & _ & ->) _ IH];
      [done |]. cbn. by rewrite IH. }
  destruct (execute_workflow_invariant handlers
              (fun done s =>
                 workflow_identity (st_workflow s)
                 = workflow_identity (st_workflow st)
                 ∧ Workflow.current_step_index (st_workflow s)
                   = match done with
                     | [] => Workflow.current_step_index (st_workflow st)
                     | _ :: _ => Nat.pred (List.length done)
                     end)
              team_members st st')
    as (st1 & [Hid Hidx] & ->); [| done | exact Hrun |].
  { intros done step rest s1 s2 _ [Hid _] Hturn.
    destruct (execute_workflow_step_workflow handlers _ _ _ _ Hturn)
      as (Hid' & Hidx' & _).
    split; [congruence |]. rewrite Hidx', length_app, Nat.add_1_r.
    by destruct done. }
  split; [exact Hid |]. cbn. rewrite Hidx.
  by destruct (Workflow.steps (st_workflow st)).
Qed.

(** X7: a plan made only of actions that have no handler runs to
    completion with every step failed, without a single collaborator call
    and without touching the incident. *)
Theorem execute_workflow_unknown_actions
    (handlers : gmap string Handler)
    (team_members : option (list TeamMember.t)) (st : Store) :
  Forall (fun s => handlers !! WorkflowStep.action s = None)
    (Workflow.steps (st_workflow st)) →
  ∃ st',
    _execute_workflow handlers team_members st = (Returned tt, st')
    ∧ rt_calls (st_rt st') = rt_calls (st_rt st)
    ∧ rt_incident (st_rt st') = rt_incident (st_rt st)
    ∧ Forall (fun s => WorkflowStep.status s = "failed")
        (Workflow.steps (st_workflow st')).
Proof.
  intros Hunknown.
  destruct (execute_workflow_spec handlers team_members st)
    as (st' & steps' & Hrun & _ & Hsteps & Hall).
  exists st'. split; [exact Hrun |].
  destruct (execute_workflow_invariant handlers
              (fun _ s =>
                 rt_calls (st_rt s) = rt_calls (st_rt st)
                 ∧ rt_incident (st_rt s) = rt_incident (st_rt st))
              team_members st st')
    as (st1 & [Hcalls Hinc] & ->); [| done | exact Hrun |].
  { intros done step rest s1 s2 Hsplit [Hc Hi] Hturn.
    assert (Hnone : handlers !! WorkflowStep.action step = None).
    { rewrite Forall_forall in Hunknown. apply Hunknown.
      rewrite Hsplit. apply elem_of_app. right. apply list_elem_of_here. }
    destruct (execute_workflow_step_eq handlers (List.length done) step s1)
      as (res & st1 & r2 & Hstep & Hupd & Hbody).
    rewrite Hbody in Hturn. injection Hturn as <-.
    pose proof (execute_step_eq handlers (List.length done) step
                  (mkStore (Workflow.set_current_step_index (List.length done)
                              (st_workflow s1)) (st_rt s1))) as Heq.
    destruct (handlers !! WorkflowStep.action step); [done |].
    rewrite Hstep in Heq. injection Heq as -> ->.
    rewrite update_incident_from_failed_result in Hupd by done.
    injection Hupd as <-. done. }
  split_and!; [done | done |].
  rewrite Hsteps. clear Hsteps Hrun Hcalls Hinc.
  induction Hall as [| s0 s' l l' (res & i & st0 & st2 & Hstep & ->) _ IH];
    [done |].
  apply Forall_cons in Hunknown as [Hnone Hunknown].
  constructor; [| by apply IH].
  pose proof (execute_step_eq handlers i s0 st0) as Heq.
  destruct (handlers !! WorkflowStep.action s0); [done |].
  rewrite Hstep in Heq. by injection Heq as -> ->.
Qed.

Lemma execute_workflow_unknown_actions_witness :
  ∃ st',
    _execute_workflow (default_action_handlers sample_env) None
      (mkStore (sample_workflow [sample_step; sample_step]) sample_runtime)
    = (Returned tt, st')
    ∧ rt_calls (st_rt st') = [].
Proof.
  destruct (execute_workflow_unknown_actions
              (default_action_handlers sample_env) None
              (mkStore (sample_workflow [sample_step; sample_step])
                 sample_runtime))
    as (st' & Hrun & Hcalls & _).
  { repeat constructor. }
  exists st'. split; [exact Hrun | exact Hcalls].
Defined.

(** ** The context's results after a run *)

Lemma footprint_tick r : footprint 0 r (tick r).
Proof.
  unfold footprint. split_and!; try done.
  exists []. rewrite app_nil_r. split; [done | simpl; lia].
Qed.

Lemma execute_step_footprint env i step st res st1 :
  _execute_step (default_action_handlers env) i step st = (Returned res, st1) →
  footprint 1 (st_rt st) (st_rt st1).
Proof.
  rewrite execute_step_eq.
  destruct (default_action_handlers env !! WorkflowStep.action step)
    as [h |] eqn:Hlook.
  - destruct (h _ _) as [[res' | e] r'] eqn:Hrun; intros [= <- <-]; cbn.
    + apply (footprint_trans 0 1 _ (tick (st_rt st))); [apply footprint_tick |].
      by eapply default_handlers_bounded.
    + apply (footprint_trans 0 1 _ (tick (st_rt st))); [apply footprint_tick |].
      apply (footprint_trans 1 0 _ r'); [| apply footprint_tick].
      by eapply default_handlers_bounded.
  - intros [= <- <-]. cbn.
    apply (footprint_trans 0 1 _ (tick (st_rt st))); [apply footprint_tick |].
    apply (footprint_trans 0 1 _ (tick (tick (st_rt st))));
      [apply footprint_tick | apply footprint_refl].
Qed.

(** What a turn with the stock handlers does to the context. *)
Lemma execute_workflow_step_context env i step st st' :
  _execute_workflow_step (default_action_handlers env) i step st
  = (Returned tt, st') →
  (∃ res, rt_results (st_rt st')
          = <[WorkflowStep.action step := res]> (rt_results (st_rt st)))
  ∧ rt_team_members (st_rt st') = rt_team_members (st_rt st).
Proof.
  intros Hrun.
  destruct (execute_workflow_step_eq (default_action_handlers env) i step st)
    as (res & st1 & r2 & Hstep & Hupd & Hbody).
  rewrite Hbody in Hrun. injection Hrun as <-.
  apply execute_step_footprint in Hstep as (Hres & Hteam & _). cbn in *.
  destruct (update_incident_from_result_returns step res
              (set_rt_results
                 (<[WorkflowStep.action step := res]> (rt_results (st_rt st1)))
                 (tick (st_rt st1)))) as (inc' & Hupd').
  rewrite Hupd' in Hupd. injection Hupd as <-. cbn.
  split; [exists res; by rewrite Hres | done].
Qed.

(** X5: after a run with the stock handlers the context holds a result
    for exactly the action identifiers of the plan (one entry per
    identifier, however often it occurs), and its roster is the one the
    run was started with. *)
Theorem execute_workflow_results_keys env team_members st :
  ∃ st',
    _execute_workflow (default_action_handlers env) team_members st
    = (Returned tt, st')
    ∧ dom (rt_results (st_rt st'))
      = list_to_set (map WorkflowStep.action (Workflow.steps (st_workflow st)))
    ∧ rt_team_members (st_rt st') = default [] team_members.
Proof.
  destruct (execute_workflow_spec (default_action_handlers env) team_members st)
    as (st' & steps' & Hrun & _).
  exists st'. split; [exact Hrun |].
  destruct (execute_workflow_invariant (default_action_handlers env)
              (fun done s =>
                 dom (rt_results (st_rt s))
                 = list_to_set (map WorkflowStep.action done)
                 ∧ rt_team_members (st_rt s) = default [] team_members)
              team_members st st')
    as (st1 & [Hdom Hteam] & ->); [| | exact Hrun | done].
  - intros done step rest s1 s2 _ [Hd Ht] Hturn.
    apply execute_workflow_step_context in Hturn as [[res Hres] Hteam].
    split; [| congruence].
    rewrite Hres, dom_insert_L, Hd, map_app, list_to_set_app_L. cbn.
    rewrite union_empty_r_L. apply (comm_L (∪)).
  - cbn. split; [| done]. apply dom_empty_L.
Qed.

(** ** Successful creation steps and what later steps see of them *)

#[local] Arguments truthy : simpl never.
#[local] Arguments dict_get_or : simpl never.

Lemma truthy_entry_nonempty d k :
  truthy (dict_get_or d k VNone) = true → data_or_empty (Some d) = d.
Proof. by destruct d. Qed.

Lemma handle_create_ticket_success env step r d :
  auto_ticketing env = true →
  collaborator env (ticket_call (rt_incident r)) (rt_calls r)
  = Returned (VDict d) →
  truthy (dict_get_or d "success" VNone) = true →
  ∃ res,
    _handle_create_ticket env step r
    = (Returned res,
       tick (set_rt_incident
               (Incident.set_servicenow_ticket_id
                  (dict_get_or d "number" VNone) (rt_incident r))
               (set_rt_calls (rt_calls r ++ [ticket_call (rt_incident r)]) r)))
    ∧ ActionResult.success res = true
    ∧ ActionResult.data res = Some d.
Proof.
  intros Hflag Hreply Hok. unfold _handle_create_ticket, ticket_call in *.
  unfold_handler. rewrite Hflag. cbn. rewrite Hreply. cbn. rewrite Hok. cbn.
  by eexists.
Qed.

Lemma handle_create_channel_success env step r d :
  slack_notifications env = true →
  collaborator env
    (mkCall "slack.create_incident_channel" (Some (rt_incident r)) [] [])
    (rt_calls r) = Returned (VDict d) →
  truthy (dict_get_or d "success" VNone) = true →
  ∃ res,
    _handle_create_channel env step r
    = (Returned res,
       tick (set_rt_incident
               (Incident.set_slack_channel_id
                  (dict_get_or d "channel_id" VNone) (rt_incident r))
               (set_rt_calls
                  (rt_calls r
                   ++ [mkCall "slack.create_incident_channel"
                         (Some (rt_incident r)) [] []]) r)))
    ∧ ActionResult.success res = true
    ∧ ActionResult.data res = Some d.
Proof.
  intros Hflag Hreply Hok. unfold _handle_create_channel.
  unfold_handler. rewrite Hflag. cbn. rewrite Hreply. cbn. rewrite Hok. cbn.
  by eexists.
Qed.

Lemma default_handlers_create_channel env :
  default_action_handlers env !! "create_channel"
  = Some (_handle_create_channel env).
Proof. reflexivity. Qed.

Lemma default_handlers_notify_team env :
  default_action_handlers env !! "notify_team"
  = Some (_handle_notify_team env).
Proof. reflexivity. Qed.

(** A turn of the loop, once the handler's run is known to return. *)
Lemma execute_workflow_step_returned env handler i step st res r1 :
  default_action_handlers env !! WorkflowStep.action step = Some handler →
  handler (running (rt_clock (st_rt st)) step) (tick (st_rt st))
  = (Returned res, r1) →
  ∃ r2,
    _update_incident_from_result step res
      (set_rt_results (<[WorkflowStep.action step := res]> (rt_results r1))
         (tick r1)) = (Returned tt, r2)
    ∧ _execute_workflow_step (default_action_handlers env) i step st
      = (Returned tt,
         mkStore
           (Workflow.set_steps
              (alter (finished res (rt_clock (st_rt st)) (rt_clock r1)) i
                 (Workflow.steps (st_workflow st)))
              (Workflow.set_current_step_index i (st_workflow st)))
           r2).
Proof.
  intros Hlook Hrun.
  destruct (execute_workflow_step_eq (default_action_handlers env) i step st)
    as (res' & st1 & r2 & Hstep & Hupd & Hbody).
  rewrite (execute_step_with_handler _ _ _ _ _ Hlook) in Hstep.
  cbn [st_rt st_workflow] in Hstep. rewrite Hrun in Hstep.
  injection Hstep as <- <-. by exists r2.
Qed.

(** X8: a ticket step whose ticketing call answers with a truthy
    [success] makes exactly that call, ends completed with the reply as
    its result payload, files the result under its action, and leaves the
    incident with the reply's [number] as ticket id and otherwise as it
    was. *)
Theorem create_ticket_step_success env i step st d :
  WorkflowStep.action step = "create_ticket" →
  auto_ticketing env = true →
  collaborator env (ticket_call (rt_incident (st_rt st))) (rt_calls (st_rt st))
  = Returned (VDict d) →
  truthy (dict_get_or d "success" VNone) = true →
  ∃ st' res,
    _execute_workflow_step (default_action_handlers env) i step st
    = (Returned tt, st')
    ∧ rt_calls (st_rt st')
      = rt_calls (st_rt st) ++ [ticket_call (rt_incident (st_rt st))]
    ∧ rt_incident (st_rt st')
      = Incident.set_servicenow_ticket_id (dict_get_or d "number" VNone)
          (rt_incident (st_rt st))
    ∧ rt_results (st_rt st') !! "create_ticket" = Some res
    ∧ ActionResult.success res = true
    ∧ ActionResult.data res = Some d
    ∧ ∀ s0,
        Workflow.steps (st_workflow st) !! i = Some s0 →
        ∃ s', Workflow.steps (st_workflow st') !! i = Some s'
              ∧ WorkflowStep.status s' = "completed"
              ∧ WorkflowStep.result s' = Some d.
Proof.
  intros Hact Hflag Hreply Hok.
  destruct (handle_create_ticket_success env
              (running (rt_clock (st_rt st)) step) (tick (st_rt st)) d
              Hflag Hreply Hok) as (res & Hh & Hsucc & Hdata).
  destruct (execute_workflow_step_returned env _ i step st res _
              (ticket_step_handler env step Hact) Hh) as (r2 & Hupd & Hbody).
  unfold _update_incident_from_result in Hupd.
  rewrite Hsucc, Hdata, (truthy_entry_nonempty d "success" Hok), Hact in Hupd.
  cbn in Hupd. unfold_comp. cbn in Hupd. injection Hupd as <-.
  eexists _, res. split; [exact Hbody |]. cbn. rewrite ?Hact.
  split_and!; [done | done | apply lookup_insert_eq | done | done |].
  intros s0 Hs0. rewrite list_lookup_alter_eq, Hs0. cbn.
  eexists. split; [reflexivity |]. cbn. by rewrite Hsucc, Hdata.
Qed.

Lemma create_ticket_step_success_witness :
  ∃ st',
    _execute_workflow_step (default_action_handlers succeeding_env) 0
      ticket_step sample_store = (Returned tt, st')
    ∧ Incident.servicenow_ticket_id (rt_incident (st_rt st'))
      = VStr "INC0012345".
Proof.
  destruct (create_ticket_step_success succeeding_env 0 ticket_step
              sample_store _ eq_refl eq_refl eq_refl eq_refl)
    as (st' & res & Hrun & _ & Hinc & _).
  exists st'. split; [exact Hrun |]. rewrite Hinc. reflexivity.
Defined.

Lemma execute_workflow_step_calls env handler i step st o r1 :
  default_action_handlers env !! WorkflowStep.action step = Some handler →
  handler (running (rt_clock (st_rt st)) step) (tick (st_rt st)) = (o, r1) →
  ∃ st',
    _execute_workflow_step (default_action_handlers env) i step st
    = (Returned tt, st')
    ∧ rt_calls (st_rt st') = rt_calls r1.
Proof.
  intros Hlook Hrun.
  destruct (execute_workflow_step_eq (default_action_handlers env) i step st)
    as (res & st1 & r2 & Hstep & Hupd & Hbody).
  rewrite (execute_step_with_handler _ _ _ _ _ Hlook) in Hstep.
  cbn [st_rt st_workflow] in Hstep. rewrite Hrun in Hstep.
  destruct (update_incident_from_result_returns step res
              (set_rt_results
                 (<[WorkflowStep.action step := res]> (rt_results (st_rt st1)))
                 (tick (st_rt st1)))) as (inc' & Hupd').
  rewrite Hupd' in Hupd. injection Hupd as <-.
  eexists. split; [exact Hbody |]. cbn.
  by destruct o; injection Hstep as <- <-.
Qed.

(** With a channel on the incident the notification goes to it, whatever
    the step's parameters say and whatever the chat service answers. *)
Lemma handle_notify_team_call env step r :
  truthy (Incident.slack_channel_id (rt_incident r)) = true →
  ∃ o r' message,
    _handle_notify_team env step r = (o, r')
    ∧ rt_calls r'
      = rt_calls r
        ++ [mkCall "slack.notify_team" (Some (rt_incident r)) []
              [("channel", Incident.slack_channel_id (rt_incident r));
               ("message", message)]].
Proof.
  intros Hch. unfold _handle_notify_team, py_or. unfold_handler.
  rewrite Hch. cbn. rewrite Hch. cbn.
  match goal with
  | |- context [collaborator env ?c ?h] =>
      destruct (collaborator env c h) as [[| | | | | d] | e]
  end; cbn; try (by eexists _, _, _).
  destruct (pyd_bool env _); cbn; by eexists _, _, _.
Qed.

(** X9: when a channel step succeeds with a truthy [channel_id], a
    notification step that runs next addresses that channel: the two
    turns journal the channel creation and then one [notify_team] call
    whose channel argument is the identifier the first reply carried. *)
Theorem channel_id_reaches_notification env i j step1 step2 st d :
  WorkflowStep.action step1 = "create_channel" →
  WorkflowStep.action step2 = "notify_team" →
  slack_notifications env = true →
  collaborator env
    (mkCall "slack.create_incident_channel" (Some (rt_incident (st_rt st)))
       [] [])
    (rt_calls (st_rt st)) = Returned (VDict d) →
  truthy (dict_get_or d "success" VNone) = true →
  truthy (dict_get_or d "channel_id" VNone) = true →
  ∃ st1 st2 call,
    _execute_workflow_step (default_action_handlers env) i step1 st
    = (Returned tt, st1)
    ∧ _execute_workflow_step (default_action_handlers env) j step2 st1
      = (Returned tt, st2)
    ∧ rt_calls (st_rt st2)
      = rt_calls (st_rt st)
        ++ [mkCall "slack.create_incident_channel"
              (Some (rt_incident (st_rt st))) [] []; call]
    ∧ call_target call = "slack.notify_team"
    ∧ dict_get (call_args call) "channel"
      = Some (dict_get_or d "channel_id" VNone).
Proof.
  intros Hact1 Hact2 Hflag Hreply Hok Hch.
  assert (Hl1 : default_action_handlers env !! WorkflowStep.action step1
                = Some (_handle_create_channel env))
    by (rewrite Hact1; apply default_handlers_create_channel).
  assert (Hl2 : default_action_handlers env !! WorkflowStep.action step2
                = Some (_handle_notify_team env))
    by (rewrite Hact2; apply default_handlers_notify_team).
  destruct (handle_create_channel_success env
              (running (rt_clock (st_rt st)) step1) (tick (st_rt st)) d
              Hflag Hreply Hok) as (res & Hh & Hsucc & Hdata).
  destruct (execute_workflow_step_returned env _ i step1 st res _ Hl1 Hh)
    as (r2 & Hupd & Hbody).
  unfold _update_incident_from_result in Hupd.
  rewrite Hsucc, Hdata, (truthy_entry_nonempty d "success" Hok), Hact1 in Hupd.
  cbn in Hupd. unfold_comp. cbn in Hupd. injection Hupd as <-.
  match type of Hbody with _ = (_, ?s) => set (st1 := s) in * end.
  assert (Hinc1 : Incident.slack_channel_id (rt_incident (st_rt st1))
                  = dict_get_or d "channel_id" VNone) by reflexivity.
  destruct (handle_notify_team_call env
              (running (rt_clock (st_rt st1)) step2) (tick (st_rt st1)))
    as (o & r' & message & Hn & Hcalls); [by rewrite <- Hinc1 in Hch |].
  destruct (execute_workflow_step_calls env _ j step2 st1 o r' Hl2 Hn)
    as (st2 & Hbody2 & Hcalls2).
  eexists st1, st2, _. split; [exact Hbody |]. split; [exact Hbody2 |].
  rewrite Hcalls2, Hcalls. cbn. rewrite <- app_assoc. cbn.
  split_and!; [reflexivity | reflexivity |].
  cbn. done.
Qed.

Lemma channel_id_reaches_notification_witness :
  ∃ st1 st2 call,
    _execute_workflow_step (default_action_handlers succeeding_env) 0
      channel_step sample_store = (Returned tt, st1)
    ∧ _execute_workflow_step (default_action_handlers succeeding_env) 1
        notify_step st1 = (Returned tt, st2)
    ∧ dict_get (call_args call) "channel" = Some (VStr "C042").
Proof.
  destruct (channel_id_reaches_notification succeeding_env 0 1 channel_step
              notify_step sample_store _ eq_refl eq_refl eq_refl eq_refl
              eq_refl eq_refl)
    as (st1 & st2 & call & Hrun1 & Hrun2 & _ & _ & Hch).
  exists st1, st2, call. split_and!; [exact Hrun1 | exact Hrun2 | exact Hch].
Defined.

(** ** The Workflow Builder on a response that parses *)

Section BuilderProperties.
Context (env : Environment).
Context (steps_prompt : string → string → string → string → string → string).

Lemma set_rt_uuid_same r : set_rt_uuid (rt_uuid r) r = r.
Proof. by destruct r. Qed.

Lemma step_of_descriptor_eq item r :
  match descriptor_fields env item with
  | Some (name, action, target_tool, parameters) =>
      step_of_descriptor env item r
      = (Returned (WorkflowStep.mk (uuid4 env (rt_uuid r)) name action
                     target_tool parameters "pending" None None None None),
         set_rt_uuid (S (rt_uuid r)) r)
  | None => ∃ e n, step_of_descriptor env item r = (Raised e, set_rt_uuid n r)
  end.
Proof.
  unfold descriptor_fields, step_of_descriptor, fresh_uuid, validate_str,
    validate_dict, py_get.
  destruct item as [| | | | | d];
    try (exists "AttributeError: object has no attribute 'get'", (rt_uuid r);
         by rewrite set_rt_uuid_same).
  unfold_comp. cbn.
  destruct (pyd_str env (dict_get_or d "name" (VStr "Unknown Step"))); cbn;
    [| by eexists _, _].
  destruct (pyd_str env (dict_get_or d "action" (VStr "unknown"))); cbn;
    [| by eexists _, _].
  destruct (pyd_str env (dict_get_or d "target_tool" (VStr "unknown"))); cbn;
    [| destruct (dict_get_or d "parameters" (VDict [])); by eexists _, _].
  destruct (dict_get_or d "parameters" (VDict [])); cbn;
    try by eexists _, _.
  reflexivity.
Qed.

Lemma collect_cons {S A B} (x : A) (xs : list A) (f : A → comp S B) s :
  collect (x :: xs) f s =
    match f x s with
    | (Returned y, s1) =>
        match collect xs f s1 with
        | (Returned ys, s2) => (Returned (y :: ys), s2)
        | (Raised e, s2) => (Raised e, s2)
        end
    | (Raised e, s1) => (Raised e, s1)
    end.
Proof.
  simpl. unfold mbind, comp_bind. destruct (f x s) as [[y | e] s1]; [| done].
  by destruct (collect xs f s1) as [[ys | e] s2].
Qed.

Lemma collect_descriptors items :
  ∀ r,
    match mapM (descriptor_fields env) items with
    | Some fields =>
        collect items (step_of_descriptor env) r
        = (Returned (steps_of_fields env (rt_uuid r) fields),
           set_rt_uuid (rt_uuid r + List.length items) r)
    | None =>
        ∃ e n, collect items (step_of_descriptor env) r
               = (Raised e, set_rt_uuid n r)
    end.
Proof.
  induction items as [| item items IH]; intros r.
  - cbn. by rewrite Nat.add_0_r, set_rt_uuid_same.
  - rewrite collect_cons. simpl mapM.
    pose proof (step_of_descriptor_eq item r) as Hitem.
    destruct (descriptor_fields env item) as [[[[name action] tool] params] |];
      simpl.
    + rewrite Hitem. specialize (IH (set_rt_uuid (S (rt_uuid r)) r)).
      destruct (mapM (descriptor_fields env) items) as [fields |]; simpl.
      * rewrite IH. destruct r; simpl. f_equal.
        unfold set_rt_uuid; simpl. f_equal. lia.
      * destruct IH as (e & n & IH). rewrite IH. exists e, n. by destruct r.
    + destruct Hitem as (e & n & Hitem). rewrite Hitem. by exists e, n.
Qed.

(** A step as the constructor leaves it. *)
Lemma steps_of_fields_ids u fields :
  map WorkflowStep.id (steps_of_fields env u fields)
  = map (uuid4 env) (seq u (List.length fields))
  ∧ List.length (steps_of_fields env u fields) = List.length fields
  ∧ Forall (λ st, WorkflowStep.status st = "pending"
                  ∧ WorkflowStep.result st = None
                  ∧ WorkflowStep.error st = None)
      (steps_of_fields env u fields).
Proof.
  revert u. induction fields as [| [[[name action] tool] params] rest IH];
    intros u; [done |].
  destruct (IH (S u)) as (Hid & Hlen & Hall). simpl.
  rewrite Hid, Hlen. split_and!; [done | done |]. by constructor.
Qed.

(** The fallback leaves the runtime alone but for the identifier
    draws, one per step. *)
Lemma default_steps_frame incident r :
  ∃ steps,
    _get_default_workflow_steps env incident r
    = (Returned steps, set_rt_uuid (List.length steps + rt_uuid r) r)
    ∧ map WorkflowStep.id steps
      = map (uuid4 env) (seq (rt_uuid r) (List.length steps))
    ∧ Forall (λ st, WorkflowStep.status st = "pending"
                    ∧ WorkflowStep.result st = None
                    ∧ WorkflowStep.error st = None) steps
    ∧ map WorkflowStep.action steps =
        match Incident.severity incident with
        | CRITICAL | HIGH =>
            ["create_ticket"; "create_channel"; "notify_team";
             "analyze_commits"; "create_postmortem"]
        | MEDIUM | LOW =>
            ["create_ticket"; "create_channel"; "create_postmortem"]
        end.
Proof.
  unfold _get_default_workflow_steps. destruct r.
  destruct (Incident.severity incident); eexists;
    (split_and!;
     [ cbn; apply (f_equal2 pair); reflexivity
     | reflexivity
     | repeat constructor
     | reflexivity ]).
Qed.

(** Every way through [recommend_workflow_steps]. *)
Lemma recommend_workflow_steps_cases incident available_tools r :
  let c := planning_call steps_prompt incident available_tools in
  let r1 := set_rt_calls (rt_calls r ++ [c]) r in
  (∃ items fields,
     mapM (descriptor_fields env) items = Some fields
     ∧ recommend_workflow_steps env steps_prompt incident available_tools r
       = (Returned (steps_of_fields env (rt_uuid r) fields),
          set_rt_uuid (rt_uuid r + List.length items) r1))
  ∨ (∃ n, recommend_workflow_steps env steps_prompt incident available_tools r
          = _get_default_workflow_steps env incident (set_rt_uuid n r1)).
Proof.
  intros c0 r0. subst c0 r0. unfold planning_call.
  unfold recommend_workflow_steps, try_except, generate_text, invoke.
  unfold mbind, comp_bind. cbv beta.
  match goal with
  | |- context [collaborator env ?c0 _] => set (c := c0)
  end.
  set (r1 := set_rt_calls (rt_calls r ++ [c]) r).
  assert (Hfb : ∀ (X : outcome (list WorkflowStep.t) * Runtime),
            X = _get_default_workflow_steps env incident r1 →
            X = _get_default_workflow_steps env incident
                  (set_rt_uuid (rt_uuid r1) r1))
    by (intros X ->; by rewrite set_rt_uuid_same).
  destruct (collaborator env c (rt_calls r)) as [response | e];
    [| right; exists (rt_uuid r1); by apply Hfb].
  unfold strip_response.
  destruct response as [| | | s | |];
    try (right; exists (rt_uuid r1); by apply Hfb).
  unfold mret, comp_ret, loads.
  destruct (json_loads env (py_strip env s)) as [steps_data |];
    [| right; exists (rt_uuid r1); by apply Hfb].
  assert (Hitems : ∀ items,
            (∃ items0 fields,
               mapM (descriptor_fields env) items0 = Some fields
               ∧ (let (o, s') := collect items (step_of_descriptor env) r1 in
                  match o with
                  | Returned a => (Returned a, s')
                  | Raised _ => _get_default_workflow_steps env incident s'
                  end)
                 = (Returned (steps_of_fields env (rt_uuid r) fields),
                    set_rt_uuid (rt_uuid r + List.length items0) r1))
            ∨ (∃ n, (let (o, s') := collect items (step_of_descriptor env) r1 in
                     match o with
                     | Returned a => (Returned a, s')
                     | Raised _ => _get_default_workflow_steps env incident s'
                     end)
                    = _get_default_workflow_steps env incident
                        (set_rt_uuid n r1))).
  { intros items. pose proof (collect_descriptors items r1) as Hc.
    destruct (mapM (descriptor_fields env) items) as [fields |] eqn:Hm.
    - left. exists items, fields. split; [done |]. by rewrite Hc.
    - right. destruct Hc as (e & n & Hc). rewrite Hc. by exists n. }
  destruct steps_data as [| | | s0 | l | d]; cbn;
    try (right; exists (rt_uuid r1); by apply Hfb); apply Hitems.
Qed.
End BuilderProperties.

(** The builder as a whole: one call, no fault, fresh pending steps. *)
Lemma recommend_workflow_steps_frame
    (env : Environment)
    (steps_prompt : string → string → string → string → string → string)
    (incident : Incident.t) (available_tools : list string) (r : Runtime) :
  ∃ steps r' n,
    recommend_workflow_steps env steps_prompt incident available_tools r
    = (Returned steps, r')
    ∧ rt_calls r'
      = rt_calls r ++ [planning_call steps_prompt incident available_tools]
    ∧ rt_incident r' = rt_incident r
    ∧ rt_team_members r' = rt_team_members r
    ∧ rt_results r' = rt_results r
    ∧ rt_clock r' = rt_clock r
    ∧ map WorkflowStep.id steps
      = map (uuid4 env) (seq n (List.length steps))
    ∧ rt_uuid r' = (n + List.length steps)%nat
    ∧ Forall (λ st, WorkflowStep.status st = "pending"
                    ∧ WorkflowStep.result st = None
                    ∧ WorkflowStep.error st = None) steps.
Proof.
  destruct (recommend_workflow_steps_cases env steps_prompt incident
              available_tools r) as [(items & fields & Hm & Hrun) | [n Hrun]].
  - destruct (steps_of_fields_ids env (rt_uuid r) fields)
      as (Hid & Hlen & Hall).
    eexists _, _, (rt_uuid r). split; [exact Hrun |].
    split_and!; try done.
    + by rewrite Hlen.
    + cbn. rewrite Hlen. pose proof (length_mapM _ _ _ Hm). lia.
  - destruct (default_steps_frame env incident
                (set_rt_uuid n
                   (set_rt_calls
                      (rt_calls r
                       ++ [planning_call steps_prompt incident available_tools])
                      r))) as (steps & Hfb & Hid & Hall & Hact).
    rewrite Hfb in Hrun. eexists _, _, n. split; [exact Hrun |].
    split_and!; try done. cbn. lia.
Qed.


(** X11: when the response parses to a list whose entries all validate,
    the plan has one pending step per entry, in order, with the entry's
    name, action, target tool and parameters (defaults for missing keys)
    and consecutive fresh identifiers; an empty list gives an empty plan,
    not the fallback. *)
Theorem recommend_workflow_steps_from_descriptors
    (env : Environment)
    (steps_prompt : string → string → string → string → string → string)
    (incident : Incident.t) (available_tools : list string) (r : Runtime)
    (s : string) (items : list value)
    (fields : list (string * string * string * pydict)) :
  collaborator env (planning_call steps_prompt incident available_tools)
    (rt_calls r) = Returned (VStr s) →
  json_loads env (py_strip env s) = Some (VList items) →
  mapM (descriptor_fields env) items = Some fields →
  recommend_workflow_steps env steps_prompt incident available_tools r
  = (Returned (steps_of_fields env (rt_uuid r) fields),
     set_rt_uuid (rt_uuid r + List.length items)
       (set_rt_calls
          (rt_calls r ++ [planning_call steps_prompt incident available_tools])
          r)).
Proof.
  intros Hreply Hparse Hfields.
  unfold recommend_workflow_steps, try_except, generate_text, invoke.
  unfold planning_call in Hreply. unfold mbind, comp_bind. cbv beta.
  rewrite Hreply. unfold strip_response, loads, mret, comp_ret.
  rewrite Hparse. cbn.
  match goal with
  | |- context [collect items _ ?r1] =>
      pose proof (collect_descriptors env items r1) as Hc
  end.
  rewrite Hfields in Hc. rewrite Hc. reflexivity.
Qed.

Lemma recommend_workflow_steps_from_descriptors_witness :
  recommend_workflow_steps planner_env sample_prompt sample_incident
    ["slack"; "ai"] sample_runtime
  = (Returned [WorkflowStep.mk "" "Unknown Step" "unknown" "unknown" []
                 "pending" None None None None],
     set_rt_uuid 1
       (set_rt_calls
          [planning_call sample_prompt sample_incident ["slack"; "ai"]]
          sample_runtime)).
Proof.
  apply (recommend_workflow_steps_from_descriptors planner_env sample_prompt
           sample_incident ["slack"; "ai"] sample_runtime "[{}]" [VDict []]
           [("Unknown Step", "unknown", "unknown", [])]);
    reflexivity.
Defined.

(** ** The fallback plan and the stock handlers *)

(** X12: whatever the incident, every step of the fallback plan names an
    action the stock handler table knows, and no two steps share an
    action: a fallback plan never fails on an unknown action, and the
    results of its steps, filed under the action name, do not overwrite
    each other. *)
Theorem fallback_plan_is_dispatchable
    (env : Environment) (incident : Incident.t) (r : Runtime) :
  ∃ steps r',
    _get_default_workflow_steps env incident r = (Returned steps, r')
    ∧ Forall (λ st, is_Some (default_action_handlers env
                               !! WorkflowStep.action st)) steps
    ∧ NoDup (map WorkflowStep.action steps).
Proof.
  destruct (default_steps_frame env incident r)
    as (steps & Hrun & _ & _ & Hact).
  eexists steps, _. split; [exact Hrun |]. split.
  - apply (Forall_fmap WorkflowStep.action
             (λ a, is_Some (default_action_handlers env !! a))).
    change (Forall (λ a, is_Some (default_action_handlers env !! a))
              (map WorkflowStep.action steps)).
    rewrite Hact.
    destruct (Incident.severity incident);
      repeat (constructor; [by eexists |]); constructor.
  - rewrite Hact.
    destruct (Incident.severity incident);
      apply (bool_decide_unpack _); vm_compute; exact I.
Qed.

(** ** The entry point of the choreographer *)

(** A run rewrites nothing of the workflow's identity. *)
Lemma execute_workflow_identity handlers team_members st st' :
  _execute_workflow handlers team_members st = (Returned tt, st') →
  workflow_identity (st_workflow st') = workflow_identity (st_workflow st).
Proof.
  intros Hrun.
  destruct (execute_workflow_invariant handlers
              (fun _ s =>
                 workflow_identity (st_workflow s)
                 = workflow_identity (st_workflow st))
              team_members st st')
    as (st1 & Hid & ->); [| done | exact Hrun |].
  - intros done step rest s1 s2 _ Hid Hturn.
    destruct (execute_workflow_step_workflow handlers _ _ _ _ Hturn)
      as (Hid' & _). congruence.
  - exact Hid.
Qed.

(** Every dispatched step is completed or failed. *)
Lemma dispatched_terminal handlers l l' :
  Forall2 (fun s0 s' => ∃ res, dispatched handlers s0 s' res) l l' →
  Forall (λ s, WorkflowStep.status s ∈ ["completed"; "failed"]) l'.
Proof.
  induction 1 as [| s0 s' l l' (res & i & st0 & st1 & _ & ->) _ IH];
    constructor; [| done].
  unfold finished. cbn. destruct (ActionResult.success res); set_solver.
Qed.

(** Slicing a [str] counts characters, not bytes of the encoding. *)
Example str_take_counts_characters :
  str_take 2 "héllo" = "hé"
  ∧ String.length "hé" = 3%nat
  ∧ code_points "héllo" = ["h"; "é"; "l"; "l"; "o"]
  ∧ str_take 50 "Test" = "Test".
Proof. vm_compute. by split_and!. Qed.

(** X13: [orchestrate_incident_response] returns whatever the Decision
    Provider and the handlers do.  The workflow it returns is completed,
    refers to the incident, is named after the first 50 characters of the
    incident's title, has every step completed or failed, and is what the
    registry holds under the workflow's id; the other entries of the
    registry are as before. *)
Theorem orchestrate_incident_response_spec
    (env : Environment)
    (steps_prompt : string → string → string → string → string → string)
    (handlers : gmap string Handler)
    (team_members : option (list TeamMember.t)) (ch : Choreographer) :
  ∃ w ch',
    orchestrate_incident_response env steps_prompt handlers team_members ch
    = (Returned w, ch')
    ∧ get_workflow_status (Workflow.id w) ch' = Some w
    ∧ (∀ k, k ≠ Workflow.id w →
            get_workflow_status k ch' = get_workflow_status k ch)
    ∧ Workflow.status w = "completed"
    ∧ Workflow.incident_id w = Incident.id (rt_incident (ch_rt ch))
    ∧ Workflow.name w
      = ("Incident Response: "
         ++ str_take 50 (Incident.title (rt_incident (ch_rt ch))))%string
    ∧ Forall (λ s, WorkflowStep.status s ∈ ["completed"; "failed"])
        (Workflow.steps w).
Proof.
  unfold orchestrate_incident_response, get_workflow_status.
  destruct (recommend_workflow_steps_frame env steps_prompt
              (rt_incident (ch_rt ch)) (_get_available_tools env) (ch_rt ch))
    as (steps & r1 & n & Hplan & _).
  rewrite Hplan. unfold Workflow_new, fresh_uuid, utcnow. unfold_comp. cbn.
  match goal with
  | |- context [_execute_workflow handlers team_members ?s] => set (st := s)
  end.
  destruct (execute_workflow_spec handlers team_members st)
    as (st' & steps' & Hrun & Hstatus & Hsteps & Hall).
  pose proof (execute_workflow_identity _ _ _ _ Hrun) as Hid.
  rewrite Hrun. unfold workflow_identity in Hid. cbn in Hid.
  injection Hid as Hid Hinc Hname _ _.
  eexists _, _. split; [reflexivity |]. cbn.
  rewrite <- Hid. split_and!.
  - apply lookup_insert_eq.
  - intros k Hk. by apply lookup_insert_ne.
  - done.
  - done.
  - done.
  - rewrite Hsteps. by eapply dispatched_terminal.
Qed.

(** ** The text generators of the AI orchestrator *)

Section TextProperties.
Context (env : Environment).

(** One completion under [try]: the reply stripped, or the handler's
    value; the call is journalled either way. *)
Lemma completion_eq {A} model prompt (k : string → rt A)
    (handler : string → rt A) r :
  try_except (response ← generate_text env model prompt;
              text ← strip_response env response;
              k text) handler r
  = let r1 := set_rt_calls (rt_calls r ++ [generation_call model prompt]) r in
    match collaborator env (generation_call model prompt) (rt_calls r) with
    | Returned (VStr s) =>
        match k (py_strip env s) r1 with
        | (Returned a, r2) => (Returned a, r2)
        | (Raised e, r2) => handler e r2
        end
    | Returned _ =>
        handler "AttributeError: object has no attribute 'strip'" r1
    | Raised e => handler e r1
    end.
Proof.
  unfold try_except, generate_text, invoke, generation_call, strip_response.
  unfold_comp. cbn.
  destruct (collaborator env _ (rt_calls r)) as [[| | | s | |] | e];
    try reflexivity.
Qed.

Lemma completion_text_eq model prompt (handler : string → rt string) r :
  try_except (response ← generate_text env model prompt;
              strip_response env response) handler r
  = let r1 := set_rt_calls (rt_calls r ++ [generation_call model prompt]) r in
    match collaborator env (generation_call model prompt) (rt_calls r) with
    | Returned (VStr s) => (Returned (py_strip env s), r1)
    | Returned _ =>
        handler "AttributeError: object has no attribute 'strip'" r1
    | Raised e => handler e r1
    end.
Proof.
  unfold try_except, generate_text, invoke, generation_call, strip_response.
  unfold_comp. cbn.
  destruct (collaborator env _ (rt_calls r)) as [[| | | s | |] | e];
    try reflexivity.
Qed.




End TextProperties.

(** X14: [summarize_incident_for_communication] never raises and makes
    exactly one call to the Decision Provider, touching nothing else: it
    returns the reply stripped when the reply is a string, and the
    incident's description in every other case. *)
Theorem summarize_incident_total
    (env : Environment) (summary_prompt : Incident.t → string → string)
    (incident : Incident.t) (audience : string) (r : Runtime) :
  ∃ text,
    summarize_incident_for_communication env summary_prompt incident
      audience r
    = (Returned text,
       set_rt_calls
         (rt_calls r
          ++ [generation_call DEFAULT_MODEL (summary_prompt incident audience)])
         r)
    ∧ text =
        match collaborator env
                (generation_call DEFAULT_MODEL
                   (summary_prompt incident audience)) (rt_calls r) with
        | Returned (VStr s) => py_strip env s
        | _ => Incident.description incident
        end.
Proof.
  unfold summarize_incident_for_communication.
  rewrite completion_text_eq. cbv zeta.
  destruct (collaborator env _ (rt_calls r)) as [[| | | s | |] | e];
    by eexists.
Qed.

(** X15: [recommend_team_assignment] never raises and makes exactly one
    call to the Decision Provider, touching nothing else: it returns
    whatever JSON value the stripped reply parses to, unvalidated, and the
    default assignment to the on-call team when the call fails, the reply
    is no string or it does not parse. *)
Theorem recommend_team_assignment_total
    (env : Environment) (team_prompt : Incident.t → string → string)
    (json_dumps : value → string)
    (incident : Incident.t) (available_teams : value) (r : Runtime) :
  ∃ v,
    recommend_team_assignment env team_prompt json_dumps incident
      available_teams r
    = (Returned v,
       set_rt_calls
         (rt_calls r
          ++ [generation_call DEFAULT_MODEL
                (team_prompt incident (json_dumps available_teams))])
         r)
    ∧ v =
        match collaborator env
                (generation_call DEFAULT_MODEL
                   (team_prompt incident (json_dumps available_teams)))
                (rt_calls r) with
        | Returned (VStr s) =>
            default default_assignment (json_loads env (py_strip env s))
        | _ => default_assignment
        end.
Proof.
  unfold recommend_team_assignment.
  rewrite completion_eq. cbv zeta. unfold loads.
  destruct (collaborator env _ (rt_calls r)) as [[| | | s | |] | e];
    try by eexists.
  destruct (json_loads env (py_strip env s)); by eexists.
Qed.


(** ** The selections of the playbook *)

(** X17: [_select_assignee] finds nobody only on an empty roster.  The
    assignee is drawn from the roster, is on call unless nobody is, and is
    on call or has a skill for the incident's category unless nobody on
    the roster has one. *)
Theorem select_assignee_spec
    (incident : Incident.t) (team_members : list TeamMember.t) :
  match _select_assignee incident team_members with
  | None => team_members = []
  | Some m =>
      m ∈ team_members
      ∧ (TeamMember.on_call m = true
         ∨ Forall (λ x, TeamMember.on_call x = false) team_members)
      ∧ (TeamMember.on_call m = true
         ∨ has_relevant_skill
             (skills_get assignee_skills
                (category_value (Incident.category incident))) m = true
         ∨ Forall (λ x, has_relevant_skill
                          (skills_get assignee_skills
                             (category_value (Incident.category incident)))
                          x = false) team_members)
  end.
Proof.
  unfold _select_assignee.
  set (rel := skills_get assignee_skills
                (category_value (Incident.category incident))).
  assert (Hnone : ∀ (P : TeamMember.t → bool),
            filter (λ m, P m = true) team_members = [] →
            Forall (λ x, P x = false) team_members).
  { intros P Hnil. apply Forall_forall. intros x Hx.
    destruct (P x) eqn:HP; [| done].
    assert (x ∈ filter (λ m, P m = true) team_members) as Hin
      by (by apply list_elem_of_filter).
    rewrite Hnil in Hin. by apply elem_of_nil in Hin. }
  destruct (filter (λ m, TeamMember.on_call m = true) team_members)
    as [| m rest] eqn:Hoc.
  - destruct (filter (λ m, has_relevant_skill rel m = true) team_members)
      as [| m rest] eqn:Hsk.
    + destruct team_members as [| m rest]; [done |]. simpl.
      split_and!; [apply list_elem_of_here | |].
      * right. by apply (Hnone TeamMember.on_call).
      * right. right. by apply (Hnone (has_relevant_skill rel)).
    + assert (m ∈ filter (λ m, has_relevant_skill rel m = true) team_members)
        as [Hm Hin]%list_elem_of_filter by (rewrite Hsk; apply list_elem_of_here).
      split_and!; [done | | by right; left].
      right. by apply (Hnone TeamMember.on_call).
  - assert (m ∈ filter (λ m, TeamMember.on_call m = true) team_members)
      as [Hm Hin]%list_elem_of_filter by (rewrite Hoc; apply list_elem_of_here).
    split_and!; [done | by left | by left].
Qed.

(** The on-call pair followed by the rest of a duplicate-free roster is
    the roster in another order. *)
Lemma on_call_first_permutation (all_members : list TeamMember.t) :
  NoDup all_members →
  take 2 (filter (λ m, TeamMember.on_call m = true) all_members)
  ++ filter (λ m, m ∉ take 2 (filter (λ m, TeamMember.on_call m = true)
                                all_members)) all_members
  ≡ₚ all_members.
Proof.
  intros Hnd.
  set (pair := take 2 (filter (λ m, TeamMember.on_call m = true) all_members)).
  assert (Hsub : ∀ x, x ∈ pair → x ∈ all_members).
  { intros x Hx. apply subseteq_take in Hx.
    by apply list_elem_of_filter in Hx as [_ Hx]. }
  apply NoDup_Permutation; [| done |].
  - apply NoDup_app. split_and!.
    + eapply sublist_NoDup; [| apply sublist_take]. by apply NoDup_filter.
    + intros x Hx [Hn _]%list_elem_of_filter. done.
    + by apply NoDup_filter.
  - intros x. rewrite elem_of_app, list_elem_of_filter.
    destruct (decide (x ∈ pair)) as [Hp | Hp]; split.
    + intros _. by apply Hsub.
    + intros _. by left.
    + intros [Hx | [_ Hx]]; [by apply Hsub | done].
    + intros Hx. by right.
Qed.

(** X18: on a roster without repeated members [_select_response_team]
    returns the first five of the roster reordered so that its first two
    on-call members lead; the incident plays no part.  The team has no
    duplicates, exactly min(5, roster size) members, and a roster of at
    most five is selected whole. *)
Theorem select_response_team_spec
    (incident : Incident.t) (all_members : list TeamMember.t) :
  NoDup all_members →
  _select_response_team incident all_members
  = take 5
      (take 2 (filter (λ m, TeamMember.on_call m = true) all_members)
       ++ filter (λ m, m ∉ take 2 (filter (λ m, TeamMember.on_call m = true)
                                     all_members)) all_members)
  ∧ NoDup (_select_response_team incident all_members)
  ∧ List.length (_select_response_team incident all_members)
    = Nat.min 5 (List.length all_members)
  ∧ _select_response_team incident all_members ⊆ all_members
  ∧ ((List.length all_members ≤ 5)%nat →
     _select_response_team incident all_members ≡ₚ all_members).
Proof.
  intros Hnd.
  assert (Hcf : _select_response_team incident all_members
                = take 5
                    (take 2 (filter (λ m, TeamMember.on_call m = true)
                               all_members)
                     ++ filter (λ m, m ∉ take 2
                                  (filter (λ m, TeamMember.on_call m = true)
                                     all_members)) all_members)).
  { unfold _select_response_team. simpl app.
    apply foldl_select_append; [done |]. rewrite length_take. lia. }
  pose proof (on_call_first_permutation all_members Hnd) as Hperm.
  rewrite Hcf. split_and!.
  - done.
  - eapply sublist_NoDup; [| apply sublist_take].
    eapply (NoDup_Permutation_proper _ _ Hperm). done.
  - rewrite length_take. by rewrite (Permutation_length Hperm).
  - etrans; [apply subseteq_take |]. intros x Hx. by rewrite <- Hperm.
  - intros Hlen. rewrite take_ge; [done |].
    by rewrite (Permutation_length Hperm).
Qed.

Lemma select_response_team_spec_witness :
  NoDup [bob; alice]
  ∧ _select_response_team sample_incident [bob; alice] ≡ₚ [bob; alice].
Proof.
  assert (Hnd : NoDup [bob; alice]).
  { apply (bool_decide_unpack _). vm_compute. exact I. }
  split; [exact Hnd |].
  apply (select_response_team_spec sample_incident [bob; alice] Hnd).
  simpl. lia.
Defined.

(** ** The stages of the playbook *)

(** X19: the ticket stage makes exactly one call, to the ticketing
    collaborator.  It completes exactly when the reply is a dict with a
    truthy [success]; then the incident's ticket id becomes the reply's
    [number] (absent: [None]) and nothing else of the incident changes.
    In every other case the stage is recorded as failed and the incident
    is as before. *)
Theorem step1_ticket_outcome
    (env : Environment) (isoformat : datetime → string) (r : Runtime) :
  ∃ record r',
    _step1_create_servicenow_ticket env isoformat r = (Returned record, r')
    ∧ rt_calls r' = rt_calls r ++ [ticket_call (rt_incident r)]
    ∧ match collaborator env (ticket_call (rt_incident r)) (rt_calls r) with
      | Returned (VDict d) =>
          if truthy (dict_get_or d "success" VNone) then
            dict_get record "status" = Some (VStr "completed")
            ∧ dict_get record "ticket_number"
              = Some (dict_get_or d "number" VNone)
            ∧ rt_incident r'
              = Incident.set_servicenow_ticket_id
                  (dict_get_or d "number" VNone) (rt_incident r)
          else
            dict_get record "status" = Some (VStr "failed")
            ∧ dict_get record "error" = Some (dict_get_or d "error" VNone)
            ∧ rt_incident r' = rt_incident r
      | Returned _ =>
          dict_get record "status" = Some (VStr "failed")
          ∧ rt_incident r' = rt_incident r
      | Raised e =>
          dict_get record "status" = Some (VStr "failed")
          ∧ dict_get record "error" = Some (VStr e)
          ∧ rt_incident r' = rt_incident r
      end.
Proof.
  unfold _step1_create_servicenow_ticket. rewrite run_stage_eq.
  unfold _step1_body, invoke, py_get. unfold_stage. cbn.
  destruct (collaborator env _ (rt_calls r)) as [[| | | | | d] | e]; cbn;
    try (eexists _, _; split_and!; reflexivity).
  destruct (truthy (dict_get_or d "success" VNone)); cbn;
    eexists _, _; split_and!; reflexivity.
Qed.

(** X20: when the incident has no channel and the channel cannot be
    created (the reply has no truthy [success]), the alert stage still
    posts to the main incident channel, but the message it posts is
    empty: the condition on the channel id governs the whole message, not
    only its last line.  The incident is left as it was. *)
Theorem step2_alert_without_channel
    (env : Environment) (isoformat : datetime → string) (r : Runtime)
    (d : pydict) :
  truthy (Incident.slack_channel_id (rt_incident r)) = false →
  collaborator env
    (mkCall "slack.create_incident_channel" (Some (rt_incident r)) [] [])
    (rt_calls r) = Returned (VDict d) →
  truthy (dict_get_or d "success" VNone) = false →
  ∃ record r',
    _step2_send_slack_alert env isoformat r = (Returned record, r')
    ∧ rt_calls r'
      = rt_calls r
        ++ [mkCall "slack.create_incident_channel" (Some (rt_incident r))
              [] [];
            mkCall "slack.notify_team" (Some (rt_incident r)) []
              [("channel", VStr "#incident-response");
               ("message", VStr "")]]
    ∧ rt_incident r' = rt_incident r.
Proof.
  intros Hnochan Hreply Hfail.
  unfold _step2_send_slack_alert. rewrite run_stage_eq.
  unfold _step2_body, invoke, py_get, alert_message, INCIDENT_CHANNEL.
  unfold_stage. cbn. rewrite Hreply. cbn. rewrite Hfail. cbn.
  rewrite Hnochan.
  match goal with
  | |- context [collaborator env ?c ?h] =>
      destruct (collaborator env c h) as [[| | | | | d2] | e]
  end; cbn;
    try (eexists _, _; split_and!;
         [reflexivity | by rewrite <- app_assoc | reflexivity]).
  destruct (truthy (dict_get_or d2 "success" VNone)); cbn;
    eexists _, _; split_and!;
    [reflexivity | by rewrite <- app_assoc | reflexivity
    | reflexivity | by rewrite <- app_assoc | reflexivity].
Qed.

Lemma step2_alert_without_channel_witness :
  ∃ record r',
    _step2_send_slack_alert failing_env sample_isoformat sample_runtime
    = (Returned record, r')
    ∧ rt_calls r'
      = [mkCall "slack.create_incident_channel" (Some sample_incident) [] [];
         mkCall "slack.notify_team" (Some sample_incident) []
           [("channel", VStr "#incident-response"); ("message", VStr "")]]
    ∧ rt_incident r' = sample_incident.
Proof.
  apply (step2_alert_without_channel failing_env sample_isoformat
           sample_runtime
           [("success", VBool false); ("error", VStr "chat down")]);
    reflexivity.
Defined.

Section PlaybookEnd.
Context (isoformat : datetime → string).

(** What the last stage leaves holds at the end of the run, when no
    stage raises and reading the clock keeps it. *)
Lemma execute_workflow_with_final (P : Runtime → Prop)
    step1 step2 step3 step4 step5 step6 step7 r :
  (∀ r0, ∃ rec r1, step1 r0 = (Returned rec, r1)) →
  (∀ r0, ∃ rec r1, step2 r0 = (Returned rec, r1)) →
  (∀ r0, ∃ rec r1, step3 r0 = (Returned rec, r1)) →
  (∀ d r0, ∃ rec r1, step4 d r0 = (Returned rec, r1)) →
  (∀ r0, ∃ rec r1, step5 r0 = (Returned rec, r1)) →
  (∀ r0, ∃ rec r1, step6 r0 = (Returned rec, r1)) →
  (∀ r0, ∃ rec r1, step7 r0 = (Returned rec, r1) ∧ P r1) →
  (∀ r0, P r0 → P (tick r0)) →
  ∃ wr r',
    execute_workflow_with isoformat step1 step2 step3 step4 step5 step6 step7
      r = (Returned wr, r')
    ∧ P r'.
Proof.
  intros H1 H2 H3 H4 H5 H6 H7 Htick.
  unfold execute_workflow_with. unfold_stage. unfold dict_get_or. cbn.
  match goal with
  | |- context [step1 ?r0] => destruct (H1 r0) as (rec1 & r1 & ->)
  end; unfold dict_get_or; cbn.
  match goal with
  | |- context [step2 ?r0] => destruct (H2 r0) as (rec2 & r2 & ->)
  end; unfold dict_get_or; cbn.
  match goal with
  | |- context [step3 ?r0] => destruct (H3 r0) as (rec3 & r3 & ->)
  end; unfold dict_get_or; cbn.
  match goal with
  | |- context [step4 ?d ?r0] => destruct (H4 d r0) as (rec4 & r4 & ->)
  end; unfold dict_get_or; cbn.
  match goal with
  | |- context [step5 ?r0] => destruct (H5 r0) as (rec5 & r5 & ->)
  end; unfold dict_get_or; cbn.
  match goal with
  | |- context [step6 ?r0] => destruct (H6 r0) as (rec6 & r6 & ->)
  end; unfold dict_get_or; cbn.
  match goal with
  | |- context [step7 ?r0] => destruct (H7 r0) as (rec7 & r7 & -> & HP)
  end; unfold dict_get_or; cbn.
  eexists _, _. split; [reflexivity |]. by apply Htick.
Qed.

(** The last stage marks the incident before it calls anybody. *)
Lemma step7_marks_incident env r :
  ∃ record r',
    _step7_monitor_and_update env isoformat r = (Returned record, r')
    ∧ Incident.status (rt_incident r') = IN_PROGRESS
    ∧ Incident.acknowledged_at (rt_incident r') = Some (S (rt_clock r))
    ∧ blank_marks (rt_incident r') = blank_marks (rt_incident r).
Proof.
  unfold _step7_monitor_and_update. rewrite run_stage_eq.
  unfold _step7_body, invoke. unfold_stage. cbn.
  destruct (truthy (Incident.servicenow_ticket_id (rt_incident r))); cbn.
  - destruct (collaborator env _ (rt_calls r)) as [v1 | e1]; cbn;
      [| by eexists _, _].
    destruct (truthy (Incident.slack_channel_id (rt_incident r))); cbn;
      [| by eexists _, _].
    match goal with
    | |- context [collaborator env ?c ?h] =>
        destruct (collaborator env c h) as [v2 | e2]
    end; cbn; by eexists _, _.
  - destruct (truthy (Incident.slack_channel_id (rt_incident r))); cbn;
      [| by eexists _, _].
    destruct (collaborator env _ (rt_calls r)) as [v2 | e2]; cbn;
      by eexists _, _.
Qed.
End PlaybookEnd.

(** X21: whatever the collaborators do, the last stage returns with the
    incident in progress and acknowledged at the time the stage read the
    clock, and with nothing else of the incident changed: both marks are
    set before the first call of the stage. *)
Theorem step7_marks_incident_in_progress
    (env : Environment) (isoformat : datetime → string) (r : Runtime) :
  ∃ record r',
    _step7_monitor_and_update env isoformat r = (Returned record, r')
    ∧ Incident.status (rt_incident r') = IN_PROGRESS
    ∧ Incident.acknowledged_at (rt_incident r') = Some (S (rt_clock r))
    ∧ blank_marks (rt_incident r') = blank_marks (rt_incident r).
Proof. apply step7_marks_incident. Qed.

(** X22: whatever the collaborators do, a run of the playbook returns
    with the incident in progress and acknowledged. *)
Theorem playbook_leaves_incident_in_progress
    (env : Environment) (isoformat : datetime → string)
    (repositories : option (list string))
    (team_members : option (list TeamMember.t)) (r : Runtime) :
  ∃ wr r',
    execute_workflow env isoformat repositories team_members r
    = (Returned wr, r')
    ∧ Incident.status (rt_incident r') = IN_PROGRESS
    ∧ is_Some (Incident.acknowledged_at (rt_incident r')).
Proof.
  unfold execute_workflow.
  apply (execute_workflow_with_final isoformat
           (λ r0, Incident.status (rt_incident r0) = IN_PROGRESS
                  ∧ is_Some (Incident.acknowledged_at (rt_incident r0))));
    try (intros; apply run_stage_returns).
  - intros r0.
    destruct (step7_marks_incident isoformat env r0)
      as (rec & r1 & Hrun & Hst & Hack & _).
    exists rec, r1. split_and!; [done | done | by rewrite Hack].
  - intros r0 HP. exact HP.
Qed.

(** ** The rule-based parts of the Incident Agent *)

Section Substrings.
Implicit Types (kw text pre post : string).

Lemma append_cons a kw post :
  (String a kw ++ post)%string = String a (kw ++ post)%string.
Proof. reflexivity. Qed.

Lemma append_nil post : ("" ++ post)%string = post.
Proof. reflexivity. Qed.

Lemma prefix_app kw text :
  String.prefix kw text = true ↔ ∃ post, text = (kw ++ post)%string.
Proof.
  revert text. induction kw as [| a kw IH]; intros text.
  - destruct text; simpl; split; eauto.
  - destruct text as [| b text]; simpl.
    + split; [done | intros [post Hp]; by rewrite append_cons in Hp].
    + destruct (Ascii.ascii_dec a b) as [-> | Hne].
      * rewrite IH. split; intros [post Hp]; exists post.
        -- rewrite append_cons. by rewrite Hp.
        -- rewrite append_cons in Hp. by injection Hp.
      * split; [done |]. intros [post Hp]. rewrite append_cons in Hp.
        by injection Hp.
Qed.

(** [contains] is Python's [in] on strings: the keyword occurs somewhere
    in the text. *)
Lemma contains_spec kw text :
  contains kw text = true ↔ ∃ pre post, text = (pre ++ kw ++ post)%string.
Proof.
  induction text as [| a text IH].
  - change (contains kw "") with (String.prefix kw "" || false).
    rewrite orb_false_r, prefix_app. split.
    + intros [post ->]. by exists "", post.
    + intros (pre & post & Hp). destruct pre as [| b pre].
      * rewrite append_nil in Hp. by exists post.
      * by rewrite append_cons in Hp.
  - change (contains kw (String a text))
      with (String.prefix kw (String a text) || contains kw text).
    rewrite orb_true_iff, prefix_app, IH. split.
    + intros [[post ->] | (pre & post & ->)].
      * by exists "", post.
      * by exists (String a pre), post.
    + intros (pre & post & Hp). destruct pre as [| b pre].
      * left. rewrite append_nil in Hp. by exists post.
      * right. rewrite append_cons in Hp. injection Hp as -> ->.
        by exists pre, post.
Qed.

Lemma any_keyword_spec keywords text :
  any_keyword keywords text = true
  ↔ ∃ kw pre post, kw ∈ keywords ∧ text = (pre ++ kw ++ post)%string.
Proof.
  unfold any_keyword. rewrite existsb_exists. split.
  - intros (kw & Hin%list_elem_of_In & (pre & post & ->)%contains_spec).
    by exists kw, pre, post.
  - intros (kw & pre & post & Hin%list_elem_of_In & ->).
    exists kw. split; [done |]. apply contains_spec. by exists pre, post.
Qed.
End Substrings.

#[local] Arguments any_keyword : simpl never.
#[local] Arguments count_matches : simpl never.

Section ClassifierProperties.
Context (py_lower : string → string).

Lemma quick_classify_fst title description :
  fst (quick_classify py_lower title description)
  = severity_loop SEVERITY_KEYWORDS
      (py_lower (title ++ " " ++ description)%string) MEDIUM.
Proof. unfold quick_classify. by destruct (foldl _ _ _). Qed.

Lemma quick_classify_snd title description :
  snd (quick_classify py_lower title description)
  = snd (foldl (category_turn (py_lower (title ++ " " ++ description)%string))
           (0%nat, UNKNOWN) CATEGORY_KEYWORDS).
Proof. unfold quick_classify. by destruct (foldl _ _ _). Qed.

(** The category loop keeps the first entry with the greatest count. *)
Lemma category_loop_spec text table :
  ∀ m c,
    (foldl (category_turn text) (m, c) table = (m, c)
     ∧ Forall (λ e, count_matches (snd e) text ≤ m)%nat table)
    ∨ (∃ before cat kws after,
         table = before ++ (cat, kws) :: after
         ∧ foldl (category_turn text) (m, c) table
           = (count_matches kws text, cat)
         ∧ (m < count_matches kws text)%nat
         ∧ Forall (λ e, count_matches (snd e) text < count_matches kws text)%nat
             before
         ∧ Forall (λ e, count_matches (snd e) text ≤ count_matches kws text)%nat
             after).
Proof.
  induction table as [| [cat kws] rest IH]; intros m c.
  - left. by split.
  - simpl foldl. unfold category_turn at 2.
    destruct (Nat.ltb_spec m (count_matches kws text)) as [Hlt | Hge].
    + right.
      destruct (IH (count_matches kws text) cat)
        as [[Hrun Hall] | (before & cat' & kws' & after & -> & Hrun & Hlt'
                           & Hbefore & Hafter)].
      * exists [], cat, kws, rest. by split_and!.
      * exists ((cat, kws) :: before), cat', kws', after.
        split_and!; [done | done | lia | | done].
        constructor; [done | done].
    + destruct (IH m c)
        as [[Hrun Hall] | (before & cat' & kws' & after & -> & Hrun & Hlt'
                           & Hbefore & Hafter)].
      * left. split; [done |]. by constructor.
      * right. exists ((cat, kws) :: before), cat', kws', after.
        split_and!; [done | done | done | | done].
        constructor; [simpl; lia | done].
Qed.
End ClassifierProperties.

(** X23: the severity of [quick_classify] is at least as severe as any
    severity one of whose keywords occurs anywhere in the lowered text,
    be it inside another word; and a severity other than the default is
    only returned when one of its own keywords occurs. *)
Theorem quick_classify_severity
    (py_lower : string → string) (title description : string) :
  (∀ sev keywords kw pre post,
     (sev, keywords) ∈ SEVERITY_KEYWORDS → kw ∈ keywords →
     py_lower (title ++ " " ++ description)%string = (pre ++ kw ++ post)%string →
     (severity_rank (fst (quick_classify py_lower title description))
      ≤ severity_rank sev)%nat)
  ∧ (fst (quick_classify py_lower title description) ≠ MEDIUM →
     ∃ keywords kw pre post,
       (fst (quick_classify py_lower title description), keywords)
       ∈ SEVERITY_KEYWORDS
       ∧ kw ∈ keywords
       ∧ py_lower (title ++ " " ++ description)%string
         = (pre ++ kw ++ post)%string).
Proof.
  rewrite quick_classify_fst.
  set (text := py_lower (title ++ " " ++ description)%string).
  unfold SEVERITY_KEYWORDS. cbn [severity_loop]. split.
  - intros sev keywords kw pre post Hin Hkw Htext.
    assert (Hany : any_keyword keywords text = true)
      by (apply any_keyword_spec; by exists kw, pre, post).
    clear Hkw Htext.
    repeat (apply elem_of_cons in Hin as [Hin | Hin];
            [injection Hin as -> ->; rewrite ?Hany;
             repeat (match goal with
                     | |- context [any_keyword ?k text] =>
                         destruct (any_keyword k text)
                     end); simpl; lia |]).
    by apply elem_of_nil in Hin.
  - repeat (match goal with
            | |- context [any_keyword ?k text] =>
                destruct (any_keyword k text) eqn:?
            end);
      intros Hne; try done;
      match goal with
      | H : any_keyword ?k text = true |- _ =>
          apply any_keyword_spec in H as (kw & pre & post & Hkw & Htext);
          exists k, kw, pre, post; split_and!; [| done | done]
      end;
      repeat first [apply list_elem_of_here | apply list_elem_of_further].
Qed.

Lemma quick_classify_severity_witness :
  (severity_rank
     (fst (quick_classify sample_lower "Production Database Down"
             "Critical outage affecting all users"))
   ≤ severity_rank CRITICAL)%nat.
Proof.
  apply (proj1 (quick_classify_severity sample_lower
                  "Production Database Down"
                  "Critical outage affecting all users")
           CRITICAL
           ["critical"; "fatal"; "emergency"; "outage"; "down";
            "production down"; "data loss"; "security breach"]
           "down" "production database "
           " critical outage affecting all users").
  - apply list_elem_of_here.
  - repeat first [apply list_elem_of_here | apply list_elem_of_further].
  - reflexivity.
Defined.

(** X24: the category of [quick_classify] is the first entry of the
    keyword table with the greatest number of keywords occurring in the
    lowered text: every entry before it has strictly fewer, no entry has
    more, and it has at least one; the category is unknown exactly when no
    keyword of any entry occurs. *)
Theorem quick_classify_category
    (py_lower : string → string) (title description : string) :
  (snd (quick_classify py_lower title description) = UNKNOWN
   ∧ Forall (λ e, count_matches (snd e)
                    (py_lower (title ++ " " ++ description)%string) = 0%nat)
       CATEGORY_KEYWORDS)
  ∨ (∃ before keywords after,
       CATEGORY_KEYWORDS
       = before
         ++ (snd (quick_classify py_lower title description), keywords)
         :: after
       ∧ (0 < count_matches keywords
                (py_lower (title ++ " " ++ description)%string))%nat
       ∧ Forall (λ e, count_matches (snd e)
                        (py_lower (title ++ " " ++ description)%string)
                      < count_matches keywords
                          (py_lower (title ++ " " ++ description)%string))%nat
           before
       ∧ Forall (λ e, count_matches (snd e)
                        (py_lower (title ++ " " ++ description)%string)
                      ≤ count_matches keywords
                          (py_lower (title ++ " " ++ description)%string))%nat
           after).
Proof.
  rewrite quick_classify_snd.
  set (text := py_lower (title ++ " " ++ description)%string).
  destruct (category_loop_spec text CATEGORY_KEYWORDS 0%nat UNKNOWN)
    as [[Hrun Hall] | (before & cat & kws & after & Htable & Hrun & Hlt
                       & Hbefore & Hafter)].
  - left. rewrite Hrun. split; [done |].
    eapply Forall_impl; [exact Hall |]. simpl. lia.
  - right. rewrite Hrun. simpl snd. by exists before, kws, after.
Qed.

(** tests/test_incident_agent.py *)
Example quick_classify_tests :
  fst (quick_classify sample_lower "Production Database Down"
         "Critical outage affecting all users") = CRITICAL
  ∧ snd (quick_classify sample_lower "PostgreSQL Connection Error"
           "Database connection pool exhausted") = DATABASE
  ∧ snd (quick_classify sample_lower "DNS Resolution Failure"
           "Load balancer cannot reach backend services") = NETWORK
  ∧ snd (quick_classify sample_lower "Unauthorized Access Attempt"
           "Multiple failed authentication attempts detected") = SECURITY
  ∧ quick_classify sample_lower "Something happened"
      "Not sure what this is about" = (MEDIUM, UNKNOWN).
Proof. vm_compute. by split_and!. Qed.

(** A word that merely contains a keyword counts: a slow download is
    critical. *)
Example quick_classify_substring :
  fst (quick_classify sample_lower "Slow download" "") = CRITICAL.
Proof. vm_compute. reflexivity. Qed.

(** ** Reading alerts *)

Example split_dot_path :
  split_dot "labels.alertname" = ["labels"; "alertname"]
  ∧ split_dot "title" = ["title"].
Proof. vm_compute. by split. Qed.

Lemma split_dot_cons path : ∃ w ws, split_dot path = w :: ws.
Proof.
  induction path as [| c path (w & ws & IH)]; simpl; [by eexists _, _ |].
  destruct (Ascii.eqb c dot); [by eexists _, _ |]. rewrite IH.
  by eexists _, _.
Qed.

(** What [_extract_field] returns is not empty. *)
Lemma extract_field_paths_nonempty (data : value) (field_paths : list string) :
  match _extract_field data field_paths with
  | Some s => s ≠ ""
  | None => True
  end.
Proof.
  induction field_paths as [| path rest IH]; simpl; [done |].
  destruct (follow_path data (split_dot path)) as [| | | s | |]; try exact IH.
  unfold truthy. by destruct (String.eqb_spec s "") as [-> | Hne]; simpl.
Qed.

(** X25: [_extract_field] returns the string found at the first path
    that leads to a non-empty string, and nothing when no path does; it
    never returns an empty string. *)
Theorem extract_field_spec (data : value) (field_paths : list string) :
  match _extract_field data field_paths with
  | Some s =>
      s ≠ ""
      ∧ ∃ before path after,
          field_paths = before ++ path :: after
          ∧ follow_path data (split_dot path) = VStr s
          ∧ Forall (λ p, ∀ s', follow_path data (split_dot p) = VStr s' →
                               s' = "") before
  | None =>
      Forall (λ p, ∀ s', follow_path data (split_dot p) = VStr s' → s' = "")
        field_paths
  end.
Proof.
  induction field_paths as [| path rest IH]; simpl; [done |].
  assert (Hskip :
    (∀ s', follow_path data (split_dot path) = VStr s' → s' = "") →
    match _extract_field data rest with
    | Some s =>
        s ≠ ""
        ∧ ∃ before path0 after,
            path :: rest = before ++ path0 :: after
            ∧ follow_path data (split_dot path0) = VStr s
            ∧ Forall (λ p, ∀ s', follow_path data (split_dot p) = VStr s' →
                                 s' = "") before
    | None =>
        Forall (λ p, ∀ s', follow_path data (split_dot p) = VStr s' → s' = "")
          (path :: rest)
    end).
  { intros Hpath. destruct (_extract_field data rest) as [s |].
    - destruct IH as (Hs & before & path0 & after & -> & Hfound & Hbefore).
      split; [done |]. exists (path :: before), path0, after.
      split_and!; [done | done | by constructor].
    - by constructor. }
  destruct (follow_path data (split_dot path)) as [| | | s | |] eqn:Hfollow;
    try (apply Hskip; intros s' Hs'; discriminate).
  unfold truthy.
  destruct (String.eqb_spec s "") as [-> | Hne]; simpl.
  - apply Hskip. intros s' Hs'. by injection Hs' as <-.
  - split; [done |]. exists [], path, rest. by split_and!.
Qed.

(** X26: the title [_extract_alert_info] gives an alert is never empty,
    whatever the source and the alert; an alert that is no dict gets the
    placeholder title and an empty description. *)
Theorem extract_alert_info_title (alert_data : value) (source : string) :
  fst (_extract_alert_info alert_data source) ≠ ""
  ∧ ((∀ d, alert_data ≠ VDict d) →
     _extract_alert_info alert_data source = ("Unknown Alert", "")).
Proof.
  unfold _extract_alert_info. split.
  - simpl fst.
    pose proof (extract_field_paths_nonempty alert_data
                  (fst (field_mapping source))) as Hs.
    destruct (_extract_field alert_data (fst (field_mapping source)));
      simpl; [done | done].
  - intros Hnodict.
    assert (Hnone : ∀ paths, _extract_field alert_data paths = None).
    { induction paths as [| path rest IH]; simpl; [done |].
      destruct (split_dot_cons path) as (w & ws & ->). simpl.
      destruct alert_data as [| | | | | d]; try exact IH.
      by destruct (Hnodict d). }
    by rewrite !Hnone.
Qed.

Lemma extract_alert_info_title_witness :
  _extract_alert_info (VStr "disk full") "datadog" = ("Unknown Alert", "").
Proof.
  apply (proj2 (extract_alert_info_title (VStr "disk full") "datadog")).
  intros d. discriminate.
Defined.

Example extract_alert_info_prometheus :
  _extract_alert_info prometheus_alert "prometheus"
  = ("HighErrorRate", "5xx above 5%").
Proof. vm_compute. reflexivity. Qed.

(** ** More on the stock handlers *)

Section SelectionBounds.
Implicit Types (sel l : list TeamMember.t) (m : TeamMember.t).

Lemma select_append_bound sel m :
  (List.length sel ≤ 5)%nat → (List.length (select_append sel m) ≤ 5)%nat.
Proof.
  intros Hlen. unfold select_append.
  destruct (bool_decide (m ∉ sel)); simpl; [| done].
  destruct (Nat.ltb_spec (List.length sel) 5); [| done].
  rewrite length_app. simpl. lia.
Qed.

Lemma foldl_select_append_bound l sel :
  (List.length sel ≤ 5)%nat →
  (List.length (foldl select_append sel l) ≤ 5)%nat.
Proof.
  revert sel. induction l as [| m l IH]; intros sel Hlen; simpl; [done |].
  by apply IH, select_append_bound.
Qed.

Lemma foldl_select_append_subseteq (roster : list TeamMember.t) l sel :
  sel ⊆ roster → l ⊆ roster → foldl select_append sel l ⊆ roster.
Proof.
  revert sel. induction l as [| m l IH]; intros sel Hsel Hl; simpl; [done |].
  apply IH.
  - unfold select_append.
    destruct (bool_decide (m ∉ sel) && (List.length sel <? 5)%nat); [| done].
    intros x [Hx | ->%list_elem_of_singleton]%elem_of_app; [by apply Hsel |].
    apply Hl, list_elem_of_here.
  - intros x Hx. by apply Hl, list_elem_of_further.
Qed.

(** On any roster, repeated members or not, the selection has at most
    five members, all of the roster. *)
Lemma select_relevant_team_members_bound incident all_members :
  (List.length (_select_relevant_team_members incident all_members) ≤ 5)%nat
  ∧ _select_relevant_team_members incident all_members ⊆ all_members.
Proof.
  unfold _select_relevant_team_members. split.
  - do 2 apply foldl_select_append_bound. rewrite length_take. lia.
  - apply foldl_select_append_subseteq; [| done].
    apply foldl_select_append_subseteq.
    + intros x Hx%subseteq_take. by apply list_elem_of_filter in Hx as [_ Hx].
    + intros x Hx. by apply list_elem_of_filter in Hx as [_ Hx].
Qed.
End SelectionBounds.

#[local] Arguments _select_relevant_team_members : simpl never.

(** X27: with a roster and an incident channel, the team handler makes
    exactly one call, inviting at most five members, all of the roster.
    When the reply is a dict with a truthy [success] the incident's
    responders are replaced by the ids of the invited, even if the handler
    then fails on the rest of the reply; in every other case the incident
    is as before. *)
Theorem assemble_team_invites_selection
    (env : Environment) (step : WorkflowStep.t) (r : Runtime) :
  rt_team_members r ≠ [] →
  truthy (Incident.slack_channel_id (rt_incident r)) = true →
  ∃ o r' team,
    _handle_assemble_team env step r = (o, r')
    ∧ rt_calls r'
      = rt_calls r
        ++ [mkCall "slack.assemble_response_team" (Some (rt_incident r)) team
              [("channel_id", Incident.slack_channel_id (rt_incident r))]]
    ∧ (List.length team ≤ 5)%nat
    ∧ team ⊆ rt_team_members r
    ∧ rt_incident r'
      = match collaborator env
                (mkCall "slack.assemble_response_team" (Some (rt_incident r))
                   team
                   [("channel_id",
                     Incident.slack_channel_id (rt_incident r))])
                (rt_calls r) with
        | Returned (VDict d) =>
            if truthy (dict_get_or d "success" VNone)
            then Incident.set_assigned_responders (map TeamMember.id team)
                   (rt_incident r)
            else rt_incident r
        | _ => rt_incident r
        end.
Proof.
  intros Hroster Hchan.
  destruct (select_relevant_team_members_bound (rt_incident r)
              (rt_team_members r)) as [Hlen Hsub].
  unfold _handle_assemble_team. unfold_handler. cbn.
  destruct (rt_team_members r) as [| m ms]; [done |].
  rewrite Hchan. cbn.
  set (team := _select_relevant_team_members (rt_incident r) (m :: ms)) in *.
  destruct (collaborator env _ (rt_calls r)) as [[| | | | | d] | e] eqn:Hreply;
    cbn.
  1-5, 7: eexists _, _, team;
    (split_and!; [reflexivity | done | done | done | by rewrite Hreply]).
  destruct (truthy (dict_get_or d "success" VNone)) eqn:Hok; cbn;
    destruct (pyd_bool env (dict_get_or d "success" (VBool false))); cbn;
    eexists _, _, team;
    (split_and!;
     [reflexivity | done | done | done | by rewrite Hreply, Hok]).
Qed.

Lemma assemble_team_invites_selection_witness :
  ∃ o r',
    _handle_assemble_team no_ticketing_env sample_step staffed_runtime
    = (o, r')
    ∧ Incident.assigned_responders (rt_incident r') = ["1"; "2"].
Proof.
  assert (Hroster : rt_team_members staffed_runtime ≠ []) by done.
  destruct (assemble_team_invites_selection no_ticketing_env sample_step
              staffed_runtime Hroster eq_refl)
    as (o & r' & team & Hrun & Hcalls & _ & _ & Hinc).
  exists o, r'. split; [exact Hrun |].
  rewrite Hinc. cbn.
  injection Hrun as _ <-. cbn in Hcalls. injection Hcalls as <-.
  reflexivity.
Defined.

(** X28: the logs never reach the hypothesis: the result the stock log
    handler files has no [logs] entry, so when the context holds it under
    [gather_logs] the hypothesis handler passes no logs to the analysis,
    whatever the log step was. *)
Theorem gathered_logs_do_not_reach_hypothesis
    (env : Environment) (step0 step : WorkflowStep.t) (r0 r0' r : Runtime)
    (res : ActionResult.t) :
  _handle_gather_logs step0 r0 = (Returned res, r0') →
  rt_results r !! "gather_logs" = Some res →
  ∃ o r' changes,
    _handle_generate_hypothesis env step r = (o, r')
    ∧ rt_calls r'
      = rt_calls r
        ++ [mkCall "ai.generate_root_cause_hypothesis" (Some (rt_incident r))
              [] [("logs", VNone); ("recent_changes", changes)]].
Proof.
  intros Hlogs Hres.
  unfold _handle_gather_logs in Hlogs. unfold_comp. injection Hlogs as <- _.
  unfold _handle_generate_hypothesis, upstream_field. unfold_handler. cbn.
  rewrite Hres. cbn.
  destruct (collaborator env _ (rt_calls r)); cbn; by eexists _, _, _.
Qed.

Lemma gathered_logs_do_not_reach_hypothesis_witness :
  ∃ o r' changes,
    _handle_generate_hypothesis sample_env sample_step logged_runtime
    = (o, r')
    ∧ rt_calls r'
      = [mkCall "ai.generate_root_cause_hypothesis" (Some sample_incident)
           [] [("logs", VNone); ("recent_changes", changes)]].
Proof.
  apply (gathered_logs_do_not_reach_hypothesis sample_env logs_step
           sample_step sample_runtime (tick sample_runtime) logged_runtime
           gathered_logs);
    reflexivity.
Defined.

(** ** The diagnostics stage *)

Section Diagnostics.
Context (env : Environment).
Context (declined : ∀ c h, ∃ d,
           collaborator env c h = Returned (VDict d)
           ∧ truthy (dict_get_or d "success" VNone) = false).

(** A scan in which every reply reports failure: one call per
    repository, no entry. *)
Lemma gather_declined repos call entry :
  ∀ (l : pydict) r,
    gather env repos call entry (l, r)
    = (Returned [], (l, set_rt_calls (rt_calls r ++ map call repos) r)).
Proof.
  unfold gather.
  assert (Hcollect : ∀ (l : pydict) r,
            collect repos
              (λ repo,
                 reply ← in_rt (invoke env (call repo));
                 ok ← py_get reply "success" VNone;
                 if truthy ok then e ← entry repo reply; mret (Some e)
                 else mret None) (l, r)
            = (Returned (map (λ _, None) repos),
               (l, set_rt_calls (rt_calls r ++ map call repos) r))).
  { assert (Hone : ∀ repo (l : pydict) r,
              (reply ← in_rt (invoke env (call repo));
               ok ← py_get reply "success" VNone;
               if truthy ok then e ← entry repo reply; mret (Some e)
               else mret None) (l, r)
              = (Returned None,
                 (l, set_rt_calls (rt_calls r ++ [call repo]) r))).
    { intros repo l r. unfold in_rt, zoom, invoke, py_get.
      unfold mbind at 1 2, comp_bind at 1 2. simpl fst. simpl snd.
      destruct (declined (call repo) (rt_calls r)) as (d & -> & Hok).
      unfold mret at 1, comp_ret at 1. by rewrite Hok. }
    induction repos as [| repo rest IH]; intros l r.
    - simpl. unfold mret, comp_ret. rewrite app_nil_r. by destruct r.
    - rewrite collect_cons, Hone, IH. simpl.
      destruct r. unfold set_rt_calls. simpl. by rewrite <- app_assoc. }
  intros l r. unfold mbind, comp_bind. rewrite Hcollect.
  unfold mret, comp_ret. do 2 f_equal.
  clear Hcollect. induction repos as [| repo rest IH]; [done | exact IH].
Qed.
End Diagnostics.

#[local] Arguments gather : simpl never.

(** X29: replies that report failure do not fail the diagnostics stage:
    when every collaborator answers with a dict without a truthy
    [success], the stage makes its three calls per repository (the
    organisation's main application when none is given), completes, and
    files three empty lists; the incident is untouched. *)
Theorem diagnostics_complete_on_declined_calls
    (env : Environment) (isoformat : datetime → string)
    (repositories : option (list string)) (r : Runtime) :
  (∀ c h, ∃ d,
     collaborator env c h = Returned (VDict d)
     ∧ truthy (dict_get_or d "success" VNone) = false) →
  ∃ record r' diagnostics,
    _step3_gather_diagnostics env isoformat repositories r
    = (Returned record, r')
    ∧ dict_get record "status" = Some (VStr "completed")
    ∧ dict_get record "diagnostics" = Some (VDict diagnostics)
    ∧ dict_get diagnostics "recent_commits" = Some (VList [])
    ∧ dict_get diagnostics "recent_deployments" = Some (VList [])
    ∧ dict_get diagnostics "failed_workflows" = Some (VList [])
    ∧ List.length (rt_calls r')
      = (List.length (rt_calls r)
         + 3 * List.length (scanned_repositories env repositories))%nat
    ∧ rt_incident r' = rt_incident r.
Proof.
  intros Hdeclined.
  unfold _step3_gather_diagnostics. rewrite run_stage_eq.
  unfold _step3_body.
  change (match repositories with
          | Some (repo :: rest) => repo :: rest
          | _ => [(github_org env ++ "/main-app")%string]
          end) with (scanned_repositories env repositories).
  set (repos := scanned_repositories env repositories).
  unfold stage_record. unfold_stage. unfold dict_get_or. cbn.
  rewrite (gather_declined env Hdeclined). cbn.
  rewrite (gather_declined env Hdeclined). cbn.
  rewrite (gather_declined env Hdeclined). cbn.
  eexists _, _, _. split; [reflexivity |].
  split_and!; try reflexivity.
  cbn. rewrite !length_app, !length_map. lia.
Qed.

Lemma diagnostics_complete_on_declined_calls_witness :
  ∃ record r',
    _step3_gather_diagnostics failing_env sample_isoformat None sample_runtime
    = (Returned record, r')
    ∧ dict_get record "status" = Some (VStr "completed")
    ∧ List.length (rt_calls r') = 3%nat.
Proof.
  destruct (diagnostics_complete_on_declined_calls failing_env
              sample_isoformat None sample_runtime)
    as (record & r' & diagnostics & Hrun & Hstatus & _ & _ & _ & _ & Hcalls
        & _).
  - intros c h. unfold failing_env, collaborator.
    destruct (String.eqb (call_target c) "servicenow.create_incident");
      eexists; (split; [reflexivity | reflexivity]).
  - exists record, r'. split_and!; [exact Hrun | exact Hstatus | exact Hcalls].
Defined.
